(** * Synthetic-data generation pipeline: a shallow embedding

  The first part embeds the backend of the repository:

  - [PyStr], [PyText]  the Python [str] operations the backend uses;
  - [PyFloat]         Python's [float], IEEE-754 binary64;
  - [Py]              exceptions, [try]/[except], and Python values;
  - [Json], [Yaml]    the interfaces of Python's [json] module and of
                      [yaml.safe_load];
  - [YAMLConfig]      [models/YAMLConfig.py];
  - [SampleResponse]  [models/SampleResponse.py];
  - [LLMClient]       [modules/llm_client.py];
  - [Processor]       [modules/processor.py]: the three tasks;
  - [Generator]       [modules/processor.py]: [generate_yaml_config];
  - [Routes]          [api/upload/routes.py]: the dataset endpoints;
  - [ConnectionManager], [SampleResponseConnectionManager]
                      [api/websockets]: the registries of connections;
  - [MiniJson], [Examples], [Scenarios]  a [json] and data for the examples.

  Everything that the code obtains from its environment (the clock, the
  language-model backend, the random generator, the remote dataset store,
  the dispatcher, the files of the server, the exceptions of the document
  store) is an explicit argument.

  The second part states and proves the properties: [StrFacts],
  [FloatFacts], [ExpanderFacts], [ConfigFacts], [WorkerFacts],
  [ClientFacts], [MaterializerFacts], and then [TextFacts],
  [ExpanderEdgeFacts], [ExtractionFacts], [WorkerEdgeFacts],
  [MaterializerLineFacts], [PublishFacts], [ClientShapeFacts],
  [FloatSignFacts], [MetricFacts], [AggregateFacts], [RouteFacts],
  [GeneratorFacts], [RegistryFacts], [FlowFacts]. *)

From Stdlib Require Import ZArith List String Ascii Bool Lia Floats Uint63 DecimalString.
From stdpp Require Import gmap strings.

Set Warnings "-register-all".
Local Open Scope Z_scope.

(** ** Python [str]

  A Python string is a sequence of characters; here every [ascii] stands
  for one character. *)
Module PyStr.

Definition chr (n : nat) : string := String (ascii_of_nat n) EmptyString.

(** The characters the source names in literals. *)
Definition nl : string := chr 10.
Definition cr : string := chr 13.
Definition dquote : string := chr 34.

(** [len(s)] *)
Definition len (s : string) : Z := Z.of_nat (String.length s).

(** [s.startswith(p)] *)
Fixpoint startswith (p s : string) : bool :=
  match p, s with
  | EmptyString, _ => true
  | String _ _, EmptyString => false
  | String a p', String b s' => Ascii.eqb a b && startswith p' s'
  end.

(** [s.endswith(suf)]: some suffix of [s] is [suf]. *)
Fixpoint endswith (suf s : string) : bool :=
  String.eqb suf s ||
  match s with
  | EmptyString => false
  | String _ s' => endswith suf s'
  end.

(** [sub in s] *)
Fixpoint contains (sub s : string) : bool :=
  startswith sub s ||
  match s with
  | EmptyString => false
  | String _ s' => contains sub s'
  end.

(** [s[:-1]] *)
Fixpoint drop_last (s : string) : string :=
  match s with
  | EmptyString => EmptyString
  | String c s' =>
      match s' with
      | EmptyString => EmptyString
      | String _ _ => String c (drop_last s')
      end
  end.

(** [s[1:]] *)
Definition drop_first (s : string) : string :=
  match s with
  | EmptyString => EmptyString
  | String _ s' => s'
  end.

(** [s[1:-1]] *)
Definition slice_1_m1 (s : string) : string := drop_last (drop_first s).

(** [s.replace(old, new)] for a non-empty [old]: the occurrences of [old]
    are found from left to right and do not overlap.  [skip] counts the
    characters of a matched occurrence that are still to be dropped. *)
Fixpoint replace_from (old new : string) (skip : nat) (s : string) : string :=
  match s with
  | EmptyString => EmptyString
  | String c s' =>
      match skip with
      | S k => replace_from old new k s'
      | O =>
          if startswith old s
          then new +:+ replace_from old new (String.length old - 1) s'
          else String c (replace_from old new 0 s')
      end
  end.

(** With an empty [old] Python puts [new] before every character and at
    the end. *)
Fixpoint intersperse (new s : string) : string :=
  match s with
  | EmptyString => new
  | String c s' => new +:+ String c (intersperse new s')
  end.

Definition replace (old new s : string) : string :=
  match old with
  | EmptyString => intersperse new s
  | String _ _ => replace_from old new 0 s
  end.

(** [s.split(sep)] for a non-empty [sep]; [cur] is the piece being read. *)
Fixpoint split_from (sep : string) (skip : nat) (cur s : string) : list string :=
  match s with
  | EmptyString => [cur]
  | String c s' =>
      match skip with
      | S k => split_from sep k cur s'
      | O =>
          if startswith sep s
          then cur :: split_from sep (String.length sep - 1) EmptyString s'
          else split_from sep 0 (cur +:+ String c EmptyString) s'
      end
  end.

Definition split (sep s : string) : list string := split_from sep 0 EmptyString s.

(** [c.isspace()] for the characters below 256. *)
Definition isspace (c : ascii) : bool :=
  let n := nat_of_ascii c in
  ((9 <=? n)%nat && (n <=? 13)%nat) || ((28 <=? n)%nat && (n <=? 32)%nat)
  || (n =? 133)%nat || (n =? 160)%nat.

Fixpoint lstrip (s : string) : string :=
  match s with
  | EmptyString => EmptyString
  | String c s' => if isspace c then lstrip s' else s
  end.

Fixpoint rstrip (s : string) : string :=
  match s with
  | EmptyString => EmptyString
  | String c s' =>
      match rstrip s' with
      | EmptyString => if isspace c then EmptyString else String c EmptyString
      | r => String c r
      end
  end.

(** [s.strip()] *)
Definition strip (s : string) : string := rstrip (lstrip s).

(** [s.lower()] for the characters below 256. *)
Definition lower_char (c : ascii) : ascii :=
  let n := nat_of_ascii c in
  if ((65 <=? n)%nat && (n <=? 90)%nat)
     || ((192 <=? n)%nat && (n <=? 222)%nat && negb (n =? 215)%nat)
  then ascii_of_nat (n + 32)
  else c.

Fixpoint lower (s : string) : string :=
  match s with
  | EmptyString => EmptyString
  | String c s' => String (lower_char c) (lower s')
  end.

(** Truth value of a string: [if s:] *)
Definition truthy (s : string) : bool :=
  match s with EmptyString => false | String _ _ => true end.

End PyStr.

(** ** Python [float]

  Python's [float] is IEEE-754 binary64 with round-to-nearest-even, which
  is what the kernel's primitive floats are.  An [int] literal met where a
  [float] is expected ([0], [1000]) is written as the float it converts to. *)
Module PyFloat.

(** [float(z)] for an [int]; exact for every [z] below [2^53] in absolute
    value, the range of every counter of the pipeline. *)
Definition of_int (z : Z) : float :=
  if z <? 0 then PrimFloat.opp (PrimFloat.of_uint63 (Uint63.of_Z (- z)))
  else PrimFloat.of_uint63 (Uint63.of_Z z).

(** [a / b] on two [int]s: true division.  Python raises
    [ZeroDivisionError] when [b] is zero; every division of the pipeline is
    guarded against it. *)
Definition int_truediv (a b : Z) : float := PrimFloat.div (of_int a) (of_int b).

(** [int(x)]: truncation toward zero.  Python raises on an infinity
    ([OverflowError]) and on a NaN ([ValueError]): [None]. *)
Definition to_int (x : float) : option Z :=
  match Prim2SF x with
  | S754_zero _ => Some 0
  | S754_finite s m e =>
      let v := if 0 <=? e then Z.pos m * 2 ^ e else Z.pos m / 2 ^ (- e) in
      Some (if s then - v else v)
  | S754_infinity _ => None
  | S754_nan => None
  end.

(** [x > y], [x == y] *)
Definition gt (x y : float) : bool := PrimFloat.ltb y x.
Definition eq (x y : float) : bool := PrimFloat.eqb x y.

(** A float that is neither an infinity nor a NaN. *)
Definition is_finite (x : float) : bool :=
  match Prim2SF x with
  | S754_zero _ => true
  | S754_finite _ _ _ => true
  | S754_infinity _ => false
  | S754_nan => false
  end.

Definition is_nan (x : float) : bool :=
  match Prim2SF x with
  | S754_nan => true
  | _ => false
  end.

(** A number, in the specification's form, that is not a zero and not a
    NaN. *)
Definition nonzero_number (x : spec_float) : Prop :=
  match x with
  | S754_finite _ _ _ => True
  | S754_infinity _ => True
  | S754_zero _ => False
  | S754_nan => False
  end.

End PyFloat.

(** ** Exceptions, [try]/[except], and Python values *)
Module Py.

(** The exception classes the source names or can meet; all of them derive
    from [Exception]. *)
Inductive exn_class :=
| RequestException      (* requests.exceptions.RequestException *)
| JSONDecodeError       (* json.JSONDecodeError *)
| IndexError
| TypeError
| ValueError
| AttributeError
| OverflowError
| FileNotFoundError
| DoesNotExist          (* mongoengine: no document with this id *)
| ValidationError       (* mongoengine: a document that does not validate *)
| OtherError.           (* any other subclass of Exception *)

Definition exn_class_eqb (a b : exn_class) : bool :=
  match a, b with
  | RequestException, RequestException
  | JSONDecodeError, JSONDecodeError
  | IndexError, IndexError
  | TypeError, TypeError
  | ValueError, ValueError
  | AttributeError, AttributeError
  | OverflowError, OverflowError
  | FileNotFoundError, FileNotFoundError
  | DoesNotExist, DoesNotExist
  | ValidationError, ValidationError
  | OtherError, OtherError => true
  | _, _ => false
  end.

(** An exception: its class and [str(e)]. *)
Record exn := Exn { exn_cls : exn_class; exn_str : string }.

(** The outcome of a computation that may raise. *)
Inductive result (A : Type) :=
| Ok (a : A)
| Raise (e : exn).
Arguments Ok {A} a.
Arguments Raise {A} e.

Definition bind {A B} (r : result A) (k : A -> result B) : result B :=
  match r with
  | Ok a => k a
  | Raise e => Raise e
  end.

(** [try: body  except Exception as e: handler e] *)
Definition try_except {A} (body : result A) (handler : exn -> result A) : result A :=
  match body with
  | Ok a => Ok a
  | Raise e => handler e
  end.

(** [try: body  except cls as e: handler e]: other classes propagate. *)
Definition try_except_cls {A} (cls : exn_class) (body : result A)
    (handler : exn -> result A) : result A :=
  match body with
  | Ok a => Ok a
  | Raise e => if exn_class_eqb (exn_cls e) cls then handler e else Raise e
  end.

Definition returns {A} (r : result A) : Prop := exists a, r = Ok a.

(** Python values, as far as the pipeline builds or inspects them: what
    [json.loads] returns, what [json.dumps] takes, and the dictionaries the
    client and the tasks return.  A [Dict] lists its items in insertion
    order; its keys are strings and pairwise different. *)
Inductive value :=
| None_
| Bool (b : bool)
| Int (z : Z)
| Float (f : float)
| Str (s : string)
| List (l : list value)
| Dict (items : list (string * value)).

(** [d.get(k)] on the items of a dictionary *)
Fixpoint lookup_item (k : string) (items : list (string * value)) : option value :=
  match items with
  | [] => None
  | (k', v) :: rest => if String.eqb k k' then Some v else lookup_item k rest
  end.

(** [d[k] = v] on the items of a dictionary: an existing key keeps its
    place. *)
Fixpoint set_item (k : string) (v : value) (items : list (string * value))
  : list (string * value) :=
  match items with
  | [] => [(k, v)]
  | (k', v') :: rest =>
      if String.eqb k k' then (k, v) :: rest else (k', v') :: set_item k v rest
  end.

(** [k in x] for a string [k] *)
Definition contains_key (k : string) (x : value) : result bool :=
  match x with
  | Dict items => Ok (match lookup_item k items with Some _ => true | None => false end)
  | List l =>
      Ok (existsb (fun y => match y with Str s => String.eqb s k | _ => false end) l)
  | Str s => Ok (PyStr.contains k s)
  | _ => Raise (Exn TypeError "argument is not iterable")
  end.

(** [x[k]] for a string [k] *)
Definition getitem (x : value) (k : string) : result value :=
  match x with
  | Dict items =>
      match lookup_item k items with
      | Some v => Ok v
      | None => Raise (Exn OtherError k)      (* KeyError *)
      end
  | _ => Raise (Exn TypeError "indices must be integers")
  end.

(** [len(x)] *)
Definition len (x : value) : result Z :=
  match x with
  | Str s => Ok (PyStr.len s)
  | List l => Ok (Z.of_nat (length l))
  | Dict items => Ok (Z.of_nat (length items))
  | _ => Raise (Exn TypeError "object has no len()")
  end.

(** [isinstance(x, list)] *)
Definition is_list (x : value) : bool :=
  match x with List _ => true | _ => false end.

End Py.

(** [x ← r; k] sequences two computations: an exception of [r] ends the
    whole. *)
#[export] Instance result_ret : MRet Py.result := @Py.Ok.
#[export] Instance result_bind : MBind Py.result := fun A B k r => Py.bind r k.

(** ** The interface of Python's [json] module

  [json] belongs to Python's library, not to the repository: the pipeline
  is stated over any implementation of its two functions. *)
Module Json.

Class Lib := {
  (** [json.loads(s)]; raises [JSONDecodeError] on a text that is not JSON. *)
  loads : string -> Py.result Py.value;
  (** [json.dumps(x)] *)
  dumps : Py.value -> string
}.

End Json.

(** ** [models/YAMLConfig.py]

  The embedded documents and fields that no task of the pipeline reads
  (prompt structure, quality controls, diversity parameters, evaluation
  metrics, required criteria, raw YAML) are left out. *)
Module YAMLConfig.

Record SamplingParameters := {
  sp_temperature_range : list float;
  sp_top_p : float
}.

Record DatasetParameters := {
  dp_output_format : string;
  dp_task_description : string;
  dp_max_tokens : Z;
  dp_seed_value : Z;
  dp_validation_rules : list string
}.

Record t := {
  id : string;
  name : string;
  number_of_samples : Z;
  model : string;
  user_prompt : string;
  sampling_parameters : option SamplingParameters;
  dataset_parameters : option DatasetParameters;
  example_inputs : list string;
  (* Dataset upload fields *)
  dataset_id : option string;
  dataset_uploaded : bool;
  dataset_upload_response : Py.value;
  (* Performance metrics: sums, for atomic updates *)
  total_responses_generated : Z;
  tokens_per_second_sum : float;
  time_to_first_token_sum : float;
  queries_per_second_sum : float;
  average_latency_sum : float;
  total_tokens_sum : Z
}.

(** Properties that compute the averages. *)
Definition tokens_per_second (c : t) : float :=
  if 0 <? total_responses_generated c
  then PrimFloat.div (tokens_per_second_sum c) (PyFloat.of_int (total_responses_generated c))
  else PrimFloat.zero.

Definition time_to_first_token (c : t) : float :=
  if 0 <? total_responses_generated c
  then PrimFloat.div (time_to_first_token_sum c) (PyFloat.of_int (total_responses_generated c))
  else PrimFloat.zero.

Definition queries_per_second (c : t) : float :=
  if 0 <? total_responses_generated c
  then PrimFloat.div (queries_per_second_sum c) (PyFloat.of_int (total_responses_generated c))
  else PrimFloat.zero.

Definition average_latency (c : t) : float :=
  if 0 <? total_responses_generated c
  then PrimFloat.div (average_latency_sum c) (PyFloat.of_int (total_responses_generated c))
  else PrimFloat.zero.

Definition average_tokens (c : t) : float :=
  if 0 <? total_responses_generated c
  then PyFloat.int_truediv (total_tokens_sum c) (total_responses_generated c)
  else PrimFloat.zero.

(** Properties that read the nested fields. *)
Definition temperature_range (c : t) : option (list float) :=
  match sampling_parameters c with
  | Some sp => Some (sp_temperature_range sp)
  | None => None
  end.

Definition top_p (c : t) : option float :=
  match sampling_parameters c with
  | Some sp => Some (sp_top_p sp)
  | None => None
  end.

Definition output_format (c : t) : option string :=
  match dataset_parameters c with
  | Some dp => Some (dp_output_format dp)
  | None => None
  end.

Definition max_tokens (c : t) : option Z :=
  match dataset_parameters c with
  | Some dp => Some (dp_max_tokens dp)
  | None => None
  end.

Definition seed_value (c : t) : option Z :=
  match dataset_parameters c with
  | Some dp => Some (dp_seed_value dp)
  | None => None
  end.

(** The update [update_one(inc__total_responses_generated=n,
    inc__tokens_per_second_sum=tps, ...)] on one document: MongoDB's [$inc]
    adds to each named field. *)
Definition inc (n : Z) (tps ttft qps lat : float) (tok : Z) (c : t) : t :=
  {| id := id c;
     name := name c;
     number_of_samples := number_of_samples c;
     model := model c;
     user_prompt := user_prompt c;
     sampling_parameters := sampling_parameters c;
     dataset_parameters := dataset_parameters c;
     example_inputs := example_inputs c;
     dataset_id := dataset_id c;
     dataset_uploaded := dataset_uploaded c;
     dataset_upload_response := dataset_upload_response c;
     total_responses_generated := total_responses_generated c + n;
     tokens_per_second_sum := PrimFloat.add (tokens_per_second_sum c) tps;
     time_to_first_token_sum := PrimFloat.add (time_to_first_token_sum c) ttft;
     queries_per_second_sum := PrimFloat.add (queries_per_second_sum c) qps;
     average_latency_sum := PrimFloat.add (average_latency_sum c) lat;
     total_tokens_sum := total_tokens_sum c + tok |}.

(** Assignments to the upload fields. *)
Definition set_dataset_id (d : string) (c : t) : t :=
  {| id := id c;
     name := name c;
     number_of_samples := number_of_samples c;
     model := model c;
     user_prompt := user_prompt c;
     sampling_parameters := sampling_parameters c;
     dataset_parameters := dataset_parameters c;
     example_inputs := example_inputs c;
     dataset_id := Some d;
     dataset_uploaded := dataset_uploaded c;
     dataset_upload_response := dataset_upload_response c;
     total_responses_generated := total_responses_generated c;
     tokens_per_second_sum := tokens_per_second_sum c;
     time_to_first_token_sum := time_to_first_token_sum c;
     queries_per_second_sum := queries_per_second_sum c;
     average_latency_sum := average_latency_sum c;
     total_tokens_sum := total_tokens_sum c |}.

Definition set_upload (uploaded : option bool) (response : Py.value) (c : t) : t :=
  {| id := id c;
     name := name c;
     number_of_samples := number_of_samples c;
     model := model c;
     user_prompt := user_prompt c;
     sampling_parameters := sampling_parameters c;
     dataset_parameters := dataset_parameters c;
     example_inputs := example_inputs c;
     dataset_id := dataset_id c;
     dataset_uploaded :=
       match uploaded with Some b => b | None => dataset_uploaded c end;
     dataset_upload_response := response;
     total_responses_generated := total_responses_generated c;
     tokens_per_second_sum := tokens_per_second_sum c;
     time_to_first_token_sum := time_to_first_token_sum c;
     queries_per_second_sum := queries_per_second_sum c;
     average_latency_sum := average_latency_sum c;
     total_tokens_sum := total_tokens_sum c |}.

End YAMLConfig.

(** ** [models/SampleResponse.py] *)
Module SampleResponse.

Record t := {
  yaml_config_id : string;
  (* Input parameters *)
  temperature : float;
  top_p : option float;
  prompt : string;
  input_request : option string;
  max_tokens : option Z;
  seed_value : option Z;
  model : string;
  (* Response data *)
  response_text : string;
  (* Performance metrics *)
  tokens_per_second : float;
  time_to_first_token : float;   (* in milliseconds *)
  latency : float;               (* in milliseconds *)
  total_tokens : Z
}.

End SampleResponse.

(** ** The document store

  The two collections the tasks use.  [yaml_configs] is keyed by the
  document id; [sample_responses] keeps the order in which the store
  returns the documents of a query. *)
Record db := {
  sample_responses : list SampleResponse.t;
  yaml_configs : gmap string YAMLConfig.t
}.

(** ** [modules/llm_client.py] *)
Module LLMClient.

Import Py.

(** *** The schema argument: a Pydantic model class *)

(** [field.annotation], as far as the client compares it. *)
Inductive annotation :=
| A_str | A_int | A_float | A_bool | A_list | A_dict
| A_other.   (* a nested model, [List[...]], [Optional[...]], ... *)

Record FieldInfo := {
  field_annotation : annotation;
  default_factory : option (unit -> value)
}.

Record schema_model := {
  (** [model_fields]: the declared fields, in declaration order *)
  model_fields : list (string * FieldInfo);
  (** [model_json_schema()] *)
  model_json_schema : result value
}.

(** *** The backend: [self.client.chat.completions.create] *)

Inductive part :=
| text_part (text : string)         (* {"type": "text", "text": ...} *)
| image_url_part (url : string).    (* {"type": "image_url", "image_url": {"url": ...}} *)

Inductive content :=
| plain (s : string)
| parts (l : list part).

Record message := { role : string; message_content : content }.

Record request := {
  rq_model : string;
  rq_messages : list message;
  rq_response_format : option value;
  rq_max_tokens : option Z;
  rq_temperature : float;
  rq_top_p : option float;
  rq_stream : bool
}.

(** One chunk of a streamed answer: [choices[k].delta.content] for each
    choice. *)
Record chunk := { chunk_choices : list (option string) }.

(** What the iteration over a streamed answer meets next: a chunk, with the
    reading of the clock when it arrives, or an error of the transport. *)
Inductive stream_event :=
| delivered (arrival : float) (c : chunk)
| failed (e : exn).

(** An answer: [choices[k].message.content] for each choice, or a stream. *)
Inductive response :=
| completion (choices : list (option string))
| stream (events : list stream_event).

Definition backend := request -> result response.

(** The readings of [time.time()] before the request and after the stream. *)
Record clock := { start_time : float; end_time : float }.

(** The files a document path can name: [os.path.exists], and the file's
    bytes in base64. *)
Record files := {
  path_exists : string -> bool;
  read_base64 : string -> result string
}.

Record t := {
  api_key : option string;
  model : string;
  max_tokens : Z;
  temperature : float;
  client : backend
}.

(** [__init__] *)
Definition init (config_key : option string) (completions : backend)
    (api_key : option string) : t :=
  {| api_key := match api_key with
                | Some k => if PyStr.truthy k then Some k else config_key
                | None => config_key
                end;
     model := "accounts/fireworks/models/llama-v3p3-70b-instruct";
     max_tokens := 4096;
     temperature := PrimFloat.div (PyFloat.of_int 6) (PyFloat.of_int 10);
     client := completions |}.

(** [_create_message_with_documents] *)
Definition document_part (fs : files) (doc_path : string) : list part :=
  if path_exists fs doc_path then
    match
      try_except
        (if PyStr.endswith ".pdf" (PyStr.lower doc_path) then
           base64_content ← read_base64 fs doc_path;
           Ok [image_url_part ("data:application/pdf;base64," +:+ base64_content
                               +:+ "#transform=inline")]
         else Ok [])
        (fun _ => Ok [])
    with
    | Ok l => l
    | Raise _ => []
    end
  else [].

Definition _create_message_with_documents (fs : files) (prompt : string)
    (documents : list (string * string)) : list message :=
  match documents with
  | [] => [ {| role := "user"; message_content := plain prompt |} ]
  | _ =>
      let content_parts :=
        text_part prompt :: flat_map (fun d => document_part fs (snd d)) documents in
      [ {| role := "user"; message_content := parts content_parts |} ]
  end.

(** [response.choices[0].message.content] *)
Definition first_message_content (r : response) : result (option string) :=
  match r with
  | completion (c :: _) => Ok c
  | completion [] => Raise (Exn IndexError "list index out of range")
  | stream _ => Raise (Exn AttributeError "object has no attribute 'choices'")
  end.

(** The [try] block of [generate_text]. *)
Definition generate_text_try (self : t) (fs : files) (prompt : string)
    (documents : list (string * string)) : result (option string) :=
  let messages := _create_message_with_documents fs prompt documents in
  response ← client self
    {| rq_model := model self;
       rq_messages := messages;
       rq_response_format := None;
       rq_max_tokens := Some (max_tokens self);
       rq_temperature := temperature self;
       rq_top_p := None;
       rq_stream := false |};
  first_message_content response.

(** [generate_text] *)
Definition generate_text (self : t) (fs : files) (prompt : string)
    (documents : list (string * string)) : result (option string) :=
  try_except
    (generate_text_try self fs prompt documents)
    (fun e => Ok (Some ("Error generating response: " +:+ exn_str e))).

(** The [except] branch of [generate_structured_json]: one default per
    field of the schema. *)
Definition default_for (e : exn) (field_name : string) (field : FieldInfo) : value :=
  if String.eqb field_name "explanation" then
    Str ("Error generating explanation: " +:+ exn_str e)
  else
    match field_annotation field with
    | A_str => Str ""
    | A_int | A_float => Int 0
    | A_bool => Bool false
    | A_list => List []
    | A_dict => Dict []
    | A_other =>
        match default_factory field with
        | Some factory => factory tt
        | None => None_
        end
    end.

Definition default_values (e : exn) (schema : schema_model) : list (string * value) :=
  fold_left
    (fun acc nf => set_item (fst nf) (default_for e (fst nf) (snd nf)) acc)
    (model_fields schema) [].

(** [x[k] = v] *)
Definition setitem (x : value) (k : string) (v : value) : result value :=
  match x with
  | Dict items => Ok (Dict (set_item k v items))
  | _ => Raise (Exn TypeError "object does not support item assignment")
  end.

(** [json.loads(json_content)] on the content of a message, which may be
    [None]. *)
Definition loads_content `{Json.Lib} (json_content : option string) : result value :=
  match json_content with
  | Some s => Json.loads s
  | None => Raise (Exn TypeError "the JSON object must be str, bytes or bytearray")
  end.

Definition has_field (k : string) (schema : schema_model) : bool :=
  existsb (fun nf => String.eqb (fst nf) k) (model_fields schema).

(** The [try] block of [generate_structured_json]. *)
Definition generate_structured_json_try `{Json.Lib} (self : t) (fs : files)
    (prompt : string) (schema : schema_model) (documents : list (string * string))
  : result value :=
  let messages := _create_message_with_documents fs prompt documents in
  json_schema ← model_json_schema schema;
  response ← client self
    {| rq_model := model self;
       rq_messages := messages;
       rq_response_format :=
         Some (Dict [("type", Str "json_object"); ("schema", json_schema)]);
       rq_max_tokens := Some (max_tokens self);
       rq_temperature := temperature self;
       rq_top_p := None;
       rq_stream := false |};
  json_content ← first_message_content response;
  _ ← loads_content json_content;          (* the debug print parses once *)
  parsed_content ← loads_content json_content;
  if has_field "explanation" schema then
    present ← contains_key "explanation" parsed_content;
    if negb present
    then setitem parsed_content "explanation"
           (Str "No explanation provided by the model.")
    else Ok parsed_content
  else Ok parsed_content.

(** [generate_structured_json] *)
Definition generate_structured_json `{Json.Lib} (self : t) (fs : files)
    (prompt : string) (schema : schema_model) (documents : list (string * string))
  : result value :=
  try_except
    (generate_structured_json_try self fs prompt schema documents)
    (fun e => Ok (Dict (default_values e schema))).

(** *** Streaming with metrics *)

Record metrics := {
  time_to_first_token : float;   (* in seconds *)
  total_tokens : Z;
  tokens_per_second : float;
  total_time : float             (* in seconds *)
}.

(** The dictionary of the [except] branches. *)
Definition zero_metrics : metrics :=
  {| time_to_first_token := PrimFloat.zero;
     total_tokens := 0;
     tokens_per_second := PrimFloat.zero;
     total_time := PrimFloat.zero |}.

(** The state of the loop [for chunk in response]. *)
Record progress := {
  first_token_time : option float;
  tokens : float;
  response_text : string
}.

Definition initial : progress :=
  {| first_token_time := None; tokens := PrimFloat.zero; response_text := "" |}.

(** One turn of the loop body. *)
Definition on_chunk (start : float) (arrival : float) (c : chunk) (p : progress)
  : result progress :=
  let first :=
    match first_token_time p with
    | None => Some (PrimFloat.sub arrival start)
    | Some x => Some x
    end in
  match chunk_choices c with
  | [] => Raise (Exn IndexError "list index out of range")
  | delta_content :: _ =>
      match delta_content with
      | Some s =>
          if PyStr.truthy s then
            Ok {| first_token_time := first;
                  tokens := PrimFloat.add (tokens p) (PyFloat.int_truediv (PyStr.len s) 4);
                  response_text := response_text p +:+ s |}
          else
            Ok {| first_token_time := first;
                  tokens := tokens p;
                  response_text := response_text p |}
      | None =>
          Ok {| first_token_time := first;
                tokens := tokens p;
                response_text := response_text p |}
      end
  end.

Fixpoint consume (start : float) (events : list stream_event) (p : progress)
  : result progress :=
  match events with
  | [] => Ok p
  | failed e :: _ => Raise e
  | delivered arrival c :: rest =>
      p' ← on_chunk start arrival c p;
      consume start rest p'
  end.

(** [int(total_tokens)] *)
Definition int_tokens (x : float) : result Z :=
  match PyFloat.to_int x with
  | Some n => Ok n
  | None => Raise (Exn OverflowError "cannot convert float to integer")
  end.

(** The body shared by the two streaming operations, from the iteration
    over the answer to the [return]. *)
Definition measure (clk : clock) (r : response) : result (string * metrics) :=
  match r with
  | completion _ => Raise (Exn AttributeError "object has no attribute 'choices'")
  | stream events =>
      p ← consume (start_time clk) events initial;
      let total := PrimFloat.sub (end_time clk) (start_time clk) in
      let tps :=
        if PyFloat.gt total PrimFloat.zero
        then PrimFloat.div (tokens p) total
        else PrimFloat.zero in
      let first :=
        match first_token_time p with
        | None => total
        | Some x => x
        end in
      n ← int_tokens (tokens p);
      Ok (response_text p,
          {| time_to_first_token := first;
             total_tokens := n;
             tokens_per_second := tps;
             total_time := total |})
  end.

(** The [try] block of [generate_response_with_metrics]; [seed] is
    accepted and not sent. *)
Definition generate_response_with_metrics_try (self : t) (clk : clock)
    (prompt : string) (temperature : float) (top_p : option float)
    (max_tokens : option Z) (seed : option Z) (model : string)
  : result (string * metrics) :=
  response ← client self
    {| rq_model := model;
       rq_messages := [ {| role := "user"; message_content := plain prompt |} ];
       rq_response_format := None;
       rq_max_tokens := max_tokens;
       rq_temperature := temperature;
       rq_top_p := top_p;
       rq_stream := true |};
  measure clk response.

(** [generate_response_with_metrics] *)
Definition generate_response_with_metrics (self : t) (clk : clock)
    (prompt : string) (temperature : float) (top_p : option float)
    (max_tokens : option Z) (seed : option Z) (model : string)
  : result (string * metrics) :=
  try_except
    (generate_response_with_metrics_try self clk prompt temperature top_p
       max_tokens seed model)
    (fun _ => Ok ("", zero_metrics)).

(** The [try] block of [generate_structured_response_with_metrics]. *)
Definition generate_structured_response_with_metrics_try (self : t) (clk : clock)
    (prompt : string) (schema : schema_model) (temperature : float)
    (top_p : option float) (max_tokens : option Z) (seed : option Z)
    (model : string) : result (string * metrics) :=
  json_schema ← model_json_schema schema;
  response ← client self
    {| rq_model := model;
       rq_messages := [ {| role := "user"; message_content := plain prompt |} ];
       rq_response_format :=
         Some (Dict [("type", Str "json_object"); ("schema", json_schema)]);
       rq_max_tokens := max_tokens;
       rq_temperature := temperature;
       rq_top_p := top_p;
       rq_stream := true |};
  measure clk response.

(** [generate_structured_response_with_metrics] *)
Definition generate_structured_response_with_metrics (self : t) (clk : clock)
    (prompt : string) (schema : schema_model) (temperature : float)
    (top_p : option float) (max_tokens : option Z) (seed : option Z)
    (model : string) : result (string * metrics) :=
  try_except
    (generate_structured_response_with_metrics_try self clk prompt schema
       temperature top_p max_tokens seed model)
    (fun _ => Ok ("", zero_metrics)).

(** *** What a stream delivers

  The notions in which the metrics of a streamed call are stated. *)

(** The text of a chunk that carries one: the content of its first choice
    when it is not empty. *)
Definition chunk_text (ev : stream_event) : option string :=
  match ev with
  | delivered _ c =>
      match chunk_choices c with
      | Some s :: _ => if PyStr.truthy s then Some s else None
      | _ => None
      end
  | failed _ => None
  end.

Definition delivered_texts (events : list stream_event) : list string :=
  omap chunk_text events.

(** The running estimate [total_tokens += len(content) / 4]. *)
Definition estimate_from (start : float) (texts : list string) : float :=
  fold_left (fun acc s => PrimFloat.add acc (PyFloat.int_truediv (PyStr.len s) 4))
            texts start.

Definition estimate (texts : list string) : float :=
  estimate_from PrimFloat.zero texts.

Definition concat_texts (texts : list string) : string :=
  fold_left (fun acc s => acc +:+ s) texts "".

(** *** The remote dataset store

  The outcome of [requests.post(...)], [raise_for_status()] and
  [response.json()] taken together. *)
Definition posted := result value.

(** [create_dataset] *)
Definition create_dataset (post : posted) : result value :=
  try_except_cls RequestException post
    (fun e => Ok (Dict [("error", Str (exn_str e))])).

(** [upload_dataset] *)
Definition upload_dataset (file_exists : bool) (file_path : string) (post : posted)
  : result value :=
  if negb file_exists
  then Raise (Exn FileNotFoundError ("File not found: " +:+ file_path))
  else try_except_cls RequestException post
         (fun e => Ok (Dict [("error", Str (exn_str e))])).

End LLMClient.

(** ** [models/ResponseStructure.py]: the schema the worker asks for

  One field, [messages : List[Message]]; [schema_json] is what
  [model_json_schema()] gives for it. *)
Definition ResponseStructure (schema_json : Py.result Py.value) : LLMClient.schema_model :=
  {| LLMClient.model_fields :=
       [("messages",
         {| LLMClient.field_annotation := LLMClient.A_other;
            LLMClient.default_factory := None |})];
     LLMClient.model_json_schema := schema_json |}.

(** ** [modules/processor.py] *)
Module Processor.

Import Py.

(** *** The Job Expander: [process_yaml_config] *)

(** The positional arguments of one submission
    [generate_sample_response.delay(...)]. *)
Record work_item := {
  wi_yaml_config_id : string;
  wi_temperature : float;
  wi_top_p : option float;
  wi_prompt : string;
  wi_max_tokens : option Z;
  wi_seed_value : option Z;
  wi_model : string;
  wi_output_format : option string
}.

Definition placeholder : string := "{input_request}".
Definition placeholder_trailer : string :=
  PyStr.nl +:+ PyStr.nl +:+ "Context for this dataset: {input_request}".

Definition instruction_marker : string := "IMPORTANT: Return ONLY the JSON object".
Definition json_instructions : string :=
  PyStr.nl +:+ "            " +:+ PyStr.nl
  +:+ "IMPORTANT: Return ONLY the JSON object with the messages array containing exactly one user message and one assistant message."
  +:+ PyStr.nl
  +:+ "Do not include any explanations or additional text. The output must be valid JSON."
  +:+ PyStr.nl.

(** The two checks on the prompt template. *)
Definition add_placeholder (prompt_template : string) : string :=
  if negb (PyStr.contains placeholder prompt_template)
  then prompt_template +:+ placeholder_trailer
  else prompt_template.

Definition add_instructions (prompt_template : string) : string :=
  if negb (PyStr.contains instruction_marker prompt_template)
  then prompt_template +:+ json_instructions
  else prompt_template.

Definition repair_prompt (prompt_template : string) : string :=
  add_instructions (add_placeholder prompt_template).

(** [random.choice(l)] on a non-empty list, given the integer drawn. *)
Definition random_choice (draw : nat) (l : list string) : string :=
  nth (draw mod length l) l "".

(** "Clean up the input - remove quotes if present" *)
Definition clean_input (selected_input : string) : string :=
  if PyStr.startswith PyStr.dquote selected_input
     && PyStr.endswith PyStr.dquote selected_input
  then PyStr.slice_1_m1 selected_input
  else selected_input.

(** [min_temp, max_temp = yaml_config.temperature_range] *)
Definition unpack_range (r : option (list float)) : result (float * float) :=
  match r with
  | Some [min_temp; max_temp] => Ok (min_temp, max_temp)
  | Some _ => Raise (Exn ValueError "wrong number of values to unpack")
  | None => Raise (Exn TypeError "cannot unpack non-iterable NoneType object")
  end.

(** The temperature of sample [i] out of [n]. *)
Definition temperature_at (min_temp max_temp : float) (n i : Z) : float :=
  PrimFloat.add min_temp
    (PrimFloat.mul (PrimFloat.sub max_temp min_temp)
                   (PyFloat.int_truediv i (Z.max 1 (n - 1)))).

(** The body of the loop [for i in range(number_of_samples)], up to the
    submission. *)
Definition make_item (yaml_config : YAMLConfig.t) (example_inputs : list string)
    (prompt_template : string) (draw : nat) (i : Z) : result work_item :=
  range ← unpack_range (YAMLConfig.temperature_range yaml_config);
  let temperature :=
    temperature_at (fst range) (snd range) (YAMLConfig.number_of_samples yaml_config) i in
  let selected_input := clean_input (random_choice draw example_inputs) in
  let complete_prompt := PyStr.replace placeholder selected_input prompt_template in
  Ok {| wi_yaml_config_id := YAMLConfig.id yaml_config;
        wi_temperature := temperature;
        wi_top_p := YAMLConfig.top_p yaml_config;
        wi_prompt := complete_prompt;
        wi_max_tokens := YAMLConfig.max_tokens yaml_config;
        wi_seed_value := YAMLConfig.seed_value yaml_config;
        wi_model := YAMLConfig.model yaml_config;
        wi_output_format := YAMLConfig.output_format yaml_config |}.

(** [range(n)] *)
Definition range (n : Z) : list Z := map Z.of_nat (seq 0 (Z.to_nat n)).

(** The loop: [queue] holds the submissions made so far, oldest first; an
    exception leaves the loop with the submissions already made.  The
    dispatcher's [delay] is fire-and-forget and always returns. *)
Fixpoint submit_all (yaml_config : YAMLConfig.t) (example_inputs : list string)
    (prompt_template : string) (draws : Z -> nat) (indices : list Z)
    (queue : list work_item) : list work_item * result unit :=
  match indices with
  | [] => (queue, Ok tt)
  | i :: rest =>
      match make_item yaml_config example_inputs prompt_template (draws i) i with
      | Ok item =>
          submit_all yaml_config example_inputs prompt_template draws rest
                     (queue ++ [item])
      | Raise e => (queue, Raise e)
      end
  end.

(** "Get the example inputs from the YAML config": one placeholder input
    when the configuration has none. *)
Definition example_pool (yaml_config : YAMLConfig.t) : list string :=
  match YAMLConfig.example_inputs yaml_config with
  | [] => ["Create a sample dataset entry relevant to this topic"]
  | l => l
  end.

(** [process_yaml_config(mongo_id)]: the submissions and the value
    returned.  [draws i] is the integer the random generator gives in turn
    [i]. *)
Definition process_yaml_config (store : db) (draws : Z -> nat) (mongo_id : string)
  : list work_item * bool :=
  match yaml_configs store !! mongo_id with
  | None => ([], false)                        (* DoesNotExist, caught *)
  | Some yaml_config =>
      let example_inputs := example_pool yaml_config in
      let prompt_template := repair_prompt (YAMLConfig.user_prompt yaml_config) in
      match submit_all yaml_config example_inputs prompt_template draws
                       (range (YAMLConfig.number_of_samples yaml_config)) [] with
      | (queue, Ok _) => (queue, true)
      | (queue, Raise _) => (queue, false)
      end
  end.

(** *** The Sample Worker: [generate_sample_response] *)

(** What one run of the worker obtains from outside. *)
Record worker_env := {
  (** [LLMClient()] *)
  new_client : result LLMClient.t;
  (** [time.time()] at the start and at the end of the worker *)
  started : float;
  finished : float;
  (** the clock as the client reads it during the call *)
  client_clock : LLMClient.clock;
  (** [ResponseStructure.model_json_schema()] *)
  schema_json : result value;
  (** [SampleResponse(...).save()] and [update_one(...)]: the exception the
      store raises, if any; a call that raises writes nothing *)
  save_raises : option exn;
  update_raises : option exn
}.

Definition context_marker : string := "Context for this dataset:".
Definition follow_on : string := "Generate a realistic".

(** "Try to extract the input request from the prompt, if available" *)
Definition extract_input_request (prompt : string) : option string :=
  if PyStr.contains context_marker prompt then
    let parts := PyStr.split context_marker prompt in
    if (1 <? length parts)%nat then
      let input_request := PyStr.strip (nth 1 parts "") in
      if PyStr.contains follow_on input_request
      then Some (PyStr.strip (nth 0 (PyStr.split follow_on input_request) ""))
      else Some input_request
    else None
  else None.

Definition looks_like_object (text : string) : bool :=
  PyStr.startswith "{" (PyStr.strip text) && PyStr.endswith "}" (PyStr.strip text).

(** "Clean up and validate the response": it only reports. *)
Definition validate_response `{Json.Lib} (response_text : string) : result unit :=
  try_except_cls JSONDecodeError
    (if looks_like_object response_text then
       parsed_response ← Json.loads response_text;
       has ← contains_key "messages" parsed_response;
       if (has : bool) then
         messages ← getitem parsed_response "messages";
         if is_list messages then (_ ← len messages; Ok tt) else Ok tt
       else Ok tt
     else Ok tt)
    (fun _ => Ok tt).

(** [qps = 1000 / latency_ms if latency_ms > 0 else 0] *)
Definition qps_of (latency_ms : float) : float :=
  if PyFloat.gt latency_ms PrimFloat.zero
  then PrimFloat.div (PyFloat.of_int 1000) latency_ms
  else PrimFloat.zero.

Definition to_ms (seconds : float) : float :=
  PrimFloat.mul seconds (PyFloat.of_int 1000).

(** The document the worker builds. *)
Definition sample_of (w : work_item) (input_request : option string)
    (response_text : string) (m : LLMClient.metrics) (latency_ms : float)
  : SampleResponse.t :=
  {| SampleResponse.yaml_config_id := wi_yaml_config_id w;
     SampleResponse.temperature := wi_temperature w;
     SampleResponse.top_p := wi_top_p w;
     SampleResponse.prompt := wi_prompt w;
     SampleResponse.input_request := input_request;
     SampleResponse.max_tokens := wi_max_tokens w;
     SampleResponse.seed_value := wi_seed_value w;
     SampleResponse.model := wi_model w;
     SampleResponse.response_text := response_text;
     SampleResponse.tokens_per_second := LLMClient.tokens_per_second m;
     SampleResponse.time_to_first_token := to_ms (LLMClient.time_to_first_token m);
     SampleResponse.latency := latency_ms;
     SampleResponse.total_tokens := LLMClient.total_tokens m |}.

(** [SampleResponse(...).save()] *)
Definition save (env : worker_env) (s : SampleResponse.t) (store : db)
  : db * result unit :=
  match save_raises env with
  | Some e => (store, Raise e)
  | None =>
      ({| sample_responses := sample_responses store ++ [s];
          yaml_configs := yaml_configs store |}, Ok tt)
  end.

(** [YAMLConfig.objects(id=yaml_config_id).update_one(inc__...)]: one
    atomic update of the document with this id, if there is one. *)
Definition update_one (env : worker_env) (yaml_config_id : string)
    (m : LLMClient.metrics) (latency_ms : float) (store : db) : db * result unit :=
  match update_raises env with
  | Some e => (store, Raise e)
  | None =>
      ({| sample_responses := sample_responses store;
          yaml_configs :=
            alter (YAMLConfig.inc 1
                     (LLMClient.tokens_per_second m)
                     (to_ms (LLMClient.time_to_first_token m))
                     (qps_of latency_ms)
                     latency_ms
                     (LLMClient.total_tokens m))
                  yaml_config_id (yaml_configs store) |}, Ok tt)
  end.

(** The steps of the worker before it writes: the client, the generation,
    the validation, the latency. *)
Definition prepare `{Json.Lib} (env : worker_env) (w : work_item)
  : result (SampleResponse.t * LLMClient.metrics * float) :=
  llm_client ← new_client env;
  let input_request := extract_input_request (wi_prompt w) in
  generated ← LLMClient.generate_structured_response_with_metrics
                 llm_client (client_clock env) (wi_prompt w)
                 (ResponseStructure (schema_json env))
                 (wi_temperature w) (wi_top_p w) (wi_max_tokens w) None (wi_model w);
  let response_text := fst generated in
  let metrics := snd generated in
  _ ← validate_response response_text;
  let latency_ms := to_ms (PrimFloat.sub (finished env) (started env)) in
  Ok (sample_of w input_request response_text metrics latency_ms, metrics, latency_ms).

(** [generate_sample_response(...)]: the store afterwards and the value
    returned.  The [try] covers every step; what a step has written stays
    written when a later step raises. *)
Definition generate_sample_response `{Json.Lib} (env : worker_env) (w : work_item)
    (store : db) : db * bool :=
  match prepare env w with
  | Raise _ => (store, false)
  | Ok (sample, metrics, latency_ms) =>
      match save env sample store with
      | (store1, Raise _) => (store1, false)
      | (store1, Ok _) =>
          match update_one env (wi_yaml_config_id w) metrics latency_ms store1 with
          | (store2, Raise _) => (store2, false)
          | (store2, Ok _) => (store2, true)
          end
      end
  end.

(** *** The Dataset Materializer: [upload_dataset]

  [api/upload/routes.py] ([download_dataset]) writes the file with a copy
  of the same loop body. *)

(** The first attempt on a sample: the line written when the response text
    is used as it is, [None] when the loop body goes on to the fallback. *)
Definition emit_parsed `{Json.Lib} (sample : SampleResponse.t) : result (option string) :=
  try_except_cls JSONDecodeError
    (if looks_like_object (SampleResponse.response_text sample) then
       parsed ← Json.loads (SampleResponse.response_text sample);
       has ← contains_key "messages" parsed;
       if (has : bool) then
         messages ← getitem parsed "messages";
         n ← len messages;
         if n =? 2 then Ok (Some (Json.dumps parsed +:+ PyStr.nl)) else Ok None
       else Ok None
     else Ok None)
    (fun _ => Ok None).

(** The entry of the fallback. *)
Definition entry_of (input_request response_text : string) : value :=
  Dict [("messages",
         List [Dict [("role", Str "user"); ("content", Str input_request)];
               Dict [("role", Str "assistant"); ("content", Str response_text)]])].

Definition sanitize (response_text : string) : string :=
  PyStr.replace PyStr.cr " " (PyStr.replace PyStr.nl " " response_text).

Definition emit_fallback `{Json.Lib} (sample : SampleResponse.t) : string :=
  match SampleResponse.input_request sample with
  | Some input_request =>
      if PyStr.truthy input_request && PyStr.truthy (SampleResponse.response_text sample)
      then Json.dumps (entry_of input_request (SampleResponse.response_text sample))
           +:+ PyStr.nl
      else sanitize (SampleResponse.response_text sample) +:+ PyStr.nl
  | None => sanitize (SampleResponse.response_text sample) +:+ PyStr.nl
  end.

(** The body of the inner [try] for one sample: what it writes, or the
    exception it raises. *)
Definition emit_sample `{Json.Lib} (sample : SampleResponse.t) : result string :=
  written ← emit_parsed sample;
  match written with
  | Some line => Ok line
  | None => Ok (emit_fallback sample)
  end.

(** One turn of the loop: an exception is reported and nothing is
    written. *)
Definition write_sample `{Json.Lib} (sample : SampleResponse.t) : string :=
  match emit_sample sample with
  | Ok text => text
  | Raise _ => ""
  end.

(** [SampleResponse.objects.filter(yaml_config_id=...)] *)
Definition samples_of (store : db) (yaml_config_id : string) : list SampleResponse.t :=
  filter (fun s => SampleResponse.yaml_config_id s = yaml_config_id)
         (sample_responses store).

(** The content of the dataset file. *)
Definition dataset_file `{Json.Lib} (samples : list SampleResponse.t) : string :=
  fold_right (fun s rest => write_sample s +:+ rest) "" samples.

(** What the publishing part obtains from outside. *)
Record upload_env := {
  (** [Config.FIREWORKS_API_KEY], [Config.FIREWORKS_ACCOUNT_ID] *)
  FIREWORKS_API_KEY : option string;
  FIREWORKS_ACCOUNT_ID : option string;
  (** [str(uuid.uuid4())] *)
  uuid4 : string;
  (** [os.path.abspath] *)
  abspath : string -> string;
  (** the remote store's answers to the two requests, given the dataset id *)
  post_create : string -> LLMClient.posted;
  post_upload : string -> LLMClient.posted
}.

Definition configured (k : option string) : bool :=
  match k with
  | Some s => PyStr.truthy s
  | None => false
  end.

(** [yaml_config.<field> = ...; yaml_config.save()] *)
Definition save_config (f : YAMLConfig.t -> YAMLConfig.t) (yaml_config_id : string)
    (store : db) : db :=
  {| sample_responses := sample_responses store;
     yaml_configs := alter f yaml_config_id (yaml_configs store) |}.

Definition dataset_path (yaml_config_id : string) : string :=
  "datasets/" +:+ yaml_config_id +:+ ".jsonl".

(** "Generate dataset ID if not already set": the id in use and the store
    after the id has been saved. *)
Definition with_dataset_id (env : upload_env) (yaml_config : YAMLConfig.t)
    (yaml_config_id : string) (store : db) : string * db :=
  match YAMLConfig.dataset_id yaml_config with
  | Some d =>
      if PyStr.truthy d then (d, store)
      else (uuid4 env,
            save_config (YAMLConfig.set_dataset_id (uuid4 env)) yaml_config_id store)
  | None =>
      (uuid4 env,
       save_config (YAMLConfig.set_dataset_id (uuid4 env)) yaml_config_id store)
  end.

(** The part of [upload_dataset] after the file is written.  The store
    afterwards and the outcome of the [try] body. *)
Definition publish (env : upload_env) (yaml_config : YAMLConfig.t)
    (yaml_config_id : string) (store : db) : db * result value :=
  let file_path := abspath env (dataset_path yaml_config_id) in
  if negb (configured (FIREWORKS_API_KEY env))
     || negb (configured (FIREWORKS_ACCOUNT_ID env))
  then
    (save_config
       (YAMLConfig.set_upload (Some false)
          (Dict [("error", Str "API credentials not configured")]))
       yaml_config_id store,
     Ok (Dict [("status", Str "file_created_only");
               ("error", Str "API credentials not configured");
               ("file_path", Str file_path)]))
  else
    let '(dataset_id, store1) := with_dataset_id env yaml_config yaml_config_id store in
    let full_dataset_id := "generatedsyntheticdataset" +:+ dataset_id in
    match LLMClient.create_dataset (post_create env full_dataset_id) with
    | Raise e => (store1, Raise e)
    | Ok create_response =>
        match contains_key "error" create_response with
        | Raise e => (store1, Raise e)
        | Ok true =>
            (save_config (YAMLConfig.set_upload None create_response)
                         yaml_config_id store1,
             Ok create_response)
        | Ok false =>
            match LLMClient.upload_dataset true file_path
                    (post_upload env full_dataset_id) with
            | Raise e => (store1, Raise e)
            | Ok upload_response =>
                let response :=
                  Dict [("creation", create_response);
                        ("upload", upload_response);
                        ("file_path", Str file_path);
                        ("dataset_id", Str full_dataset_id)] in
                (save_config (YAMLConfig.set_upload (Some true) response)
                             yaml_config_id store1,
                 Ok response)
            end
        end
    end.

(** [upload_dataset(yaml_config_id)]: the store afterwards, the file
    written (if the task got that far) and the value returned. *)
Definition upload_dataset `{Json.Lib} (env : upload_env) (yaml_config_id : string)
    (store : db) : db * option string * value :=
  match yaml_configs store !! yaml_config_id with
  | None => (store, None, Dict [("error", Str "YAMLConfig matching query does not exist.")])
  | Some yaml_config =>
      let file := dataset_file (samples_of store yaml_config_id) in
      match publish env yaml_config yaml_config_id store with
      | (store', Ok v) => (store', Some file, v)
      | (store', Raise e) => (store', Some file, Dict [("error", Str (exn_str e))])
      end
  end.

End Processor.

(** ** A [json] for the examples

  An implementation of the interface on the fragment of JSON without
  fractions and exponents, with Python's defaults: [dumps] separates with
  [", "] and [": "] and escapes every character outside the printable
  ASCII range; [loads] accepts blanks around the tokens, lets the last of
  two equal keys win, and rejects control characters inside a string.
  Code points above 255 and numbers that are not integers are outside the
  fragment: [loads] rejects them and [dumps] writes [null] for a float. *)
Module MiniJson.

Import Py.

Definition hex_digit (n : nat) : ascii :=
  match String.get n "0123456789abcdef" with
  | Some c => c
  | None => "0"%char
  end.

Definition escape_char (c : ascii) : string :=
  let n := nat_of_ascii c in
  if (n =? 34)%nat then "\" +:+ PyStr.dquote
  else if (n =? 92)%nat then "\\"
  else if (n =? 10)%nat then "\n"
  else if (n =? 13)%nat then "\r"
  else if (n =? 9)%nat then "\t"
  else if (n =? 8)%nat then "\b"
  else if (n =? 12)%nat then "\f"
  else if (n <? 32)%nat || (126 <? n)%nat then
    "\u00" +:+ String (hex_digit (n / 16)) (String (hex_digit (n mod 16)) EmptyString)
  else String c EmptyString.

Fixpoint escape (s : string) : string :=
  match s with
  | EmptyString => EmptyString
  | String c s' => escape_char c +:+ escape s'
  end.

Definition quote (s : string) : string := PyStr.dquote +:+ escape s +:+ PyStr.dquote.

Definition decimal (z : Z) : string := DecimalString.NilZero.string_of_int (Z.to_int z).

Fixpoint dumps (x : value) : string :=
  match x with
  | None_ => "null"
  | Bool true => "true"
  | Bool false => "false"
  | Int z => decimal z
  | Float _ => "null"
  | Str s => quote s
  | List l =>
      "[" +:+
      (fix elements (l : list value) : string :=
         match l with
         | [] => ""
         | [y] => dumps y
         | y :: rest => dumps y +:+ ", " +:+ elements rest
         end) l
      +:+ "]"
  | Dict items =>
      "{" +:+
      (fix members (l : list (string * value)) : string :=
         match l with
         | [] => ""
         | [(k, y)] => quote k +:+ ": " +:+ dumps y
         | (k, y) :: rest => quote k +:+ ": " +:+ dumps y +:+ ", " +:+ members rest
         end) items
      +:+ "}"
  end.

Definition is_blank (c : ascii) : bool :=
  let n := nat_of_ascii c in
  (n =? 32)%nat || (n =? 9)%nat || (n =? 10)%nat || (n =? 13)%nat.

Fixpoint skip_blanks (s : string) : string :=
  match s with
  | EmptyString => EmptyString
  | String c s' => if is_blank c then skip_blanks s' else s
  end.

Definition hex_value (c : ascii) : option nat :=
  let n := nat_of_ascii c in
  if (48 <=? n)%nat && (n <=? 57)%nat then Some (n - 48)%nat
  else if (97 <=? n)%nat && (n <=? 102)%nat then Some (n - 87)%nat
  else if (65 <=? n)%nat && (n <=? 70)%nat then Some (n - 55)%nat
  else None.

Definition unescape (e : ascii) : option ascii :=
  let n := nat_of_ascii e in
  if (n =? 34)%nat then Some e
  else if (n =? 92)%nat then Some e
  else if (n =? 47)%nat then Some e
  else if (n =? 98)%nat then Some (ascii_of_nat 8)
  else if (n =? 102)%nat then Some (ascii_of_nat 12)
  else if (n =? 110)%nat then Some (ascii_of_nat 10)
  else if (n =? 114)%nat then Some (ascii_of_nat 13)
  else if (n =? 116)%nat then Some (ascii_of_nat 9)
  else None.

(** The characters of a string after its opening quote, and the text after
    its closing quote. *)
Fixpoint read_string (s : string) : option (string * string) :=
  match s with
  | EmptyString => None
  | String c s1 =>
      let n := nat_of_ascii c in
      if (n =? 34)%nat then Some (EmptyString, s1)
      else if (n =? 92)%nat then
        match s1 with
        | EmptyString => None
        | String e s2 =>
            if (nat_of_ascii e =? 117)%nat then
              match s2 with
              | String h1 (String h2 (String h3 (String h4 s6))) =>
                  match hex_value h1, hex_value h2, hex_value h3, hex_value h4 with
                  | Some 0%nat, Some 0%nat, Some a, Some b =>
                      match read_string s6 with
                      | Some (r, rest) => Some (String (ascii_of_nat (16 * a + b)) r, rest)
                      | None => None
                      end
                  | _, _, _, _ => None
                  end
              | _ => None
              end
            else
              match unescape e with
              | Some d =>
                  match read_string s2 with
                  | Some (r, rest) => Some (String d r, rest)
                  | None => None
                  end
              | None => None
              end
        end
      else if (n <? 32)%nat then None
      else
        match read_string s1 with
        | Some (r, rest) => Some (String c r, rest)
        | None => None
        end
  end.

Definition is_digit (c : ascii) : bool :=
  let n := nat_of_ascii c in (48 <=? n)%nat && (n <=? 57)%nat.

Fixpoint read_digits (acc : Z) (s : string) : Z * string :=
  match s with
  | EmptyString => (acc, s)
  | String c s' =>
      if is_digit c
      then read_digits (10 * acc + Z.of_nat (nat_of_ascii c - 48)) s'
      else (acc, s)
  end.

(** A number that starts at [s]: an integer, or nothing when a fraction or
    an exponent follows. *)
Definition read_natural (s : string) : option (Z * string) :=
  match s with
  | EmptyString => None
  | String c s' =>
      if is_digit c then
        let '(z, rest) :=
          if (nat_of_ascii c =? 48)%nat then (0, s') else read_digits 0 s in
        match rest with
        | String d _ =>
            let n := nat_of_ascii d in
            if is_digit d || (n =? 46)%nat || (n =? 101)%nat || (n =? 69)%nat
            then None else Some (z, rest)
        | EmptyString => Some (z, rest)
        end
      else None
  end.

Definition after_literal (lit : string) (x : value) (s : string) : option (value * string) :=
  if PyStr.startswith lit s
  then Some (x, String.substring (String.length lit) (String.length s - String.length lit) s)
  else None.

Fixpoint read_value (fuel : nat) (s : string) : option (value * string) :=
  match fuel with
  | O => None
  | S fuel' =>
      match skip_blanks s with
      | EmptyString => None
      | String c rest as t =>
          let n := nat_of_ascii c in
          if (n =? 110)%nat then after_literal "null" None_ t
          else if (n =? 116)%nat then after_literal "true" (Bool true) t
          else if (n =? 102)%nat then after_literal "false" (Bool false) t
          else if (n =? 34)%nat then
            match read_string rest with
            | Some (str, rest') => Some (Str str, rest')
            | None => None
            end
          else if (n =? 45)%nat then
            match read_natural rest with
            | Some (z, rest') => Some (Int (- z), rest')
            | None => None
            end
          else if is_digit c then
            match read_natural t with
            | Some (z, rest') => Some (Int z, rest')
            | None => None
            end
          else if (n =? 91)%nat then
            match skip_blanks rest with
            | String c' rest' as t' =>
                if (nat_of_ascii c' =? 93)%nat then Some (List [], rest')
                else
                  match read_elements fuel' t' with
                  | Some (l, rest'') => Some (List l, rest'')
                  | None => None
                  end
            | EmptyString => None
            end
          else if (n =? 123)%nat then
            match skip_blanks rest with
            | String c' rest' as t' =>
                if (nat_of_ascii c' =? 125)%nat then Some (Dict [], rest')
                else
                  match read_members fuel' t' [] with
                  | Some (items, rest'') => Some (Dict items, rest'')
                  | None => None
                  end
            | EmptyString => None
            end
          else None
      end
  end
with read_elements (fuel : nat) (s : string) : option (list value * string) :=
  match fuel with
  | O => None
  | S fuel' =>
      match read_value fuel' s with
      | None => None
      | Some (x, rest) =>
          match skip_blanks rest with
          | String c rest' =>
              let n := nat_of_ascii c in
              if (n =? 93)%nat then Some ([x], rest')
              else if (n =? 44)%nat then
                match read_elements fuel' rest' with
                | Some (l, rest'') => Some (x :: l, rest'')
                | None => None
                end
              else None
          | EmptyString => None
          end
      end
  end
with read_members (fuel : nat) (s : string) (acc : list (string * value))
  : option (list (string * value) * string) :=
  match fuel with
  | O => None
  | S fuel' =>
      match skip_blanks s with
      | String q after_quote =>
          if (nat_of_ascii q =? 34)%nat then
            match read_string after_quote with
            | None => None
            | Some (k, rest) =>
                match skip_blanks rest with
                | String colon rest' =>
                    if (nat_of_ascii colon =? 58)%nat then
                      match read_value fuel' rest' with
                      | None => None
                      | Some (x, rest'') =>
                          let acc' := set_item k x acc in
                          match skip_blanks rest'' with
                          | String c rest3 =>
                              let n := nat_of_ascii c in
                              if (n =? 125)%nat then Some (acc', rest3)
                              else if (n =? 44)%nat then read_members fuel' rest3 acc'
                              else None
                          | EmptyString => None
                          end
                      end
                    else None
                | EmptyString => None
                end
            end
          else None
      | EmptyString => None
      end
  end.

Definition loads (s : string) : result value :=
  match read_value (S (String.length s)) s with
  | Some (x, rest) =>
      match skip_blanks rest with
      | EmptyString => Ok x
      | String _ _ => Raise (Exn JSONDecodeError "Extra data")
      end
  | None => Raise (Exn JSONDecodeError "Expecting value")
  end.

#[export] Instance lib : Json.Lib := {| Json.loads := loads; Json.dumps := dumps |}.

End MiniJson.

(** ** Example data *)
Module Examples.

Import Py.

(** [n / 10] as a float: the float that a decimal literal such as [0.2]
    denotes. *)
Definition tenths (n : Z) : float := PyFloat.int_truediv n 10.

Definition quoted (s : string) : string := PyStr.dquote +:+ s +:+ PyStr.dquote.

(** A configuration with three samples over the range [0.1, 0.3]. *)
Definition config (samples : Z) (low high : float) : YAMLConfig.t :=
  {| YAMLConfig.id := "cfg1";
     YAMLConfig.name := "demo";
     YAMLConfig.number_of_samples := samples;
     YAMLConfig.model := "accounts/fireworks/models/deepseek-v3";
     YAMLConfig.user_prompt := "Write a dialogue about {input_request}";
     YAMLConfig.sampling_parameters :=
       Some {| YAMLConfig.sp_temperature_range := [low; high];
               YAMLConfig.sp_top_p := tenths 9 |};
     YAMLConfig.dataset_parameters :=
       Some {| YAMLConfig.dp_output_format := "jsonl";
               YAMLConfig.dp_task_description := "dialogues";
               YAMLConfig.dp_max_tokens := 750;
               YAMLConfig.dp_seed_value := 42;
               YAMLConfig.dp_validation_rules := [] |};
     YAMLConfig.example_inputs := [quoted "tea"; "coffee"];
     YAMLConfig.dataset_id := None;
     YAMLConfig.dataset_uploaded := false;
     YAMLConfig.dataset_upload_response := Dict [];
     YAMLConfig.total_responses_generated := 0;
     YAMLConfig.tokens_per_second_sum := PrimFloat.zero;
     YAMLConfig.time_to_first_token_sum := PrimFloat.zero;
     YAMLConfig.queries_per_second_sum := PrimFloat.zero;
     YAMLConfig.average_latency_sum := PrimFloat.zero;
     YAMLConfig.total_tokens_sum := 0 |}.

Definition store_of (c : YAMLConfig.t) (samples : list SampleResponse.t) : db :=
  {| sample_responses := samples;
     yaml_configs := {[ YAMLConfig.id c := c ]} |}.

(** The random generator always draws the first example. *)
Definition first_draw : Z -> nat := fun _ => 0%nat.

(** The text of a two-message record, and a backend that streams a text in
    one chunk, which arrives at [arrival]. *)
Definition two_messages : string :=
  "{" +:+ quoted "messages" +:+ ": [{" +:+ quoted "role" +:+ ": " +:+ quoted "user"
  +:+ ", " +:+ quoted "content" +:+ ": " +:+ quoted "hi" +:+ "}, {"
  +:+ quoted "role" +:+ ": " +:+ quoted "assistant" +:+ ", "
  +:+ quoted "content" +:+ ": " +:+ quoted "hello" +:+ "}]}".

Definition answering (arrival : float) (text : string) : LLMClient.backend :=
  fun _ => Ok (LLMClient.stream
                 [LLMClient.delivered arrival {| LLMClient.chunk_choices := [Some text] |}]).

(** A backend that refuses every request. *)
Definition refusing (message : string) : LLMClient.backend :=
  fun _ => Raise (Exn OtherError message).

Definition no_files : LLMClient.files :=
  {| LLMClient.path_exists := fun _ => false;
     LLMClient.read_base64 := fun _ => Raise (Exn FileNotFoundError "no such file") |}.

(** A run of the worker between the clock readings 10 and 12, with an
    answer that arrives at 11, and a store that accepts both writes. *)
Definition worker_env : Processor.worker_env :=
  {| Processor.new_client :=
       Ok (LLMClient.init (Some "key") (answering (PyFloat.of_int 11) two_messages) None);
     Processor.started := PyFloat.of_int 10;
     Processor.finished := PyFloat.of_int 12;
     Processor.client_clock :=
       {| LLMClient.start_time := PyFloat.of_int 10;
          LLMClient.end_time := PyFloat.of_int 12 |};
     Processor.schema_json := Ok (Dict []);
     Processor.save_raises := None;
     Processor.update_raises := None |}.

Definition work_item : Processor.work_item :=
  {| Processor.wi_yaml_config_id := "cfg1";
     Processor.wi_temperature := tenths 1;
     Processor.wi_top_p := Some (tenths 9);
     Processor.wi_prompt := "Write a dialogue about tea";
     Processor.wi_max_tokens := Some 750;
     Processor.wi_seed_value := Some 42;
     Processor.wi_model := "accounts/fireworks/models/deepseek-v3";
     Processor.wi_output_format := Some "jsonl" |}.

(** A schema with one field that is neither a scalar nor a plain list or
    dictionary and that declares a default factory. *)
Definition counted_schema : LLMClient.schema_model :=
  {| LLMClient.model_fields :=
       [("count", {| LLMClient.field_annotation := LLMClient.A_other;
                     LLMClient.default_factory := Some (fun _ => Int 5) |})];
     LLMClient.model_json_schema := Ok (Dict []) |}.

(** A stored sample with the given input request and response text. *)
Definition sample (input_request : option string) (response_text : string)
  : SampleResponse.t :=
  {| SampleResponse.yaml_config_id := "cfg1";
     SampleResponse.temperature := tenths 1;
     SampleResponse.top_p := Some (tenths 9);
     SampleResponse.prompt := "Write a dialogue about tea";
     SampleResponse.input_request := input_request;
     SampleResponse.max_tokens := Some 750;
     SampleResponse.seed_value := Some 42;
     SampleResponse.model := "accounts/fireworks/models/deepseek-v3";
     SampleResponse.response_text := response_text;
     SampleResponse.tokens_per_second := PrimFloat.one;
     SampleResponse.time_to_first_token := PrimFloat.one;
     SampleResponse.latency := PrimFloat.one;
     SampleResponse.total_tokens := 2 |}.

(** Response texts: an object whose [messages] member is the two-character
    string [ab], and one whose [messages] member is the number 5. *)
Definition messages_string : string :=
  "{" +:+ quoted "messages" +:+ ": " +:+ quoted "ab" +:+ "}".
Definition messages_number : string :=
  "{" +:+ quoted "messages" +:+ ": 5}".

(** A remote store that creates the dataset and then fails the upload. *)
Definition upload_env : Processor.upload_env :=
  {| Processor.FIREWORKS_API_KEY := Some "key";
     Processor.FIREWORKS_ACCOUNT_ID := Some "account";
     Processor.uuid4 := "0b0e7f5c";
     Processor.abspath := fun p => "/app/" +:+ p;
     Processor.post_create := fun _ => Ok (Dict [("state", Str "READY")]);
     Processor.post_upload :=
       fun _ => Raise (Exn RequestException "500 Server Error") |}.

End Examples.

(** ** [api/upload/routes.py]: the dataset endpoints

  The queries on the sample collection are taken to return. *)
Module Routes.

Import Py.

(** What an endpoint hands to the framework: a response, or an
    [HTTPException] with its status code and detail. *)
Inductive outcome (A : Type) :=
| Respond (a : A)
| HTTPException (status_code : Z) (detail : string).
Arguments Respond {A} a.
Arguments HTTPException {A} status_code detail.

(** The two handlers that close both endpoints:
    [except HTTPException as he: raise he] and
    [except Exception as e: raise HTTPException(500, f"Unexpected error: {str(e)}")].
    The body gives an outcome or raises another exception. *)
Definition guarded {A} (body : result (outcome A)) : outcome A :=
  match body with
  | Ok o => o
  | Raise e => HTTPException 500 ("Unexpected error: " +:+ exn_str e)
  end.

(** [SampleResponse.objects.filter(yaml_config_id=config_id).count()] *)
Definition sample_count (store : db) (config_id : string) : Z :=
  Z.of_nat (length (Processor.samples_of store config_id)).

(** What [upload_dataset] obtains from outside. *)
Record upload_route_env := {
  (** [YAMLConfig.objects.get(id=config_id)]: the exception it raises other
      than [DoesNotExist] (an id that is no [ObjectId], a store that does
      not answer), if any *)
  get_raises : option exn;
  (** [str(uuid.uuid4())] *)
  uuid4 : string;
  (** [yaml_config.save()]: the exception the store raises, if any *)
  save_raises : option exn;
  (** [app.send_task("modules.processor.upload_dataset", args=[config_id])]:
      the id of the task, or the exception of the dispatcher *)
  send_task : result string
}.

(** [if not yaml_config.dataset_id] *)
Definition has_dataset_id (yaml_config : YAMLConfig.t) : bool :=
  match YAMLConfig.dataset_id yaml_config with
  | Some d => PyStr.truthy d
  | None => false
  end.

(** [POST /dataset/{config_id}]: the store afterwards and the outcome. *)
Definition upload_dataset (env : upload_route_env) (config_id : string) (store : db)
  : db * outcome value :=
  match get_raises env, yaml_configs store !! config_id with
  | Some e, _ => (store, guarded (Raise e))
  | None, None =>
      (store,
       HTTPException 404 ("YAML config with ID " +:+ config_id +:+ " not found"))
  | None, Some yaml_config =>
      if sample_count store config_id =? 0 then
        (store, HTTPException 400 "No samples found for this configuration")
      else
        let '(store1, saved) :=
          if negb (has_dataset_id yaml_config) then
            match save_raises env with
            | Some e => (store, Raise e)
            | None =>
                (Processor.save_config (YAMLConfig.set_dataset_id (uuid4 env))
                   config_id store,
                 Ok (Some (uuid4 env)))
            end
          else (store, Ok (YAMLConfig.dataset_id yaml_config)) in
        match saved with
        | Raise e => (store1, guarded (Raise e))
        | Ok dataset_id =>
            match send_task env with
            | Raise task_error =>
                (store1,
                 HTTPException 500
                   ("Failed to create upload task: " +:+ exn_str task_error))
            | Ok task_id =>
                (store1,
                 Respond
                   (Dict [("message", Str "Dataset upload started");
                          ("config_id", Str config_id);
                          ("task_id", Str task_id);
                          ("dataset_id",
                           match dataset_id with Some d => Str d | None => None_ end)]))
            end
        end
  end.


(** What [download_dataset] obtains from outside: the exception that
    [YAMLConfig.objects.get] raises other than [DoesNotExist], and the
    exceptions of [os.makedirs] and of [open(dataset_path, 'w')], if any. *)
Record download_env := {
  lookup_raises : option exn;
  makedirs_raises : option exn;
  open_raises : option exn
}.

(** [FileResponse(path=..., filename=..., media_type=...)] *)
Record FileResponse := {
  path : string;
  filename : string;
  media_type : string
}.

(** [GET /download/{config_id}]: the files afterwards and the outcome.
    [fs] holds the files under the working directory of the server: the
    content of each path that exists. *)
Definition download_dataset `{Json.Lib} (env : download_env) (config_id : string)
    (store : db) (fs : gmap string string)
  : gmap string string * outcome FileResponse :=
  match lookup_raises env, yaml_configs store !! config_id with
  | Some e, _ => (fs, guarded (Raise e))
  | None, None =>
      (fs, HTTPException 404 ("YAML config with ID " +:+ config_id +:+ " not found"))
  | None, Some yaml_config =>
      if sample_count store config_id =? 0 then
        (fs, HTTPException 400 "No samples have been generated for this configuration")
      else
        match makedirs_raises env with
        | Some e => (fs, guarded (Raise e))
        | None =>
            let dataset_path := Processor.dataset_path config_id in
            let response :=
              {| path := dataset_path;
                 filename := PyStr.replace " " "_" (YAMLConfig.name yaml_config)
                             +:+ "_dataset.jsonl";
                 media_type := "application/jsonl" |} in
            match fs !! dataset_path with
            | Some _ => (fs, Respond response)
            | None =>
                match open_raises env with
                | Some e => (fs, guarded (Raise e))
                | None =>
                    (<[dataset_path :=
                         Processor.dataset_file (Processor.samples_of store config_id)]> fs,
                     Respond response)
                end
            end
        end
  end.

End Routes.

(** ** Further [str] operations, for [generate_yaml_config] *)
Module PyText.

(** [s[n:]] *)
Fixpoint drop (n : nat) (s : string) : string :=
  match n, s with
  | O, _ => s
  | S _, EmptyString => EmptyString
  | S k, String _ s' => drop k s'
  end.

(** [s.split(sep, 1)] for a non-empty [sep]: the text before and after
    the first occurrence of [sep], or the text alone; [cur] is the piece
    being read. *)
Fixpoint split1_from (sep cur s : string) : list string :=
  match s with
  | EmptyString => [cur]
  | String c s' =>
      if PyStr.startswith sep s
      then [cur; drop (String.length sep) s]
      else split1_from sep (cur +:+ String c EmptyString) s'
  end.

Definition split1 (sep s : string) : list string := split1_from sep EmptyString s.

(** [s.split()]: the pieces between runs of white space, none empty. *)
Fixpoint split_ws_from (cur s : string) : list string :=
  match s with
  | EmptyString => if PyStr.truthy cur then [cur] else []
  | String c s' =>
      if PyStr.isspace c
      then (if PyStr.truthy cur then cur :: split_ws_from EmptyString s'
            else split_ws_from EmptyString s')
      else split_ws_from (cur +:+ String c EmptyString) s'
  end.

Definition split_ws (s : string) : list string := split_ws_from EmptyString s.

(** [sep.join(l)] *)
Fixpoint join (sep : string) (l : list string) : string :=
  match l with
  | [] => EmptyString
  | [x] => x
  | x :: rest => x +:+ sep +:+ join sep rest
  end.

(** [' ' * n] *)
Fixpoint spaces (n : nat) : string :=
  match n with
  | O => EmptyString
  | S k => String " " (spaces k)
  end.

End PyText.

(** ** The interface of [yaml.safe_load]

  PyYAML is a library, not part of the repository: the generation of
  configurations is stated over any parser.  A text is loaded to a value,
  rejected with a [YAMLError], or makes the parser raise something else. *)
Module Yaml.

Inductive loaded :=
| Loaded (v : Py.value)
| YAMLError (message : string)
| Raised (e : Py.exn).

Class Lib := { safe_load : string -> loaded }.

End Yaml.

(** ** [modules/processor.py]: [generate_yaml_config] *)
Module Generator.

Import Py.

(** The text of [YAML_STRUCTURE_GUIDE]. *)
Definition YAML_STRUCTURE_GUIDE : string :=
  "
# Configuration generated for {dataset_name} dataset
# Generated at: {current_datetime}

name: <string> # A descriptive name for the configuration.
model: <string> # Model identifier, e.g., 'accounts/fireworks/models/deepseek-v3'
number_of_samples: <integer> # Number of samples to generate, e.g., 150
output_format: <string> # Format of output data, e.g., 'jsonl', 'csv', 'bullet points'

# Sampling parameters for controlling response generation
parameters:
  temperature_range: [<float>, <float>]  # Controls response randomness, e.g. [0.1, 0.3]
  top_p: <float>  # Nucleus sampling parameter, e.g. 0.9
  max_tokens: <integer> # Maximum number of tokens per response, e.g., 750
  seed_value: <integer> # Random seed for reproducibility, e.g., 42

# Required fields for system functionality
# Essential field - must be included for uploading to work
user_prompt: |
  <string> # Main instruction prompt for the LLM
  You are creating a synthetic dataset for AI training. The dataset should follow this format:
  
  ```json
  {
    "
  +:+ PyStr.dquote
  +:+ "messages"
  +:+ PyStr.dquote
  +:+ ": [
      {"
  +:+ PyStr.dquote
  +:+ "role"
  +:+ PyStr.dquote
  +:+ ": "
  +:+ PyStr.dquote
  +:+ "user"
  +:+ PyStr.dquote
  +:+ ", "
  +:+ PyStr.dquote
  +:+ "content"
  +:+ PyStr.dquote
  +:+ ": "
  +:+ PyStr.dquote
  +:+ "A specific user request or question"
  +:+ PyStr.dquote
  +:+ "},
      {"
  +:+ PyStr.dquote
  +:+ "role"
  +:+ PyStr.dquote
  +:+ ": "
  +:+ PyStr.dquote
  +:+ "assistant"
  +:+ PyStr.dquote
  +:+ ", "
  +:+ PyStr.dquote
  +:+ "content"
  +:+ PyStr.dquote
  +:+ ": "
  +:+ PyStr.dquote
  +:+ "A high-quality, detailed response"
  +:+ PyStr.dquote
  +:+ "}
    ]
  }
  ```
  
  Context for this dataset: {input_request}
  
  Generate a realistic user request AND an ideal assistant response that perfectly demonstrates the type of interaction described above.
  Make sure both the user query and assistant response are detailed, high-quality, and representative of real-world scenarios.
  
  IMPORTANT: Return ONLY the JSON object with the messages array containing exactly one user message and one assistant message.
  Do not include any explanations or additional text. The output must be valid JSON.

# Detailed structure for generating prompts (can include the same content as user_prompt)
prompt_structure:
  user_prompt_template: |
    [Task] <brief task description based on the user request>
    [Requirements]
    - <key requirement 1>
    - <key requirement 2>
    - <...more requirements as needed>
    [Input Data]
    <input field name>: {<placeholder>}
    [Format]
    Output: <expected output format>
  language_style: <style descriptors, e.g., "
  +:+ PyStr.dquote
  +:+ "formal"
  +:+ PyStr.dquote
  +:+ ", "
  +:+ PyStr.dquote
  +:+ "technical"
  +:+ PyStr.dquote
  +:+ ", "
  +:+ PyStr.dquote
  +:+ "concise"
  +:+ PyStr.dquote
  +:+ ">

# Task description
task_description: <string> # A concise description of the generation task

# Required criteria for response validation
required_criteria:
  - <criterion 1>
  - <criterion 2>
  - <criterion 3>

# YAML configuration behavior
strict_mode: <boolean> # Whether to enforce strict validation of responses

# Dataset-specific parameters
dataset_parameters:
  output_format: <format>  # e.g., "
  +:+ PyStr.dquote
  +:+ "jsonl"
  +:+ PyStr.dquote
  +:+ ", "
  +:+ PyStr.dquote
  +:+ "bullet points"
  +:+ PyStr.dquote
  +:+ ", "
  +:+ PyStr.dquote
  +:+ "python_code"
  +:+ PyStr.dquote
  +:+ "
  task_description: <detailed task description>
  max_tokens: <integer>
  seed_value: <integer>
  validation_rules:
    - <rule 1>
    - <rule 2>
    - <...more rules as needed>

# Quality control parameters
quality_controls:
  response_validation:
    min_length: <integer>
    max_length: <integer>
    required_elements:
      - <required element 1>
      - <required element 2>
      - <...more elements as needed>
    forbidden_elements:
      - <forbidden element 1>
      - <forbidden element 2>
      - <...more elements as needed>
  diversity_controls:
    min_unique_words: <integer>
    max_repetition: <float>
    style_variation: <float>
  consistency_checks:
    context_window: <integer>
    style_consistency: <float>
    fact_consistency: <float>

# Diversity parameters
diversity_parameters:
  variation_controls:
    temperature_variation: <float>
    style_variation: <float>
    complexity_variation: <float>
  sampling_strategy:
    method: <method name>  # e.g., "
  +:+ PyStr.dquote
  +:+ "stratified"
  +:+ PyStr.dquote
  +:+ ", "
  +:+ PyStr.dquote
  +:+ "uniform"
  +:+ PyStr.dquote
  +:+ "
    min_unique_ratio: <float>
    max_similarity: <float>
  content_balancing:
    topic_distribution: <distribution type>  # e.g., "
  +:+ PyStr.dquote
  +:+ "equal"
  +:+ PyStr.dquote
  +:+ ", "
  +:+ PyStr.dquote
  +:+ "uniform"
  +:+ PyStr.dquote
  +:+ "
    difficulty_levels:
      - <level 1>
      - <level 2>
      - <level 3>
    style_distribution:
      - <style 1>
      - <style 2>
      - <style 3>

# Evaluation metrics
evaluation_metrics:
  quality_metrics:
    coherence_score: <float>
    relevance_score: <float>
    completeness_score: <float>
  diversity_metrics:
    vocabulary_richness: <float>
    syntactic_diversity: <float>
    semantic_diversity: <float>
  consistency_metrics:
    factual_accuracy: <float>
    style_consistency: <float>
    context_relevance: <float>

# Example inputs. Be as diverse as possible, these examples will be used to generate the dataset. Wrap them in "
  +:+ PyStr.dquote
  +:+ "double quotes"
  +:+ PyStr.dquote
  +:+ " (at least 75)
example_inputs:
  - <example input 1>
  - <example input 2>
  - <example input 3>
  - <example input 4>
  - <example input 5>
  - <example input 6>
  - <example input 7>
  - <example input 8>
  - <example input 9>
  - <example input 10>
  - <...more example inputs until you have at least 75>
".

Definition prompt_part_1 : string :=
  "
You are a specialist in creating detailed YAML configuration files for synthetic data generation.

User Request: "
  +:+ PyStr.dquote.

Definition prompt_part_2 : string :=
  PyStr.dquote
  +:+ "

Based on this request, create a comprehensive YAML configuration file following these guidelines:

1. The YAML should define parameters for generating synthetic data as described in the user request.
2. Be specific and detailed when defining parameters, prompt templates, and criteria.
3. Choose appropriate validation rules and quality controls that match the data type requested.
4. Create a prompt template that would effectively instruct an LLM to generate the requested data.
5. Include reasonable example inputs that would work with this configuration.
6. IMPORTANT: Make sure to include ALL the required fields, especially 'name', 'model', 'number_of_samples', 'output_format', 'parameters', 'user_prompt', 'task_description', 'required_criteria', and 'strict_mode'.
7. Use the format below, replacing placeholders with appropriate values.

CRITICAL YAML FORMATTING RULES:
- NEVER use commas to separate key-value pairs on a single line
- Each key-value pair must be on its own line with proper indentation
- Example inputs must be properly indented as a YAML list
- Maps/objects must use proper indentation, not inline format
- For more complex values, use the multi-line string format with pipe (|) character
- Never use tabs, only spaces for indentation
- Be extremely careful with indentation consistency

Current date/time: ".

Definition prompt_part_3 : string :=
  "
Dataset name suggestion: ".

Definition prompt_part_4 : string :=
  "

".

Definition prompt_part_5 : string :=
  "

IMPORTANT:
1. Make sure all placeholder values are replaced with appropriate content relevant to the user's specific request.
2. Values in angle brackets <> must be replaced with actual values.
3. The 'user_prompt' field MUST be included as a top-level field for the upload to work.
4. Ensure both 'user_prompt' and 'prompt_structure.user_prompt_template' contain appropriate prompts.
5. All YAML content must be properly indented and follow YAML syntax rules.
6. NEVER use commas to separate multiple key-value pairs on a single line.
7. DO NOT include ```yaml at the beginning of the YAML file or ``` at the end.
8. Ensure colons (:) are only used for key-value pairs and properly followed by a space - avoid colons within text fields as they can break YAML parsing
".

(** [dataset_name = '_'.join(request.description.lower().split()[:3])] *)
Definition dataset_name (description : string) : string :=
  PyText.join "_" (firstn 3 (PyText.split_ws (PyStr.lower description))).

(** The prompt for the language model. *)
Definition prompt_for (description current_datetime : string) : string :=
  prompt_part_1 +:+ description +:+ prompt_part_2 +:+ current_datetime
  +:+ prompt_part_3 +:+ dataset_name description +:+ prompt_part_4
  +:+ YAML_STRUCTURE_GUIDE +:+ prompt_part_5.

(** The loop over [required_fields]: the fields that the loaded value does
    not contain.  The list is only printed; the test raises on a value
    that is not a container. *)
Definition required_fields : list string :=
  ["name"; "model"; "number_of_samples"; "output_format"; "parameters"; "user_prompt"].

Fixpoint missing_fields (fields : list string) (parsed_yaml : value)
    (missing : list string) : result (list string) :=
  match fields with
  | [] => Ok missing
  | field :: rest =>
      present ← contains_key field parsed_yaml;
      missing_fields rest parsed_yaml
        (if negb present then missing ++ [field] else missing)
  end.

(** The body of the loop over the lines, in the handler of the
    [YAMLError]: the lines that replace [line].  The indices [[1]] exist,
    since the separator occurs in [line]. *)
Definition clean_line (line : string) : list string :=
  if PyStr.contains ": " line
     && PyStr.contains ", " (nth 1 (PyText.split1 ": " line) "")
  then
    let base_indent := (String.length line - String.length (PyStr.lstrip line))%nat in
    let value_part := PyStr.strip (nth 1 (PyText.split1 ":" line) "") in
    if PyStr.contains ", " value_part && PyStr.contains ": " value_part
    then
      let pairs := PyStr.split ", " value_part in
      nth 0 (PyText.split1 "," line) ""
      :: map (fun pair => PyText.spaces base_indent +:+ pair)
             (List.filter (fun pair => PyStr.contains ": " pair) (skipn 1 pairs))
    else [line]
  else [line].

(** [cleaned_yaml]: the lines of the text, cleaned and joined again. *)
Definition clean_yaml (generated_yaml : string) : string :=
  PyText.join PyStr.nl (flat_map clean_line (PyStr.split PyStr.nl generated_yaml)).

(** The body of the outer [try]: the text that is returned.  The model may
    have answered without a content: [yaml.safe_load(None)] then raises
    when it reads its argument. *)
Definition generate_yaml_try `{Yaml.Lib} (llm_client : LLMClient.t)
    (fs : LLMClient.files) (prompt : string) : result string :=
  generated_yaml ← LLMClient.generate_text llm_client fs prompt [];
  match generated_yaml with
  | None => Raise (Exn AttributeError "'NoneType' object has no attribute 'read'")
  | Some text =>
      match Yaml.safe_load text with
      | Yaml.Loaded parsed_yaml =>
          _ ← missing_fields required_fields parsed_yaml [];
          Ok (PyStr.strip text)
      | Yaml.Raised e => Raise e
      | Yaml.YAMLError _ =>
          let cleaned_yaml := clean_yaml text in
          match Yaml.safe_load cleaned_yaml with
          | Yaml.Loaded _ => Ok (PyStr.strip cleaned_yaml)
          | Yaml.YAMLError _ => Ok (PyStr.strip text)
          | Yaml.Raised e => Raise e
          end
      end
  end.

(** What [generate_yaml_config] obtains from outside. *)
Record generator_env := {
  (** [LLMClient()] *)
  new_client : result LLMClient.t;
  (** [datetime.now().strftime("%Y-%m-%d %H:%M:%S%z")] *)
  current_datetime : string;
  (** the files of the server, which the client can read *)
  server_files : LLMClient.files
}.

(** [generate_yaml_config(request)]: the answer, or the [HTTPException] of
    the handler; an exception of [LLMClient()] is raised before the [try]
    and leaves the function as it is. *)
Definition generate_yaml_config `{Yaml.Lib} (env : generator_env)
    (description : string) : result (Routes.outcome value) :=
  llm_client ← new_client env;
  let prompt := prompt_for description (current_datetime env) in
  match generate_yaml_try llm_client (server_files env) prompt with
  | Ok text => Ok (Routes.Respond (Dict [("yaml", Str text)]))
  | Raise e =>
      Ok (Routes.HTTPException 500
            ("Failed to generate YAML using LLM: " +:+ exn_str e))
  end.

End Generator.

(** ** [api/websockets]: the registries of open connections

  A [WebSocket] is compared by identity; a number stands for each. *)
Module ConnectionManager.

Import Py.

(** [l.remove(x)]: the first occurrence goes; [ValueError] when there is
    none. *)
Fixpoint remove (x : nat) (l : list nat) : result (list nat) :=
  match l with
  | [] => Raise (Exn ValueError "list.remove(x): x not in list")
  | y :: rest =>
      if Nat.eqb x y then Ok rest
      else (rest' ← remove x rest; Ok (y :: rest'))
  end.

(** [x in l] *)
Definition contains (x : nat) (l : list nat) : bool := existsb (Nat.eqb x) l.

(** [connect]: [accept] is the outcome of [await websocket.accept()]. *)
Definition connect (accept : result unit) (websocket : nat)
    (active_connections : list nat) : list nat * result unit :=
  match accept with
  | Raise e => (active_connections, Raise e)
  | Ok _ => (active_connections ++ [websocket], Ok tt)
  end.

(** [disconnect] *)
Definition disconnect (websocket : nat) (active_connections : list nat)
  : list nat * result unit :=
  match remove websocket active_connections with
  | Ok l => (l, Ok tt)
  | Raise e => (active_connections, Raise e)
  end.

End ConnectionManager.

Module SampleResponseConnectionManager.

Import Py.

(** [connect] *)
Definition connect (accept : result unit) (config_id : string) (websocket : nat)
    (active_connections : gmap string (list nat))
  : gmap string (list nat) * result unit :=
  match accept with
  | Raise e => (active_connections, Raise e)
  | Ok _ =>
      let registered :=
        match active_connections !! config_id with
        | None => <[config_id := []]> active_connections
        | Some _ => active_connections
        end in
      (alter (fun l => l ++ [websocket]) config_id registered, Ok tt)
  end.

(** [disconnect] *)
Definition disconnect (config_id : string) (websocket : nat)
    (active_connections : gmap string (list nat))
  : gmap string (list nat) * result unit :=
  match active_connections !! config_id with
  | None => (active_connections, Ok tt)
  | Some l =>
      match (if ConnectionManager.contains websocket l
             then ConnectionManager.remove websocket l
             else Ok l) with
      | Raise e => (active_connections, Raise e)
      | Ok [] => (delete config_id active_connections, Ok tt)
      | Ok l' => (<[config_id := l']> active_connections, Ok tt)
      end
  end.

End SampleResponseConnectionManager.

(** ** Further example data *)
Module Scenarios.

Import Py.

(** The example configuration without example inputs. *)
Definition bare_config (samples : Z) : YAMLConfig.t :=
  {| YAMLConfig.id := "cfg1";
     YAMLConfig.name := "demo set";
     YAMLConfig.number_of_samples := samples;
     YAMLConfig.model := "accounts/fireworks/models/deepseek-v3";
     YAMLConfig.user_prompt := "Write a dialogue.";
     YAMLConfig.sampling_parameters :=
       Some {| YAMLConfig.sp_temperature_range := [Examples.tenths 1; Examples.tenths 3];
               YAMLConfig.sp_top_p := Examples.tenths 9 |};
     YAMLConfig.dataset_parameters := None;
     YAMLConfig.example_inputs := [];
     YAMLConfig.dataset_id := Some "5d1c";
     YAMLConfig.dataset_uploaded := false;
     YAMLConfig.dataset_upload_response := Dict [];
     YAMLConfig.total_responses_generated := 0;
     YAMLConfig.tokens_per_second_sum := PrimFloat.zero;
     YAMLConfig.time_to_first_token_sum := PrimFloat.zero;
     YAMLConfig.queries_per_second_sum := PrimFloat.zero;
     YAMLConfig.average_latency_sum := PrimFloat.zero;
     YAMLConfig.total_tokens_sum := 0 |}.

(** A configuration whose template names the context as the structure
    guide does. *)
Definition guide_config : YAMLConfig.t :=
  {| YAMLConfig.id := "cfg1";
     YAMLConfig.name := "demo";
     YAMLConfig.number_of_samples := 2;
     YAMLConfig.model := "accounts/fireworks/models/deepseek-v3";
     YAMLConfig.user_prompt :=
       "You are creating a dataset." +:+ PyStr.nl
       +:+ "Context for this dataset: {input_request}" +:+ PyStr.nl
       +:+ "Generate a realistic user request and a response.";
     YAMLConfig.sampling_parameters :=
       Some {| YAMLConfig.sp_temperature_range := [Examples.tenths 1; Examples.tenths 3];
               YAMLConfig.sp_top_p := Examples.tenths 9 |};
     YAMLConfig.dataset_parameters :=
       Some {| YAMLConfig.dp_output_format := "jsonl";
               YAMLConfig.dp_task_description := "dialogues";
               YAMLConfig.dp_max_tokens := 750;
               YAMLConfig.dp_seed_value := 42;
               YAMLConfig.dp_validation_rules := [] |};
     YAMLConfig.example_inputs := [Examples.quoted "tea"; "coffee"];
     YAMLConfig.dataset_id := None;
     YAMLConfig.dataset_uploaded := false;
     YAMLConfig.dataset_upload_response := Dict [];
     YAMLConfig.total_responses_generated := 0;
     YAMLConfig.tokens_per_second_sum := PrimFloat.zero;
     YAMLConfig.time_to_first_token_sum := PrimFloat.zero;
     YAMLConfig.queries_per_second_sum := PrimFloat.zero;
     YAMLConfig.average_latency_sum := PrimFloat.zero;
     YAMLConfig.total_tokens_sum := 0 |}.

(** A run of the worker against a backend that refuses the request. *)
Definition refused_env : Processor.worker_env :=
  {| Processor.new_client :=
       Ok (LLMClient.init (Some "key") (Examples.refusing "503 Service Unavailable") None);
     Processor.started := PyFloat.of_int 10;
     Processor.finished := PyFloat.of_int 12;
     Processor.client_clock :=
       {| LLMClient.start_time := PyFloat.of_int 10;
          LLMClient.end_time := PyFloat.of_int 12 |};
     Processor.schema_json := Ok (Dict []);
     Processor.save_raises := None;
     Processor.update_raises := None |}.

(** A remote store that accepts the dataset and the upload. *)
Definition accepting_env : Processor.upload_env :=
  {| Processor.FIREWORKS_API_KEY := Some "key";
     Processor.FIREWORKS_ACCOUNT_ID := Some "account";
     Processor.uuid4 := "0b0e7f5c";
     Processor.abspath := fun p => "/app/" +:+ p;
     Processor.post_create := fun _ => Ok (Dict [("state", Str "READY")]);
     Processor.post_upload := fun _ => Ok (Dict []) |}.

(** The same remote store on a later run, when the generator of
    identifiers gives another value. *)
Definition later_env : Processor.upload_env :=
  {| Processor.FIREWORKS_API_KEY := Some "key";
     Processor.FIREWORKS_ACCOUNT_ID := Some "account";
     Processor.uuid4 := "77aa01d2";
     Processor.abspath := fun p => "/app/" +:+ p;
     Processor.post_create := fun _ => Ok (Dict [("state", Str "READY")]);
     Processor.post_upload := fun _ => Ok (Dict []) |}.

(** A backend that answers every request with one complete message. *)
Definition replying (text : string) : LLMClient.backend :=
  fun _ => Ok (LLMClient.completion [Some text]).

(** A schema with an [answer] and an [explanation], both strings. *)
Definition explained_schema : LLMClient.schema_model :=
  {| LLMClient.model_fields :=
       [("answer", {| LLMClient.field_annotation := LLMClient.A_str;
                      LLMClient.default_factory := None |});
        ("explanation", {| LLMClient.field_annotation := LLMClient.A_str;
                           LLMClient.default_factory := None |})];
     LLMClient.model_json_schema := Ok (Dict []) |}.

(** The text of the object with the one member [answer]. *)
Definition answer_only : string :=
  "{" +:+ Examples.quoted "answer" +:+ ": " +:+ Examples.quoted "42" +:+ "}".

(** Two files: a readable PDF and a text file. *)
Definition two_files : LLMClient.files :=
  {| LLMClient.path_exists := fun p => String.eqb p "/docs/A.PDF" || String.eqb p "/docs/b.txt";
     LLMClient.read_base64 := fun _ => Ok "JVBERi0=" |}.

(** The server before any download: no file. *)
Definition no_dataset : gmap string string := ∅.

Definition plain_disk : Routes.download_env :=
  {| Routes.lookup_raises := None;
     Routes.makedirs_raises := None;
     Routes.open_raises := None |}.

(** A dispatcher that takes the task. *)
Definition dispatching : Routes.upload_route_env :=
  {| Routes.get_raises := None;
     Routes.uuid4 := "0b0e7f5c";
     Routes.save_raises := None;
     Routes.send_task := Ok "task-1" |}.

(** A parser for the examples: it reads a text of one line of the form
    [key: value] as a mapping with one string, and rejects every other
    text. *)
Definition one_pair_yaml : Yaml.Lib :=
  {| Yaml.safe_load := fun s =>
       match PyText.split1 ": " (PyStr.strip s) with
       | [key; value] =>
           if PyStr.contains PyStr.nl (PyStr.strip s)
           then Yaml.YAMLError "expected one line"
           else Yaml.Loaded (Dict [(key, Str value)])
       | _ => Yaml.YAMLError "expected a key and a value"
       end |}.

Definition generator_env (completions : LLMClient.backend) : Generator.generator_env :=
  {| Generator.new_client := Ok (LLMClient.init (Some "key") completions None);
     Generator.current_datetime := "2025-01-01 00:00:00";
     Generator.server_files := Examples.no_files |}.

End Scenarios.

(** * Properties *)

(** ** Python strings *)
Module StrFacts.

Import PyStr.

Lemma app_cons (c : ascii) (s t : string) :
  String c s +:+ t = String c (s +:+ t).
Proof. reflexivity. Qed.

Lemma app_nil_l (s : string) : EmptyString +:+ s = s.
Proof. reflexivity. Qed.

Lemma app_nil_r (s : string) : s +:+ EmptyString = s.
Proof.
  induction s as [|c s IH]; [reflexivity |].
  now rewrite app_cons, IH.
Qed.

Lemma app_assoc (a b c : string) : (a +:+ b) +:+ c = a +:+ (b +:+ c).
Proof.
  induction a as [|x a IH]; [reflexivity |].
  now rewrite !app_cons, IH.
Qed.

Lemma startswith_app (p s t : string) :
  startswith p s = true -> startswith p (s +:+ t) = true.
Proof.
  revert s; induction p as [|a p IH]; intros [|b s]; try easy.
  rewrite app_cons. simpl.
  intros H. apply andb_true_iff in H as [Hab Hp].
  rewrite Hab. simpl. now apply IH.
Qed.

Lemma startswith_self_app (p t : string) : startswith p (p +:+ t) = true.
Proof.
  induction p as [|a p IH]; [reflexivity |].
  rewrite app_cons. simpl. now rewrite Ascii.eqb_refl.
Qed.

(** Appending on the right keeps an occurrence. *)
Lemma contains_app_l (m s t : string) :
  contains m s = true -> contains m (s +:+ t) = true.
Proof.
  induction s as [|c s IH].
  - simpl. rewrite orb_false_r. intros H. destruct m; [|discriminate].
    destruct t; reflexivity.
  - rewrite app_cons. simpl.
    intros H. apply orb_true_iff in H as [H|H]; apply orb_true_iff.
    + left. rewrite <- app_cons. now apply startswith_app.
    + right. now apply IH.
Qed.

(** Appending on the left keeps an occurrence. *)
Lemma contains_app_r (m s t : string) :
  contains m t = true -> contains m (s +:+ t) = true.
Proof.
  intros H. induction s as [|c s IH]; [exact H |].
  rewrite app_cons. simpl. rewrite IH. apply orb_true_r.
Qed.

Lemma contains_self_app (m b : string) : contains m (m +:+ b) = true.
Proof.
  destruct m as [|x m]; [destruct b; reflexivity |].
  rewrite app_cons. simpl.
  rewrite Ascii.eqb_refl, startswith_self_app. reflexivity.
Qed.

Lemma contains_infix (m a b : string) : contains m (a +:+ m +:+ b) = true.
Proof. apply contains_app_r, contains_self_app. Qed.

Lemma endswith_last (q : ascii) (s : string) :
  endswith (String q EmptyString) s = true ->
  exists t, s = t +:+ String q EmptyString.
Proof.
  induction s as [|c s IH]; simpl; [discriminate |].
  intros H. apply orb_true_iff in H as [H|H].
  - apply andb_true_iff in H as [Hc Hs].
    apply Ascii.eqb_eq in Hc. subst c. destruct s; [|discriminate].
    now exists EmptyString.
  - destruct (IH H) as [t ->]. now exists (String c t).
Qed.

Lemma startswith_char (q : ascii) (s : string) :
  startswith (String q EmptyString) s = true -> exists s1, s = String q s1.
Proof.
  destruct s as [|c s1]; simpl; [discriminate |].
  rewrite andb_true_r. intros H. apply Ascii.eqb_eq in H. subst c.
  now exists s1.
Qed.

Lemma drop_last_snoc (t : string) (q : ascii) :
  drop_last (t +:+ String q EmptyString) = t.
Proof.
  induction t as [|c t IH]; [reflexivity |].
  rewrite app_cons. simpl. rewrite IH.
  destruct t; reflexivity.
Qed.

End StrFacts.


(** ** Floats

  The facts below go through the specification of binary64 that the
  library gives for the primitive operations ([Prim2SF], [add_spec],
  [mul_spec], ...). *)
Module FloatFacts.

Lemma digits2_lower (m : positive) :
  2 ^ (Z.pos (digits2_pos m) - 1) <= Z.pos m.
Proof.
  induction m as [m IH|m IH|]; simpl digits2_pos.
  - rewrite Pos2Z.inj_succ.
    replace (Z.succ (Z.pos (digits2_pos m)) - 1) with (Z.succ (Z.pos (digits2_pos m) - 1)) by lia.
    rewrite Z.pow_succ_r by lia. lia.
  - rewrite Pos2Z.inj_succ.
    replace (Z.succ (Z.pos (digits2_pos m)) - 1) with (Z.succ (Z.pos (digits2_pos m) - 1)) by lia.
    rewrite Z.pow_succ_r by lia. lia.
  - simpl. lia.
Qed.

Lemma shr_1_spec (mrs : shr_record) :
  0 <= shr_m mrs -> shr_m (shr_1 mrs) = shr_m mrs / 2.
Proof.
  destruct mrs as [m r s]. simpl. intros H.
  destruct m as [|p|p]; [reflexivity | | lia].
  destruct p as [p|p|]; simpl.
  - rewrite Pos2Z.inj_xI. apply Z.div_unique with 1; lia.
  - rewrite Pos2Z.inj_xO. apply Z.div_unique with 0; lia.
  - reflexivity.
Qed.

Lemma iter_shr_1_spec (n : positive) (mrs : shr_record) :
  0 <= shr_m mrs ->
  shr_m (SpecFloat.iter_pos shr_1 n mrs) = shr_m mrs / 2 ^ Z.pos n.
Proof.
  revert mrs. induction n as [n IH|n IH|]; intros mrs H; simpl SpecFloat.iter_pos.
  - assert (H1 : 0 <= shr_m (shr_1 mrs)).
    { rewrite shr_1_spec by assumption. apply Z.div_pos; lia. }
    assert (H2 : 0 <= shr_m (SpecFloat.iter_pos shr_1 n (shr_1 mrs))).
    { rewrite IH by assumption. apply Z.div_pos; [assumption | lia]. }
    assert (Hp : 2 ^ Z.pos n~1 = 2 * (2 ^ Z.pos n * 2 ^ Z.pos n)).
    { rewrite <- Z.pow_add_r, <- Z.pow_succ_r by lia. f_equal. lia. }
    rewrite IH, IH, shr_1_spec by assumption.
    rewrite !Z.div_div by lia. now rewrite Hp.
  - assert (H2 : 0 <= shr_m (SpecFloat.iter_pos shr_1 n mrs)).
    { rewrite IH by assumption. apply Z.div_pos; [assumption | lia]. }
    assert (Hp : 2 ^ Z.pos n~0 = 2 ^ Z.pos n * 2 ^ Z.pos n).
    { rewrite <- Z.pow_add_r by lia. f_equal. lia. }
    rewrite IH, IH by assumption.
    rewrite Z.div_div by lia. now rewrite Hp.
  - rewrite shr_1_spec by assumption. reflexivity.
Qed.

Lemma shr_record_of_loc_m (m : Z) (l : location) : shr_m (shr_record_of_loc m l) = m.
Proof. destruct l as [|[| |]]; reflexivity. Qed.

(** Shifting a positive mantissa to its canonical exponent leaves it
    positive when the exponent is not below [emin]. *)
Lemma shr_fexp_positive (m : positive) (e : Z) (l : location) :
  emin <= e ->
  0 < shr_m (fst (shr_fexp prec emax (Z.pos m) e l)) /\
  emin <= snd (shr_fexp prec emax (Z.pos m) e l).
Proof.
  intros He. unfold shr_fexp, shr.
  destruct (fexp prec emax (Zdigits2 (Z.pos m) + e) - e) as [|n|n] eqn:En; simpl fst; simpl snd.
  - rewrite shr_record_of_loc_m. lia.
  - rewrite iter_shr_1_spec by (rewrite shr_record_of_loc_m; lia).
    rewrite shr_record_of_loc_m. split; [|lia].
    assert (Hn : Z.pos n = Z.pos (digits2_pos m) - prec).
    { unfold fexp in En. simpl Zdigits2 in En. unfold emin, SpecFloat.emin in *. lia. }
    assert (Hle : 2 ^ Z.pos n <= Z.pos m).
    { pose proof (digits2_lower m) as Hd.
      apply Z.le_trans with (2 ^ (Z.pos (digits2_pos m) - 1)); [|assumption].
      apply Z.pow_le_mono_r; unfold prec in Hn; lia. }
    apply Z.div_str_pos. lia.
  - rewrite shr_record_of_loc_m. lia.
Qed.

Lemma round_nearest_even_positive (m : Z) (l : location) :
  0 < m -> 0 < round_nearest_even m l.
Proof.
  intros H. destruct l as [|[| |]]; simpl; try lia.
  destruct (Z.even m); lia.
Qed.

Lemma binary_round_aux_nonzero (sx : bool) (m : positive) (e : Z) (l : location) :
  emin <= e -> PyFloat.nonzero_number (binary_round_aux prec emax sx (Z.pos m) e l).
Proof.
  intros He. unfold binary_round_aux.
  destruct (shr_fexp_positive m e l He) as [Hm1 He1].
  destruct (shr_fexp prec emax (Z.pos m) e l) as [mrs1 e1]. simpl in Hm1, He1.
  pose proof (round_nearest_even_positive (shr_m mrs1) (loc_of_shr_record mrs1) Hm1) as Hr.
  destruct (round_nearest_even (shr_m mrs1) (loc_of_shr_record mrs1)) as [|m2|m2]; try lia.
  destruct (shr_fexp_positive m2 e1 loc_Exact He1) as [Hm2 _].
  destruct (shr_fexp prec emax (Z.pos m2) e1 loc_Exact) as [mrs2 e2]. simpl in Hm2.
  destruct (shr_m mrs2); try lia.
  destruct (e2 <=? emax - prec); exact I.
Qed.

Lemma binary_normalize_int_nonzero (p : positive) :
  PyFloat.nonzero_number (binary_normalize prec emax (Z.pos p) 0 false).
Proof.
  unfold binary_normalize, binary_round, shl_align.
  destruct (fexp prec emax (Z.pos (digits2_pos p) + 0) - 0) as [|d|d] eqn:E;
    apply binary_round_aux_nonzero.
  - unfold emin, SpecFloat.emin, prec, emax. lia.
  - unfold emin, SpecFloat.emin, prec, emax. lia.
  - unfold fexp. apply Z.le_max_r.
Qed.


(** *** Integers as floats *)

Lemma of_int_nonzero (d : Z) :
  1 <= d < 2 ^ 63 -> PyFloat.nonzero_number (Prim2SF (PyFloat.of_int d)).
Proof.
  intros Hd. unfold PyFloat.of_int.
  destruct (d <? 0) eqn:E; [apply Z.ltb_lt in E; lia |].
  rewrite FloatAxioms.of_uint63_spec, Uint63.of_Z_spec.
  rewrite Z.mod_small by (change wB with (2 ^ 63); lia).
  destruct d as [|p|p]; try lia.
  apply binary_normalize_int_nonzero.
Qed.

(** [0 / d] is a zero for every count [d]. *)
Lemma zero_quotient (d : Z) :
  1 <= d < 2 ^ 63 ->
  exists s, Prim2SF (PyFloat.int_truediv 0 d) = S754_zero s.
Proof.
  intros Hd. unfold PyFloat.int_truediv.
  rewrite FloatAxioms.div_spec.
  pose proof (of_int_nonzero d Hd) as H.
  change (Prim2SF (PyFloat.of_int 0)) with (S754_zero false).
  destruct (Prim2SF (PyFloat.of_int d)) as [s|s| |s m e]; simpl in H; try contradiction.
  - now exists (xorb false s).
  - now exists (xorb false s).
Qed.

(** *** Zeros in products and sums *)

Lemma mul_zero_r (x z : float) (s : bool) :
  PyFloat.is_finite x = true -> Prim2SF z = S754_zero s ->
  exists s', Prim2SF (PrimFloat.mul x z) = S754_zero s'.
Proof.
  unfold PyFloat.is_finite. intros Hx Hz.
  rewrite FloatAxioms.mul_spec, Hz.
  destruct (Prim2SF x) as [sx|sx| |sx m e]; try discriminate; simpl; eauto.
Qed.

Lemma SFcompare_refl (x : spec_float) :
  x <> S754_nan -> SFcompare x x = Some Eq.
Proof.
  destruct x as [s|s| |s m e]; intros H; try congruence; simpl.
  - reflexivity.
  - now destruct s.
  - rewrite Z.compare_refl, Pos.compare_cont_refl. now destruct s.
Qed.

Lemma add_zero_r (x z : float) (s : bool) :
  PyFloat.is_nan x = false -> Prim2SF z = S754_zero s ->
  PyFloat.eq (PrimFloat.add x z) x = true.
Proof.
  unfold PyFloat.is_nan, PyFloat.eq. intros Hx Hz.
  rewrite FloatAxioms.eqb_spec, FloatAxioms.add_spec, Hz. unfold SFeqb.
  destruct (Prim2SF x) as [sx|sx| |sx m e] eqn:E; try discriminate.
  - simpl. now destruct sx, s.
  - simpl. now destruct sx.
  - change (SF64add (S754_finite sx m e) (S754_zero s)) with (S754_finite sx m e).
    now rewrite SFcompare_refl.
Qed.

Lemma sub_finite_not_nan (a b : float) :
  PyFloat.is_finite (PrimFloat.sub a b) = true -> PyFloat.is_nan b = false.
Proof.
  unfold PyFloat.is_finite, PyFloat.is_nan. rewrite FloatAxioms.sub_spec.
  destruct (Prim2SF b) as [sb|sb| |sb mb eb]; try reflexivity.
  destruct (Prim2SF a); discriminate.
Qed.

(** *** Comparisons with zero *)

Lemma not_gt_zero (x : float) :
  PrimFloat.leb PrimFloat.zero x = true ->
  PyFloat.gt x PrimFloat.zero = negb (PyFloat.eq x PrimFloat.zero).
Proof.
  unfold PyFloat.gt, PyFloat.eq.
  rewrite FloatAxioms.leb_spec, FloatAxioms.ltb_spec, FloatAxioms.eqb_spec.
  change (Prim2SF PrimFloat.zero) with (S754_zero false).
  unfold SFleb, SFltb, SFeqb.
  destruct (Prim2SF x) as [s|s| |s m e]; simpl; try reflexivity; try discriminate;
    destruct s; simpl; try reflexivity; discriminate.
Qed.

Lemma eq_zero_not_gt (x : float) :
  PyFloat.eq x PrimFloat.zero = true -> PyFloat.gt x PrimFloat.zero = false.
Proof.
  unfold PyFloat.gt, PyFloat.eq.
  rewrite FloatAxioms.ltb_spec, FloatAxioms.eqb_spec.
  change (Prim2SF PrimFloat.zero) with (S754_zero false).
  unfold SFltb, SFeqb.
  destruct (Prim2SF x) as [s|s| |s m e]; simpl; try reflexivity; try discriminate;
    destruct s; discriminate.
Qed.

(** *** Addition commutes *)

Lemma SF64add_comm (x y : spec_float) : SF64add x y = SF64add y x.
Proof.
  unfold SF64add.
  destruct x as [sx|sx| |sx mx ex], y as [sy|sy| |sy my ey]; simpl;
    try reflexivity; try (now destruct sx, sy).
  rewrite (Z.min_comm ey ex). f_equal. apply Z.add_comm.
Qed.

Lemma add_comm (x y : float) : PrimFloat.add x y = PrimFloat.add y x.
Proof.
  apply Prim2SF_inj. rewrite !FloatAxioms.add_spec. apply SF64add_comm.
Qed.

(** *** Exact results *)

Lemma digits2_iter_xO (p k : positive) :
  digits2_pos (Pos.iter xO p k) = (digits2_pos p + k)%positive.
Proof.
  induction k as [|k IH] using Pos.peano_ind.
  - simpl. now rewrite Pos.add_1_r.
  - rewrite Pos.iter_succ. simpl. rewrite IH. now rewrite Pos.add_succ_r.
Qed.

(** A mantissa already at its canonical exponent is kept as it is. *)
Lemma binary_round_aux_canonical (sx : bool) (m : positive) (e : Z) :
  bounded prec emax m e = true ->
  binary_round_aux prec emax sx (Z.pos m) e loc_Exact = S754_finite sx m e.
Proof.
  unfold bounded, canonical_mantissa. intros H.
  apply andb_true_iff in H as [Hc Hb]. apply Z.eqb_eq in Hc.
  unfold binary_round_aux, shr_fexp. simpl Zdigits2. rewrite Hc, Z.sub_diag.
  simpl. rewrite Hc, Z.sub_diag. simpl. now rewrite Hb.
Qed.

Lemma of_int_finite (d : Z) :
  1 <= d < 2 ^ 53 ->
  exists m e, Prim2SF (PyFloat.of_int d) = S754_finite false m e.
Proof.
  intros Hd. unfold PyFloat.of_int.
  destruct (d <? 0) eqn:E; [apply Z.ltb_lt in E; lia |].
  rewrite FloatAxioms.of_uint63_spec, Uint63.of_Z_spec.
  rewrite Z.mod_small by (change wB with (2 ^ 63); lia).
  destruct d as [|p|p]; try lia.
  assert (Hdig : Z.pos (digits2_pos p) <= 53).
  { pose proof (digits2_lower p) as Hl.
    destruct (Z_le_gt_dec (Z.pos (digits2_pos p)) 53) as [|Hgt]; [assumption |].
    assert (2 ^ 53 <= 2 ^ (Z.pos (digits2_pos p) - 1)) by (apply Z.pow_le_mono_r; lia).
    lia. }
  unfold binary_normalize, binary_round, shl_align.
  assert (Hf : fexp prec emax (Z.pos (digits2_pos p) + 0) = Z.pos (digits2_pos p) - 53).
  { unfold fexp, SpecFloat.emin, prec, emax. lia. }
  rewrite Hf.
  destruct (Z.pos (digits2_pos p) - 53 - 0) as [|k|k] eqn:Ek; try lia.
  - eexists _, _. apply binary_round_aux_canonical.
    unfold bounded, canonical_mantissa. rewrite Hf.
    apply andb_true_iff. split; [apply Z.eqb_eq | apply Z.leb_le; unfold emax, prec]; lia.
  - eexists _, _. apply binary_round_aux_canonical.
    unfold bounded, canonical_mantissa. rewrite digits2_iter_xO.
    apply andb_true_iff. split.
    + apply Z.eqb_eq. unfold fexp, SpecFloat.emin, prec, emax.
      rewrite Pos2Z.inj_add. lia.
    + apply Z.leb_le. unfold emax, prec. lia.
Qed.

(** [x / x] is 1 for a finite [x] that is not a zero. *)
Lemma div_self (x : float) (s : bool) (m : positive) (e : Z) :
  Prim2SF x = S754_finite s m e -> PrimFloat.div x x = PrimFloat.one.
Proof.
  intros Hx. apply Prim2SF_inj. rewrite FloatAxioms.div_spec, Hx.
  unfold SF64div, SFdiv, SFdiv_core_binary.
  rewrite !Z.sub_diag.
  change (Z.min (fexp prec emax 0) 0) with (-53).
  change (0 - -53) with 53.
  cbv iota beta.
  rewrite Z.shiftl_mul_pow2 by lia.
  rewrite (Z.mul_comm (Z.pos m)).
  pose proof (Z.div_mul (2 ^ 53) (Z.pos m)) as Hq.
  pose proof (Z.mod_mul (2 ^ 53) (Z.pos m)) as Hr.
  unfold Z.div in Hq. unfold Z.modulo in Hr.
  destruct (Z.div_eucl (2 ^ 53 * Z.pos m) (Z.pos m)) as [q r].
  rewrite Hq, Hr by lia.
  replace (new_location (Z.pos m) 0) with loc_Exact.
  - destruct s; vm_compute; reflexivity.
  - unfold new_location, new_location_even, new_location_odd.
    now destruct (Z.even (Z.pos m)).
Qed.

(** [x * 1] is [x]. *)
Lemma mul_one_r (x : float) : PrimFloat.mul x PrimFloat.one = x.
Proof.
  apply Prim2SF_inj. rewrite FloatAxioms.mul_spec.
  change (Prim2SF PrimFloat.one) with (S754_finite false 4503599627370496 (-52)).
  pose proof (Prim2SF_valid x) as Hv.
  destruct (Prim2SF x) as [s|s| |s m e]; simpl; try reflexivity; try (now destruct s).
  simpl in Hv. unfold bounded, canonical_mantissa in Hv.
  apply andb_true_iff in Hv as [Hc Hb]. apply Z.eqb_eq in Hc. apply Z.leb_le in Hb.
  rewrite xorb_false_r, Pos.mul_comm.
  change (4503599627370496 * m)%positive with (Pos.iter xO m 52).
  unfold binary_round_aux, shr_fexp.
  change (Zdigits2 (Z.pos (Pos.iter xO m 52)))
    with (Z.pos (digits2_pos (Pos.iter xO m 52))).
  rewrite digits2_iter_xO.
  replace (fexp prec emax (Z.pos (digits2_pos m + 52) + (e + -52)) - (e + -52)) with 52
    by (rewrite Pos2Z.inj_add; unfold fexp, SpecFloat.emin, prec, emax in *; lia).
  cbn -[fexp Z.add Z.sub].
  replace (e + -52 + 52) with e by lia.
  rewrite Hc, Z.sub_diag. cbn -[Z.sub Z.leb].
  apply Z.leb_le in Hb. now rewrite Hb.
Qed.

End FloatFacts.

(** ** The Job Expander *)
Module ExpanderFacts.

Import Py Processor.

(** *** Prompt repair *)

Lemma add_placeholder_has (t : string) :
  PyStr.contains placeholder (add_placeholder t) = true.
Proof.
  unfold add_placeholder.
  destruct (PyStr.contains placeholder t) eqn:E; simpl; [exact E |].
  apply StrFacts.contains_app_r.
  change placeholder_trailer
    with ((PyStr.nl +:+ PyStr.nl +:+ "Context for this dataset: ")
          +:+ placeholder +:+ "").
  apply StrFacts.contains_infix.
Qed.

Lemma add_instructions_has (t : string) :
  PyStr.contains instruction_marker (add_instructions t) = true.
Proof.
  unfold add_instructions.
  destruct (PyStr.contains instruction_marker t) eqn:E; simpl; [exact E |].
  apply StrFacts.contains_app_r.
  change json_instructions
    with ((PyStr.nl +:+ "            " +:+ PyStr.nl)
          +:+ instruction_marker
          +:+ (" with the messages array containing exactly one user message and one assistant message."
               +:+ PyStr.nl
               +:+ "Do not include any explanations or additional text. The output must be valid JSON."
               +:+ PyStr.nl)).
  apply StrFacts.contains_infix.
Qed.

Lemma add_instructions_keeps (m t : string) :
  PyStr.contains m t = true -> PyStr.contains m (add_instructions t) = true.
Proof.
  intros H. unfold add_instructions.
  destruct (negb _); [now apply StrFacts.contains_app_l | exact H].
Qed.

Lemma add_placeholder_fixed (t : string) :
  PyStr.contains placeholder t = true -> add_placeholder t = t.
Proof. intros H. unfold add_placeholder. now rewrite H. Qed.

Lemma add_instructions_fixed (t : string) :
  PyStr.contains instruction_marker t = true -> add_instructions t = t.
Proof. intros H. unfold add_instructions. now rewrite H. Qed.

(** C9: the repair step of the Job Expander is idempotent.  Repairing a
    template that was already repaired appends nothing more: after one
    repair the placeholder token and the instruction marker are both
    present, so both checks of the second repair find them. *)
Theorem repair_prompt_idempotent (prompt_template : string) :
  repair_prompt (repair_prompt prompt_template) = repair_prompt prompt_template.
Proof.
  unfold repair_prompt.
  rewrite (add_placeholder_fixed (add_instructions (add_placeholder prompt_template))).
  - apply add_instructions_fixed, add_instructions_has.
  - apply add_instructions_keeps, add_placeholder_has.
Qed.

(** *** The loop *)

(** The work item of turn [i], when the temperature range unpacks. *)
Lemma make_item_ok (yaml_config : YAMLConfig.t) (example_inputs : list string)
    (prompt_template : string) (draw : nat) (i : Z) (min_temp max_temp : float) :
  YAMLConfig.temperature_range yaml_config = Some [min_temp; max_temp] ->
  make_item yaml_config example_inputs prompt_template draw i
  = Ok {| wi_yaml_config_id := YAMLConfig.id yaml_config;
          wi_temperature :=
            temperature_at min_temp max_temp (YAMLConfig.number_of_samples yaml_config) i;
          wi_top_p := YAMLConfig.top_p yaml_config;
          wi_prompt :=
            PyStr.replace placeholder
              (clean_input (random_choice draw example_inputs)) prompt_template;
          wi_max_tokens := YAMLConfig.max_tokens yaml_config;
          wi_seed_value := YAMLConfig.seed_value yaml_config;
          wi_model := YAMLConfig.model yaml_config;
          wi_output_format := YAMLConfig.output_format yaml_config |}.
Proof. intros H. unfold make_item. rewrite H. reflexivity. Qed.

Lemma submit_all_ok (yaml_config : YAMLConfig.t) (example_inputs : list string)
    (prompt_template : string) (draws : Z -> nat) (f : Z -> work_item)
    (indices : list Z) (queue : list work_item) :
  (forall i, make_item yaml_config example_inputs prompt_template (draws i) i = Ok (f i)) ->
  submit_all yaml_config example_inputs prompt_template draws indices queue
  = (queue ++ map f indices, Ok tt).
Proof.
  intros H. revert queue.
  induction indices as [|i rest IH]; intros queue; simpl.
  - now rewrite app_nil_r.
  - rewrite H, IH, <- app_assoc. reflexivity.
Qed.

Lemma range_length (n : Z) : 0 <= n -> Z.of_nat (length (range n)) = n.
Proof.
  intros H. unfold range. rewrite length_map, length_seq. lia.
Qed.

Lemma range_lookup (n i : Z) : 0 <= i < n -> range n !! Z.to_nat i = Some i.
Proof.
  intros H. unfold range.
  rewrite list_lookup_fmap, lookup_seq_lt by lia.
  simpl. f_equal. lia.
Qed.

(** The submissions of a configuration whose temperature range has two
    bounds: one per index of [range(number_of_samples)], in order. *)
Lemma process_yaml_config_queue (store : db) (draws : Z -> nat) (mongo_id : string)
    (yaml_config : YAMLConfig.t) (min_temp max_temp : float) :
  yaml_configs store !! mongo_id = Some yaml_config ->
  YAMLConfig.temperature_range yaml_config = Some [min_temp; max_temp] ->
  process_yaml_config store draws mongo_id
  = (map (fun i =>
            {| wi_yaml_config_id := YAMLConfig.id yaml_config;
               wi_temperature :=
                 temperature_at min_temp max_temp
                                (YAMLConfig.number_of_samples yaml_config) i;
               wi_top_p := YAMLConfig.top_p yaml_config;
               wi_prompt :=
                 PyStr.replace placeholder
                   (clean_input (random_choice (draws i) (example_pool yaml_config)))
                   (repair_prompt (YAMLConfig.user_prompt yaml_config));
               wi_max_tokens := YAMLConfig.max_tokens yaml_config;
               wi_seed_value := YAMLConfig.seed_value yaml_config;
               wi_model := YAMLConfig.model yaml_config;
               wi_output_format := YAMLConfig.output_format yaml_config |})
         (range (YAMLConfig.number_of_samples yaml_config)),
     true).
Proof.
  intros Hget Hrange. unfold process_yaml_config. rewrite Hget.
  erewrite submit_all_ok; [reflexivity |].
  intros i. now apply make_item_ok.
Qed.

(** *** Cleaning the selected example *)

Lemma clean_input_quoted (s : string) :
  PyStr.startswith PyStr.dquote s && PyStr.endswith PyStr.dquote s = true ->
  (2 <= String.length s)%nat ->
  s = PyStr.dquote +:+ clean_input s +:+ PyStr.dquote.
Proof.
  intros H Hlen. unfold clean_input. rewrite H.
  apply andb_true_iff in H as [Hs He].
  apply (StrFacts.startswith_char (ascii_of_nat 34)) in Hs as [s1 ->].
  apply (StrFacts.endswith_last (ascii_of_nat 34)) in He as [t He].
  destruct t as [|c t].
  - injection He as ->. simpl in Hlen. lia.
  - rewrite StrFacts.app_cons in He. injection He as <- ->.
    unfold PyStr.slice_1_m1, PyStr.drop_first.
    rewrite StrFacts.drop_last_snoc. reflexivity.
Qed.

Lemma clean_input_unquoted (s : string) :
  PyStr.startswith PyStr.dquote s && PyStr.endswith PyStr.dquote s = false ->
  clean_input s = s.
Proof. intros H. unfold clean_input. now rewrite H. Qed.

(** C10 as stated fails on the example that is one quote character: it
    starts and ends with a quote, there are no two quotes to remove, and
    the slice [[1:-1]] leaves the empty string. *)
Lemma clean_input_lone_quote_counterexample :
  clean_input PyStr.dquote = ""
  /\ ~ (forall s : string,
         PyStr.startswith PyStr.dquote s = true ->
         PyStr.endswith PyStr.dquote s = true ->
         s = PyStr.dquote +:+ clean_input s +:+ PyStr.dquote).
Proof.
  split; [reflexivity |].
  intros H. specialize (H PyStr.dquote eq_refl eq_refl). discriminate H.
Qed.

(** C10, amended: in every work item the placeholder is replaced by the
    cleaned example.  An example of two or more characters that starts and
    ends with a double quote loses exactly these two characters; an example
    that does not both start and end with a double quote is substituted
    unchanged. *)
Theorem work_item_prompt_cleaned (store : db) (draws : Z -> nat) (mongo_id : string)
    (yaml_config : YAMLConfig.t) (min_temp max_temp : float) (i : Z) :
  yaml_configs store !! mongo_id = Some yaml_config ->
  YAMLConfig.temperature_range yaml_config = Some [min_temp; max_temp] ->
  0 <= i < YAMLConfig.number_of_samples yaml_config ->
  let selected := random_choice (draws i) (example_pool yaml_config) in
  let quoted := PyStr.startswith PyStr.dquote selected
                && PyStr.endswith PyStr.dquote selected in
  exists item cleaned,
    fst (process_yaml_config store draws mongo_id) !! Z.to_nat i = Some item
    /\ wi_prompt item
       = PyStr.replace "{input_request}" cleaned
           (repair_prompt (YAMLConfig.user_prompt yaml_config))
    /\ (quoted = true -> (2 <= String.length selected)%nat ->
        selected = PyStr.dquote +:+ cleaned +:+ PyStr.dquote)
    /\ (quoted = false -> cleaned = selected).
Proof.
  intros Hget Hrange Hi selected quoted.
  rewrite (process_yaml_config_queue _ _ _ _ _ _ Hget Hrange). simpl fst.
  eexists _, (clean_input selected). split.
  - rewrite list_lookup_fmap, (range_lookup _ _ Hi). reflexivity.
  - split; [reflexivity |]. split.
    + apply clean_input_quoted.
    + apply clean_input_unquoted.
Qed.

(** The first work item of the example configuration, whose first example
    is [tea] in double quotes. *)
Lemma work_item_prompt_cleaned_witness :
  let store := Examples.store_of (Examples.config 3 (Examples.tenths 1) (Examples.tenths 3)) [] in
  exists item cleaned,
    fst (process_yaml_config store Examples.first_draw "cfg1") !! Z.to_nat 0 = Some item
    /\ wi_prompt item
       = PyStr.replace "{input_request}" cleaned
           (repair_prompt "Write a dialogue about {input_request}")
    /\ (true = true -> (2 <= String.length (Examples.quoted "tea"))%nat ->
        Examples.quoted "tea" = PyStr.dquote +:+ cleaned +:+ PyStr.dquote)
    /\ (true = false -> cleaned = Examples.quoted "tea").
Proof.
  apply (work_item_prompt_cleaned
           (Examples.store_of (Examples.config 3 (Examples.tenths 1) (Examples.tenths 3)) [])
           Examples.first_draw "cfg1"
           (Examples.config 3 (Examples.tenths 1) (Examples.tenths 3))
           (Examples.tenths 1) (Examples.tenths 3) 0).
  - vm_compute. reflexivity.
  - reflexivity.
  - simpl. lia.
Defined.

(** *** Temperatures *)

Lemma temperature_at_first (min_temp max_temp : float) (n : Z) :
  1 <= n < 2 ^ 63 ->
  PyFloat.is_finite (PrimFloat.sub max_temp min_temp) = true ->
  PyFloat.eq (temperature_at min_temp max_temp n 0) min_temp = true.
Proof.
  intros Hn Hfin. unfold temperature_at.
  destruct (FloatFacts.zero_quotient (Z.max 1 (n - 1))) as [s Hs]; [lia |].
  destruct (FloatFacts.mul_zero_r _ _ s Hfin Hs) as [s' Hs'].
  apply FloatFacts.add_zero_r with s'; [| exact Hs'].
  now apply FloatFacts.sub_finite_not_nan with max_temp.
Qed.

Lemma temperature_at_last (min_temp max_temp : float) (n : Z) :
  2 <= n <= 2 ^ 53 ->
  temperature_at min_temp max_temp n (n - 1)
  = PrimFloat.add min_temp (PrimFloat.sub max_temp min_temp).
Proof.
  intros Hn. unfold temperature_at, PyFloat.int_truediv.
  rewrite Z.max_r by lia.
  destruct (FloatFacts.of_int_finite (n - 1)) as (m & e & Hfin); [lia |].
  rewrite (FloatFacts.div_self _ _ _ _ Hfin), FloatFacts.mul_one_r.
  reflexivity.
Qed.

(** C1 as stated fails on the range [0.2, 0.9] with two samples: the
    temperature of the last item is [0.2 + (0.9 - 0.2) * (1 / 1)], which
    binary64 arithmetic rounds to [0.8999999999999999], not [0.9]. *)
Lemma last_temperature_counterexample :
  exists item,
    fst (process_yaml_config
           (Examples.store_of (Examples.config 2 (Examples.tenths 2) (Examples.tenths 9)) [])
           Examples.first_draw "cfg1") !! 1%nat = Some item
    /\ PyFloat.eq (wi_temperature item) (Examples.tenths 9) = false
    /\ PyFloat.eq (wi_temperature item)
                  (PrimFloat.next_down (Examples.tenths 9)) = true.
Proof.
  eexists. split; [vm_compute; reflexivity |].
  split; vm_compute; reflexivity.
Qed.

(** C1, amended: a configuration with [number_of_samples = N >= 1] and a
    temperature range [[min, max]] makes the Job Expander submit exactly [N]
    work items; the temperature of item [i] is
    [min + (max - min) * (i / max(1, N - 1))] evaluated in binary64
    arithmetic.  When [max - min] is finite, item 0's temperature equals
    [min], and so does every item's when [N = 1].  For [N >= 2] item
    [N - 1]'s temperature is [min + (max - min)] in binary64 arithmetic,
    which rounding can leave next to [max]. *)
Theorem expander_temperatures (store : db) (draws : Z -> nat) (mongo_id : string)
    (yaml_config : YAMLConfig.t) (min_temp max_temp : float) :
  yaml_configs store !! mongo_id = Some yaml_config ->
  YAMLConfig.temperature_range yaml_config = Some [min_temp; max_temp] ->
  1 <= YAMLConfig.number_of_samples yaml_config ->
  let n := YAMLConfig.number_of_samples yaml_config in
  let queue := fst (process_yaml_config store draws mongo_id) in
  snd (process_yaml_config store draws mongo_id) = true
  /\ Z.of_nat (length queue) = n
  /\ (forall i, 0 <= i < n ->
      exists item,
        queue !! Z.to_nat i = Some item
        /\ wi_temperature item
           = PrimFloat.add min_temp
               (PrimFloat.mul (PrimFloat.sub max_temp min_temp)
                              (PyFloat.int_truediv i (Z.max 1 (n - 1)))))
  /\ (n < 2 ^ 63 ->
      PyFloat.is_finite (PrimFloat.sub max_temp min_temp) = true ->
      (forall item, queue !! 0%nat = Some item ->
                    PyFloat.eq (wi_temperature item) min_temp = true)
      /\ (n = 1 -> forall item, item ∈ queue ->
                   PyFloat.eq (wi_temperature item) min_temp = true))
  /\ (2 <= n <= 2 ^ 53 ->
      exists item,
        queue !! Z.to_nat (n - 1) = Some item
        /\ wi_temperature item
           = PrimFloat.add min_temp (PrimFloat.sub max_temp min_temp)).
Proof.
  intros Hget Hrange Hn n queue. subst queue.
  rewrite (process_yaml_config_queue _ _ _ _ _ _ Hget Hrange). simpl fst. simpl snd.
  fold n.
  split; [reflexivity |].
  split; [rewrite length_map; apply range_length; lia |].
  split; [| split].
  - intros i Hi. eexists. split.
    + rewrite list_lookup_fmap, (range_lookup _ _ Hi). reflexivity.
    + reflexivity.
  - intros Hbound Hfin.
    assert (Hfirst : forall item,
               map (fun i : Z =>
                      {| wi_yaml_config_id := YAMLConfig.id yaml_config;
                         wi_temperature := temperature_at min_temp max_temp n i;
                         wi_top_p := YAMLConfig.top_p yaml_config;
                         wi_prompt :=
                           PyStr.replace placeholder
                             (clean_input (random_choice (draws i) (example_pool yaml_config)))
                             (repair_prompt (YAMLConfig.user_prompt yaml_config));
                         wi_max_tokens := YAMLConfig.max_tokens yaml_config;
                         wi_seed_value := YAMLConfig.seed_value yaml_config;
                         wi_model := YAMLConfig.model yaml_config;
                         wi_output_format := YAMLConfig.output_format yaml_config |})
                   (range n) !! 0%nat = Some item ->
               PyFloat.eq (wi_temperature item) min_temp = true).
    { intros item Hitem.
      change 0%nat with (Z.to_nat 0) in Hitem.
      rewrite list_lookup_fmap, (range_lookup n 0) in Hitem by lia.
      injection Hitem as <-. simpl wi_temperature.
      apply temperature_at_first; [lia | exact Hfin]. }
    split; [exact Hfirst |].
    intros H1 item Hin. apply Hfirst.
    apply list_elem_of_lookup in Hin as [k Hk].
    assert (k = 0%nat) as ->; [| exact Hk].
    apply lookup_lt_Some in Hk. rewrite length_map in Hk.
    pose proof (range_length n) as Hlen. lia.
  - intros Hbound. eexists. split.
    + rewrite list_lookup_fmap, (range_lookup n (n - 1)) by lia. reflexivity.
    + simpl. now apply temperature_at_last.
Qed.

(** The configuration with three samples over [0.1, 0.3]. *)
Lemma expander_temperatures_witness :
  snd (process_yaml_config
         (Examples.store_of (Examples.config 3 (Examples.tenths 1) (Examples.tenths 3)) [])
         Examples.first_draw "cfg1") = true
  /\ Z.of_nat (length (fst (process_yaml_config
         (Examples.store_of (Examples.config 3 (Examples.tenths 1) (Examples.tenths 3)) [])
         Examples.first_draw "cfg1"))) = 3.
Proof.
  destruct (expander_temperatures
              (Examples.store_of (Examples.config 3 (Examples.tenths 1) (Examples.tenths 3)) [])
              Examples.first_draw "cfg1"
              (Examples.config 3 (Examples.tenths 1) (Examples.tenths 3))
              (Examples.tenths 1) (Examples.tenths 3))
    as (Hok & Hlen & _).
  - vm_compute. reflexivity.
  - reflexivity.
  - simpl. lia.
  - split; [exact Hok | exact Hlen].
Defined.

(** The scenario of the specification: three samples over [0.1, 0.3] get
    the temperatures [0.1], [0.2] and [0.3]. *)
Example three_samples_temperatures :
  map wi_temperature
      (fst (process_yaml_config
              (Examples.store_of (Examples.config 3 (Examples.tenths 1) (Examples.tenths 3)) [])
              Examples.first_draw "cfg1"))
  = [Examples.tenths 1; Examples.tenths 2; Examples.tenths 3].
Proof. vm_compute. reflexivity. Qed.

End ExpanderFacts.

(** ** The configuration's averages *)
Module ConfigFacts.

Import YAMLConfig.

(** C3: every average is the stored sum divided by
    [total_responses_generated] when that count is positive, and 0 when it
    is 0.  The document stores the five sums and the count only; an average
    is a function of them, so after an increment of the sums and the count
    it is the quotient of the new sum and the new count. *)
Theorem averages_derived (c : YAMLConfig.t) :
  (0 < total_responses_generated c ->
   tokens_per_second c
   = PrimFloat.div (tokens_per_second_sum c) (PyFloat.of_int (total_responses_generated c))
   /\ time_to_first_token c
      = PrimFloat.div (time_to_first_token_sum c) (PyFloat.of_int (total_responses_generated c))
   /\ queries_per_second c
      = PrimFloat.div (queries_per_second_sum c) (PyFloat.of_int (total_responses_generated c))
   /\ average_latency c
      = PrimFloat.div (average_latency_sum c) (PyFloat.of_int (total_responses_generated c))
   /\ average_tokens c
      = PrimFloat.div (PyFloat.of_int (total_tokens_sum c))
                      (PyFloat.of_int (total_responses_generated c)))
  /\ (total_responses_generated c = 0 ->
      tokens_per_second c = PrimFloat.zero
      /\ time_to_first_token c = PrimFloat.zero
      /\ queries_per_second c = PrimFloat.zero
      /\ average_latency c = PrimFloat.zero
      /\ average_tokens c = PrimFloat.zero)
  /\ (forall (n : Z) (tps ttft qps lat : float) (tok : Z),
      0 < total_responses_generated c + n ->
      let c' := inc n tps ttft qps lat tok c in
      tokens_per_second c'
      = PrimFloat.div (PrimFloat.add (tokens_per_second_sum c) tps)
                      (PyFloat.of_int (total_responses_generated c + n))
      /\ time_to_first_token c'
         = PrimFloat.div (PrimFloat.add (time_to_first_token_sum c) ttft)
                         (PyFloat.of_int (total_responses_generated c + n))
      /\ queries_per_second c'
         = PrimFloat.div (PrimFloat.add (queries_per_second_sum c) qps)
                         (PyFloat.of_int (total_responses_generated c + n))
      /\ average_latency c'
         = PrimFloat.div (PrimFloat.add (average_latency_sum c) lat)
                         (PyFloat.of_int (total_responses_generated c + n))
      /\ average_tokens c'
         = PrimFloat.div (PyFloat.of_int (total_tokens_sum c + tok))
                         (PyFloat.of_int (total_responses_generated c + n))).
Proof.
  split; [| split].
  - intros H. apply Z.ltb_lt in H.
    unfold tokens_per_second, time_to_first_token, queries_per_second,
      average_latency, average_tokens, PyFloat.int_truediv.
    rewrite H. repeat split.
  - intros H.
    unfold tokens_per_second, time_to_first_token, queries_per_second,
      average_latency, average_tokens.
    rewrite H. repeat split.
  - intros n tps ttft qps lat tok H c'. apply Z.ltb_lt in H.
    unfold tokens_per_second, time_to_first_token, queries_per_second,
      average_latency, average_tokens, PyFloat.int_truediv, c'. simpl.
    rewrite H. repeat split.
Qed.

(** The example configuration before and after one increment. *)
Lemma averages_derived_witness :
  tokens_per_second
    (inc 1 (Examples.tenths 25) PrimFloat.one PrimFloat.one PrimFloat.one 7
         (Examples.config 3 (Examples.tenths 1) (Examples.tenths 3)))
  = PrimFloat.div (Examples.tenths 25) (PyFloat.of_int 1)
  /\ tokens_per_second (Examples.config 3 (Examples.tenths 1) (Examples.tenths 3))
     = PrimFloat.zero.
Proof.
  split.
  - apply (averages_derived
             (inc 1 (Examples.tenths 25) PrimFloat.one PrimFloat.one PrimFloat.one 7
                  (Examples.config 3 (Examples.tenths 1) (Examples.tenths 3)))).
    simpl. lia.
  - apply (averages_derived (Examples.config 3 (Examples.tenths 1) (Examples.tenths 3))).
    reflexivity.
Defined.

End ConfigFacts.

(** ** The Sample Worker *)
Module WorkerFacts.

Import Py Processor.

Lemma prepare_ok `{Json.Lib} (env : worker_env) (w : work_item)
    (sample : SampleResponse.t) (m : LLMClient.metrics) (latency_ms : float) :
  prepare env w = Ok (sample, m, latency_ms) ->
  exists llm_client response_text,
    new_client env = Ok llm_client
    /\ LLMClient.generate_structured_response_with_metrics
         llm_client (client_clock env) (wi_prompt w)
         (ResponseStructure (schema_json env))
         (wi_temperature w) (wi_top_p w) (wi_max_tokens w) None (wi_model w)
       = Ok (response_text, m)
    /\ latency_ms = to_ms (PrimFloat.sub (finished env) (started env))
    /\ sample = sample_of w (extract_input_request (wi_prompt w))
                          response_text m latency_ms.
Proof.
  unfold prepare. intros Hp.
  destruct (new_client env) as [llm_client|e]; [| discriminate Hp].
  cbn [mbind result_bind bind] in Hp.
  destruct (LLMClient.generate_structured_response_with_metrics _ _ _ _ _ _ _ _ _)
    as [[response_text metrics]|e] eqn:Hg; [| discriminate Hp].
  cbn [mbind result_bind bind fst snd] in Hp.
  destruct (validate_response response_text) as [[]|e]; [| discriminate Hp].
  cbn [mbind result_bind bind] in Hp.
  injection Hp as <- <- <-.
  exists llm_client, response_text. repeat split. exact Hg.
Qed.

Lemma qps_of_nonnegative (latency_ms : float) :
  PrimFloat.leb PrimFloat.zero latency_ms = true ->
  qps_of latency_ms
  = if PyFloat.eq latency_ms PrimFloat.zero then PrimFloat.zero
    else PrimFloat.div (PyFloat.of_int 1000) latency_ms.
Proof.
  intros H. unfold qps_of. rewrite (FloatFacts.not_gt_zero _ H).
  now destruct (PyFloat.eq latency_ms PrimFloat.zero).
Qed.

(** C2: a run of the Sample Worker returns a boolean.  It returns [True]
    exactly when no step raises; then one Sample Record has been added, and
    the configuration's counter has grown by 1 and its five sums by this
    sample's tokens per second, time to first token in milliseconds,
    [1000 / latency_ms] (0 when the latency is 0), latency in milliseconds
    and total tokens, each by one addition (and addition commutes).  When
    a step raises, the run returns [False], the aggregates are untouched,
    and the records are the old ones, followed by the complete new record
    only if the step that raised was the update of the aggregates.  The
    latency, a difference of two clock readings, is taken to be
    non-negative. *)
Theorem worker_run `{Json.Lib} (env : worker_env) (w : work_item) (store : db) :
  let latency_ms := to_ms (PrimFloat.sub (finished env) (started env)) in
  let run := generate_sample_response env w store in
  PrimFloat.leb PrimFloat.zero latency_ms = true ->
  (snd run = true <->
   (exists prepared, prepare env w = Ok prepared)
   /\ save_raises env = None /\ update_raises env = None)
  /\ (snd run = true ->
      exists sample response_text metrics llm_client,
        new_client env = Ok llm_client
        /\ LLMClient.generate_structured_response_with_metrics
             llm_client (client_clock env) (wi_prompt w)
             (ResponseStructure (schema_json env))
             (wi_temperature w) (wi_top_p w) (wi_max_tokens w) None (wi_model w)
           = Ok (response_text, metrics)
        /\ sample_responses (fst run) = sample_responses store ++ [sample]
        /\ SampleResponse.yaml_config_id sample = wi_yaml_config_id w
        /\ SampleResponse.prompt sample = wi_prompt w
        /\ SampleResponse.response_text sample = response_text
        /\ SampleResponse.tokens_per_second sample = LLMClient.tokens_per_second metrics
        /\ SampleResponse.time_to_first_token sample
           = PrimFloat.mul (LLMClient.time_to_first_token metrics) (PyFloat.of_int 1000)
        /\ SampleResponse.latency sample = latency_ms
        /\ SampleResponse.total_tokens sample = LLMClient.total_tokens metrics
        /\ (forall c, yaml_configs store !! wi_yaml_config_id w = Some c ->
            exists c',
              yaml_configs (fst run) !! wi_yaml_config_id w = Some c'
              /\ YAMLConfig.total_responses_generated c'
                 = YAMLConfig.total_responses_generated c + 1
              /\ YAMLConfig.tokens_per_second_sum c'
                 = PrimFloat.add (YAMLConfig.tokens_per_second_sum c)
                                 (SampleResponse.tokens_per_second sample)
              /\ YAMLConfig.time_to_first_token_sum c'
                 = PrimFloat.add (YAMLConfig.time_to_first_token_sum c)
                                 (SampleResponse.time_to_first_token sample)
              /\ YAMLConfig.queries_per_second_sum c'
                 = PrimFloat.add (YAMLConfig.queries_per_second_sum c)
                     (if PyFloat.eq latency_ms PrimFloat.zero then PrimFloat.zero
                      else PrimFloat.div (PyFloat.of_int 1000) latency_ms)
              /\ YAMLConfig.average_latency_sum c'
                 = PrimFloat.add (YAMLConfig.average_latency_sum c)
                                 (SampleResponse.latency sample)
              /\ YAMLConfig.total_tokens_sum c'
                 = YAMLConfig.total_tokens_sum c + SampleResponse.total_tokens sample)
        /\ (forall other, other <> wi_yaml_config_id w ->
            yaml_configs (fst run) !! other = yaml_configs store !! other))
  /\ (snd run = false ->
      yaml_configs (fst run) = yaml_configs store
      /\ (sample_responses (fst run) = sample_responses store
          \/ exists sample metrics e,
               prepare env w = Ok (sample, metrics, latency_ms)
               /\ save_raises env = None
               /\ update_raises env = Some e
               /\ sample_responses (fst run) = sample_responses store ++ [sample]))
  /\ (forall sum contribution : float,
      PrimFloat.add sum contribution = PrimFloat.add contribution sum)
  /\ (forall sum contribution : Z, sum + contribution = contribution + sum).
Proof.
  intros latency_ms run Hlat. subst run.
  unfold generate_sample_response, save, update_one.
  split; [| split; [| split; [| split]]].
  - destruct (prepare env w) as [[[sample m] lat]|e]; simpl.
    + destruct (save_raises env), (update_raises env); simpl;
        (split;
         [ first [discriminate | intros _; eauto]
         | first [intros (_ & ? & ?); discriminate | intros _; reflexivity] ]).
    + split; [discriminate | intros ([p Hp] & _); discriminate].
  - destruct (prepare env w) as [[[sample m] lat]|e] eqn:Hp; simpl; [| discriminate].
    apply prepare_ok in Hp as (llm_client & response_text & Hc & Hg & -> & ->).
    fold latency_ms.
    destruct (save_raises env); simpl; [discriminate |].
    destruct (update_raises env); simpl; [discriminate |].
    intros _.
    exists (sample_of w (extract_input_request (wi_prompt w)) response_text m latency_ms),
      response_text, m, llm_client.
    repeat (split; [first [exact Hc | exact Hg | reflexivity] |]).
    split.
    + intros c Hc'. eexists. split.
      * rewrite lookup_alter_eq, Hc'. reflexivity.
      * simpl. rewrite (qps_of_nonnegative _ Hlat). repeat split.
    + intros other Hne. now rewrite lookup_alter_ne.
  - destruct (prepare env w) as [[[sample m] lat]|e] eqn:Hp; simpl.
    + pose proof (prepare_ok _ _ _ _ _ Hp) as (_ & _ & _ & _ & Hl & _).
      subst lat. fold latency_ms in Hp.
      destruct (save_raises env) eqn:Hs; simpl; [intros _; split; [reflexivity | now left] |].
      destruct (update_raises env) eqn:Hu; simpl; [| discriminate].
      intros _. split; [reflexivity |]. right. eauto 8.
    + intros _. split; [reflexivity | now left].
  - intros. apply FloatFacts.add_comm.
  - intros. apply Z.add_comm.
Qed.

(** One run of the worker on the example store: the counter of the
    configuration becomes 1. *)
Lemma worker_run_witness :
  PrimFloat.leb PrimFloat.zero
    (to_ms (PrimFloat.sub (finished Examples.worker_env) (started Examples.worker_env)))
  = true
  /\ exists c',
       yaml_configs
         (fst (generate_sample_response (H := MiniJson.lib) Examples.worker_env
                 Examples.work_item
                 (Examples.store_of
                    (Examples.config 3 (Examples.tenths 1) (Examples.tenths 3)) [])))
       !! "cfg1" = Some c'
       /\ YAMLConfig.total_responses_generated c' = 1.
Proof.
  split; [vm_compute; reflexivity |].
  destruct (worker_run (H := MiniJson.lib) Examples.worker_env Examples.work_item
              (Examples.store_of
                 (Examples.config 3 (Examples.tenths 1) (Examples.tenths 3)) []))
    as (_ & Hok & _).
  - vm_compute. reflexivity.
  - destruct Hok as (sample & text & m & cl & _ & _ & _ & _ & _ & _ & _ & _ & _ & _ & Hcfg & _).
    + vm_compute. reflexivity.
    + destruct (Hcfg (Examples.config 3 (Examples.tenths 1) (Examples.tenths 3)))
        as (c' & Hc' & Htotal & _).
      * vm_compute. reflexivity.
      * exists c'. split; [exact Hc' | exact Htotal].
Defined.

End WorkerFacts.

(** ** The Generation Client *)
Module ClientFacts.

Import Py LLMClient.

Lemma try_except_returns {A} (body : result A) (handler : exn -> result A) :
  (forall e, returns (handler e)) -> returns (try_except body handler).
Proof.
  intros H. destruct body as [a|e]; simpl; [now exists a | apply H].
Qed.

Lemma try_except_raised {A} (body : result A) (handler : exn -> result A) (e : exn) :
  body = Raise e -> try_except body handler = handler e.
Proof. now intros ->. Qed.

Lemma try_except_ok {A} (body : result A) (handler : exn -> result A) (a : A) :
  body = Ok a -> try_except body handler = Ok a.
Proof. now intros ->. Qed.

(** *** Reading a stream *)

(** A stream in which the transport fails makes the loop raise: that
    error, or an earlier one. *)
Lemma consume_failed (start : float) (events : list stream_event) (e : exn)
    (p : progress) :
  In (failed e) events -> exists e', consume start events p = Raise e'.
Proof.
  revert p. induction events as [|ev rest IH]; intros p Hin; [destruct Hin |].
  destruct Hin as [-> | Hin]; simpl; [eauto |].
  destruct ev as [arrival c|e0]; [| eauto].
  destruct (on_chunk start arrival c p) as [p'|e1]; simpl; [now apply IH | eauto].
Qed.

Lemma measure_failed (clk : clock) (events : list stream_event) (e : exn) :
  In (failed e) events -> exists e', measure clk (stream events) = Raise e'.
Proof.
  intros Hin. unfold measure.
  destruct (consume_failed (start_time clk) events e initial Hin) as [e' ->].
  simpl. eauto.
Qed.

(** C4 as stated fails for the plain-text operation: when the backend
    refuses the request, [generate_text] returns a text that describes the
    error, not the empty text, and no metrics. *)
Lemma generate_text_error_counterexample :
  generate_text (init (Some "key") (Examples.refusing "connection refused") None)
                Examples.no_files "Say this is a test" []
  = Ok (Some "Error generating response: connection refused")
  /\ Some "Error generating response: connection refused" <> Some "".
Proof. split; [reflexivity | discriminate]. Qed.

(** C4, amended: no generation operation of the client lets an error
    escape: each of the four returns a value.  Whatever is raised in the
    [try] block of a streaming operation, by the request, while the stream
    is read, or afterwards, the operation returns the empty text together
    with the metrics [{time_to_first_token: 0, total_tokens: 0,
    tokens_per_second: 0, total_time: 0}].  The plain-text operation
    returns the text ["Error generating response: "] followed by the
    error's description. *)
Theorem generation_errors_are_caught `{Json.Lib} (self : t) (fs : files) (clk : clock)
    (prompt : string) (schema : schema_model) (documents : list (string * string))
    (temperature : float) (top_p : option float) (max_tokens seed : option Z)
    (model : string) :
  (returns (generate_text self fs prompt documents)
   /\ returns (generate_structured_json self fs prompt schema documents)
   /\ returns (generate_response_with_metrics self clk prompt temperature top_p
                 max_tokens seed model)
   /\ returns (generate_structured_response_with_metrics self clk prompt schema
                 temperature top_p max_tokens seed model))
  /\ (forall e,
      generate_response_with_metrics_try self clk prompt temperature top_p
        max_tokens seed model = Raise e ->
      generate_response_with_metrics self clk prompt temperature top_p
        max_tokens seed model = Ok ("", zero_metrics))
  /\ (forall e,
      generate_structured_response_with_metrics_try self clk prompt schema
        temperature top_p max_tokens seed model = Raise e ->
      generate_structured_response_with_metrics self clk prompt schema
        temperature top_p max_tokens seed model = Ok ("", zero_metrics))
  /\ (forall e,
      generate_text_try self fs prompt documents = Raise e ->
      generate_text self fs prompt documents
      = Ok (Some ("Error generating response: " +:+ exn_str e)))
  /\ (forall e,
      (forall rq, client self rq = Raise e) ->
      generate_response_with_metrics_try self clk prompt temperature top_p
        max_tokens seed model = Raise e
      /\ generate_text_try self fs prompt documents = Raise e
      /\ exists e', generate_structured_response_with_metrics_try self clk prompt
                      schema temperature top_p max_tokens seed model = Raise e')
  /\ (forall e events,
      (forall rq, client self rq = Ok (stream events)) ->
      In (failed e) events ->
      (exists e', generate_response_with_metrics_try self clk prompt temperature
                    top_p max_tokens seed model = Raise e')
      /\ (exists e', generate_structured_response_with_metrics_try self clk prompt
                       schema temperature top_p max_tokens seed model = Raise e')).
Proof.
  split; [| split; [| split; [| split; [| split]]]].
  - repeat split; apply try_except_returns; intros e; eexists; reflexivity.
  - intros e He. unfold generate_response_with_metrics. now rewrite He.
  - intros e He. unfold generate_structured_response_with_metrics. now rewrite He.
  - intros e He. unfold generate_text. now rewrite He.
  - intros e Hc. split; [| split].
    + unfold generate_response_with_metrics_try. now rewrite Hc.
    + unfold generate_text_try. now rewrite Hc.
    + unfold generate_structured_response_with_metrics_try.
      destruct (model_json_schema schema) as [js|e0]; simpl; [| eauto].
      rewrite Hc. simpl. eauto.
  - intros e events Hc Hin.
    destruct (measure_failed clk events e Hin) as [e' He'].
    split.
    + unfold generate_response_with_metrics_try. rewrite Hc. simpl. eauto.
    + unfold generate_structured_response_with_metrics_try.
      destruct (model_json_schema schema) as [js|e0]; simpl; [| eauto].
      rewrite Hc. simpl. eauto.
Qed.

(** A backend that refuses the request. *)
Lemma generation_errors_are_caught_witness :
  generate_response_with_metrics
    (init (Some "key") (Examples.refusing "connection refused") None)
    {| start_time := PyFloat.of_int 10; end_time := PyFloat.of_int 12 |}
    "Say this is a test" (Examples.tenths 7) (Some PrimFloat.one) (Some 1000) None
    "accounts/fireworks/models/deepseek-v3"
  = Ok ("", zero_metrics).
Proof.
  destruct (generation_errors_are_caught (H := MiniJson.lib)
              (init (Some "key") (Examples.refusing "connection refused") None)
              Examples.no_files
              {| start_time := PyFloat.of_int 10; end_time := PyFloat.of_int 12 |}
              "Say this is a test" (ResponseStructure (Ok (Dict []))) []
              (Examples.tenths 7) (Some PrimFloat.one) (Some 1000) None
              "accounts/fireworks/models/deepseek-v3")
    as (_ & Hcaught & _).
  apply (Hcaught (Exn OtherError "connection refused")).
  reflexivity.
Defined.

(** *** The defaults of [generate_structured_json] *)

Lemma lookup_set_item_eq (k : string) (v : value) (items : list (string * value)) :
  lookup_item k (set_item k v items) = Some v.
Proof.
  induction items as [|[k' v'] rest IH]; simpl.
  - now rewrite String.eqb_refl.
  - destruct (String.eqb k k') eqn:E; simpl.
    + now rewrite String.eqb_refl.
    + now rewrite E.
Qed.

Lemma lookup_set_item_ne (k k' : string) (v : value) (items : list (string * value)) :
  k <> k' -> lookup_item k' (set_item k v items) = lookup_item k' items.
Proof.
  intros Hne. induction items as [|[k0 v0] rest IH]; simpl.
  - destruct (String.eqb k' k) eqn:E; [| reflexivity].
    apply String.eqb_eq in E. congruence.
  - destruct (String.eqb k k0) eqn:E; simpl.
    + apply String.eqb_eq in E. subst k0.
      destruct (String.eqb k' k) eqn:E'; [| reflexivity].
      apply String.eqb_eq in E'. congruence.
    + now rewrite IH.
Qed.

Lemma keys_set_item_new (k : string) (v : value) (items : list (string * value)) :
  ~ In k (map fst items) -> map fst (set_item k v items) = map fst items ++ [k].
Proof.
  induction items as [|[k' v'] rest IH]; simpl; intros Hnew; [reflexivity |].
  destruct (String.eqb k k') eqn:E.
  - apply String.eqb_eq in E. subst. tauto.
  - simpl. rewrite IH; tauto.
Qed.

(** The loop over [model_fields.items()], from any dictionary built so
    far. *)
Lemma fold_defaults (e : exn) (fields : list (string * FieldInfo))
    (acc : list (string * value)) :
  NoDup (map fst fields) ->
  (forall k, In k (map fst fields) -> ~ In k (map fst acc)) ->
  let d := fold_left
             (fun acc nf => set_item (fst nf) (default_for e (fst nf) (snd nf)) acc)
             fields acc in
  map fst d = map fst acc ++ map fst fields
  /\ (forall name field, In (name, field) fields ->
      lookup_item name d = Some (default_for e name field))
  /\ (forall k, ~ In k (map fst fields) -> lookup_item k d = lookup_item k acc).
Proof.
  revert acc. induction fields as [|[n f] rest IH]; intros acc Hnd Hfresh; simpl.
  - rewrite app_nil_r. split; [reflexivity |]. split; [intros ? ? [] | reflexivity].
  - simpl in Hnd. apply NoDup_cons in Hnd as [Hn Hnd].
    assert (Hn' : ~ In n (map fst rest)) by (now rewrite <- list_elem_of_In).
    assert (Hfresh' : forall k, In k (map fst rest) ->
                                ~ In k (map fst (set_item n (default_for e n f) acc))).
    { intros k Hk. rewrite keys_set_item_new by (apply Hfresh; now left).
      rewrite in_app_iff. intros [Hin | [<- | []]]; [| contradiction].
      apply (Hfresh k); [now right | exact Hin]. }
    destruct (IH (set_item n (default_for e n f) acc) Hnd Hfresh') as (Hkeys & Hval & Hrest).
    split; [| split].
    + rewrite Hkeys, keys_set_item_new by (apply Hfresh; now left).
      now rewrite <- app_assoc.
    + intros name field [Heq | Hin].
      * injection Heq as <- <-. rewrite Hrest by exact Hn'.
        apply lookup_set_item_eq.
      * now apply Hval.
    + intros k Hk. rewrite Hrest by tauto.
      apply lookup_set_item_ne. tauto.
Qed.

Lemma default_values_spec (e : exn) (schema : schema_model) :
  NoDup (map fst (model_fields schema)) ->
  map fst (default_values e schema) = map fst (model_fields schema)
  /\ (forall name field, In (name, field) (model_fields schema) ->
      lookup_item name (default_values e schema) = Some (default_for e name field)).
Proof.
  intros Hnd.
  destruct (fold_defaults e (model_fields schema) [] Hnd) as (Hk & Hv & _).
  - intros k _ [].
  - split; [exact Hk | exact Hv].
Qed.

(** C5 as stated fails: for a field whose annotation is none of [str],
    [int], [float], [bool], [list], [dict] the default is not always [None]:
    a declared default factory is called and its value is used. *)
Lemma default_factory_counterexample :
  generate_structured_json (H := MiniJson.lib)
    (init (Some "key") (Examples.refusing "connection refused") None)
    Examples.no_files "Count the items" Examples.counted_schema []
  = Ok (Dict [("count", Int 5)])
  /\ Int 5 <> None_.
Proof. split; [reflexivity | discriminate]. Qed.

(** C5, amended: whatever error [e] is raised in the [try] block of
    [generate_structured_json], the operation returns a dictionary with
    exactly the declared fields of the schema as keys, where a field named
    [explanation] has the text ["Error generating explanation: "] followed
    by the error's description, and any other field has the empty string
    ([str]), 0 ([int], [float]), [False] ([bool]), the empty list ([list]),
    the empty dictionary ([dict]), and otherwise the value of its default
    factory when it declares one and [None] when it does not.  The
    streaming structured operation returns the empty text and zero metrics
    instead. *)
Theorem structured_defaults `{Json.Lib} (self : t) (fs : files) (prompt : string)
    (schema : schema_model) (documents : list (string * string)) (e : exn) :
  NoDup (map fst (model_fields schema)) ->
  generate_structured_json_try self fs prompt schema documents = Raise e ->
  exists d,
    generate_structured_json self fs prompt schema documents = Ok (Dict d)
    /\ map fst d = map fst (model_fields schema)
    /\ (forall name field, In (name, field) (model_fields schema) ->
        exists v,
          lookup_item name d = Some v
          /\ (name = "explanation" ->
              v = Str ("Error generating explanation: " +:+ exn_str e))
          /\ (name <> "explanation" ->
              match field_annotation field with
              | A_str => v = Str ""
              | A_int | A_float => v = Int 0
              | A_bool => v = Bool false
              | A_list => v = List []
              | A_dict => v = Dict []
              | A_other =>
                  match default_factory field with
                  | Some factory => v = factory tt
                  | None => v = None_
                  end
              end))
    /\ (forall clk temperature top_p max_tokens seed model e',
        generate_structured_response_with_metrics_try self clk prompt schema
          temperature top_p max_tokens seed model = Raise e' ->
        generate_structured_response_with_metrics self clk prompt schema
          temperature top_p max_tokens seed model = Ok ("", zero_metrics)).
Proof.
  intros Hnd Hraise.
  destruct (default_values_spec e schema Hnd) as [Hkeys Hvals].
  exists (default_values e schema). split; [| split; [| split]].
  - unfold generate_structured_json. now rewrite Hraise.
  - exact Hkeys.
  - intros name field Hin. exists (default_for e name field).
    split; [now apply Hvals |]. unfold default_for. split.
    + intros ->. reflexivity.
    + intros Hne. apply String.eqb_neq in Hne. rewrite Hne.
      destruct (field_annotation field); try reflexivity.
      destruct (default_factory field); reflexivity.
  - intros clk temperature top_p max_tokens seed model e' He'.
    unfold generate_structured_response_with_metrics. now rewrite He'.
Qed.

(** The schema with one field, on a backend that refuses the request. *)
Lemma structured_defaults_witness :
  exists d,
    generate_structured_json (H := MiniJson.lib)
      (init (Some "key") (Examples.refusing "connection refused") None)
      Examples.no_files "Count the items" Examples.counted_schema [] = Ok (Dict d)
    /\ map fst d = ["count"].
Proof.
  destruct (structured_defaults (H := MiniJson.lib)
              (init (Some "key") (Examples.refusing "connection refused") None)
              Examples.no_files "Count the items" Examples.counted_schema []
              (Exn OtherError "connection refused"))
    as (d & Hd & Hkeys & _).
  - vm_compute. apply NoDup_cons. split; [apply not_elem_of_nil | apply NoDup_nil_2].
  - reflexivity.
  - exists d. split; [exact Hd | exact Hkeys].
Defined.

(** *** The metrics of a streamed call *)

(** The loop [for chunk in response], when it ends without an exception:
    the text is the concatenation of the delivered texts, and the token
    estimate has grown by a quarter of the length of each. *)
Lemma consume_ok (start : float) (events : list stream_event) (p p' : progress) :
  consume start events p = Ok p' ->
  response_text p'
  = fold_left (fun acc s => acc +:+ s) (delivered_texts events) (response_text p)
  /\ tokens p' = estimate_from (tokens p) (delivered_texts events)
  /\ first_token_time p'
     = match first_token_time p, events with
       | Some x, _ => Some x
       | None, delivered arrival _ :: _ => Some (PrimFloat.sub arrival start)
       | None, _ => None
       end.
Proof.
  unfold delivered_texts.
  revert p. induction events as [|ev rest IH]; intros p Hc; simpl in Hc.
  - injection Hc as <-. repeat split. now destruct (first_token_time p).
  - destruct ev as [arrival c|e]; [| discriminate Hc].
    destruct (on_chunk start arrival c p) as [p1|e] eqn:Hp1; [| discriminate Hc].
    cbn [mbind result_bind bind] in Hc.
    destruct (IH p1 Hc) as (Ht & Hn & Hf). clear IH Hc.
    unfold on_chunk in Hp1.
    destruct (chunk_choices c) as [|delta_content others] eqn:Hch; [discriminate Hp1 |].
    assert (Hfirst : first_token_time p'
                     = match first_token_time p with
                       | Some x => Some x
                       | None => Some (PrimFloat.sub arrival start)
                       end).
    { destruct delta_content as [s|]; [destruct (PyStr.truthy s) |];
        injection Hp1 as <-; simpl in Hf; rewrite Hf;
        destruct (first_token_time p); reflexivity. }
    simpl omap. unfold chunk_text at 1. rewrite Hch.
    destruct delta_content as [s|]; [destruct (PyStr.truthy s) eqn:Hs |];
      injection Hp1 as <-; simpl in Ht, Hn; simpl;
      (split; [exact Ht | split; [exact Hn | exact Hfirst]]).
Qed.

Lemma measure_ok (clk : clock) (events : list stream_event) (text : string)
    (m : metrics) :
  measure clk (stream events) = Ok (text, m) ->
  text = concat_texts (delivered_texts events)
  /\ total_time m = PrimFloat.sub (end_time clk) (start_time clk)
  /\ PyFloat.to_int (estimate (delivered_texts events)) = Some (total_tokens m)
  /\ tokens_per_second m
     = (if PyFloat.gt (total_time m) PrimFloat.zero
        then PrimFloat.div (estimate (delivered_texts events)) (total_time m)
        else PrimFloat.zero)
  /\ time_to_first_token m
     = match events with
       | delivered arrival _ :: _ => PrimFloat.sub arrival (start_time clk)
       | _ => total_time m
       end.
Proof.
  unfold measure. intros Hm.
  destruct (consume (start_time clk) events initial) as [p|e] eqn:Hc; [| discriminate Hm].
  cbn [mbind result_bind bind] in Hm.
  apply consume_ok in Hc as (Ht & Hn & Hf). simpl in Ht, Hn, Hf.
  unfold int_tokens in Hm.
  destruct (PyFloat.to_int (tokens p)) as [n|] eqn:Hint; [| discriminate Hm].
  cbn [mbind result_bind bind] in Hm. injection Hm as <- <-. simpl.
  unfold estimate, concat_texts. rewrite <- Hn.
  repeat split; try assumption.
  rewrite Hf. destruct events as [|[arrival c|e] rest]; reflexivity.
Qed.

(** C6 as stated fails on a stream that delivers the one chunk ["abc"]:
    the accumulated estimate is 3/4, the [total_tokens] returned is its
    integer part 0, and [tokens_per_second], 3/8 over two seconds, is not
    the returned [total_tokens] divided by [total_time]. *)
Lemma truncated_token_count_counterexample :
  exists m,
    generate_response_with_metrics
      (init (Some "key") (Examples.answering (PyFloat.of_int 11) "abc") None)
      {| start_time := PyFloat.of_int 10; end_time := PyFloat.of_int 12 |}
      "Say this is a test" (Examples.tenths 7) (Some PrimFloat.one) (Some 1000) None
      "accounts/fireworks/models/deepseek-v3"
    = Ok ("abc", m)
    /\ estimate ["abc"] = PyFloat.int_truediv 3 4
    /\ total_tokens m = 0
    /\ PyFloat.eq (PyFloat.of_int (total_tokens m)) (estimate ["abc"]) = false
    /\ tokens_per_second m = PyFloat.int_truediv 3 8
    /\ PyFloat.eq (tokens_per_second m)
                  (PrimFloat.div (PyFloat.of_int (total_tokens m)) (total_time m))
       = false.
Proof.
  eexists. split; [vm_compute; reflexivity |].
  repeat split; vm_compute; reflexivity.
Qed.

(** C6, amended: when a streamed call returns what it measured,
    [total_time] is the time elapsed between the two clock readings of the
    call; [total_tokens] is the integer part of the estimate accumulated as
    [len(content) / 4] over the chunks that carry text;
    [tokens_per_second] is that estimate, not truncated, divided by
    [total_time] when [total_time > 0], and 0 when [total_time] is 0;
    [time_to_first_token] is [total_time] when no chunk arrived, and the
    time elapsed until the first chunk when that chunk carries text. *)
Theorem streamed_metrics (self : t) (clk : clock) (prompt : string)
    (schema : schema_model) (temperature : float) (top_p : option float)
    (max_tokens seed : option Z) (model : string)
    (events : list stream_event) (text : string) (m : metrics) :
  (forall rq, client self rq = Ok (stream events)) ->
  measure clk (stream events) = Ok (text, m) ->
  generate_response_with_metrics self clk prompt temperature top_p max_tokens
    seed model = Ok (text, m)
  /\ (forall json_schema, model_json_schema schema = Ok json_schema ->
      generate_structured_response_with_metrics self clk prompt schema temperature
        top_p max_tokens seed model = Ok (text, m))
  /\ text = concat_texts (delivered_texts events)
  /\ total_time m = PrimFloat.sub (end_time clk) (start_time clk)
  /\ PyFloat.to_int (estimate (delivered_texts events)) = Some (total_tokens m)
  /\ (PyFloat.gt (total_time m) PrimFloat.zero = true ->
      tokens_per_second m
      = PrimFloat.div (estimate (delivered_texts events)) (total_time m))
  /\ (PyFloat.eq (total_time m) PrimFloat.zero = true ->
      tokens_per_second m = PrimFloat.zero)
  /\ (events = [] -> time_to_first_token m = total_time m)
  /\ (forall arrival c rest s,
      events = delivered arrival c :: rest ->
      chunk_text (delivered arrival c) = Some s ->
      time_to_first_token m = PrimFloat.sub arrival (start_time clk)).
Proof.
  intros Hc Hm.
  destruct (measure_ok clk events text m Hm) as (Htext & Htotal & Hint & Htps & Hfirst).
  split; [| split].
  - unfold generate_response_with_metrics, generate_response_with_metrics_try.
    rewrite Hc. cbn [mbind result_bind bind]. now rewrite Hm.
  - intros js Hjs.
    unfold generate_structured_response_with_metrics,
      generate_structured_response_with_metrics_try.
    rewrite Hjs. cbn [mbind result_bind bind].
    rewrite Hc. cbn [mbind result_bind bind]. now rewrite Hm.
  - repeat split; try assumption.
    + intros Hgt. now rewrite Htps, Hgt.
    + intros Hz. rewrite Htps, (FloatFacts.eq_zero_not_gt _ Hz). reflexivity.
    + intros ->. exact Hfirst.
    + intros arrival c rest s -> _. exact Hfirst.
Qed.

(** A stream that delivers eight characters in one chunk: 2 tokens. *)
Lemma streamed_metrics_witness :
  exists m,
    generate_response_with_metrics
      (init (Some "key") (Examples.answering (PyFloat.of_int 11) "abcdefgh") None)
      {| start_time := PyFloat.of_int 10; end_time := PyFloat.of_int 12 |}
      "Say this is a test" (Examples.tenths 7) (Some PrimFloat.one) (Some 1000) None
      "accounts/fireworks/models/deepseek-v3"
    = Ok ("abcdefgh", m)
    /\ total_tokens m = 2
    /\ PyFloat.to_int (estimate ["abcdefgh"]) = Some (total_tokens m).
Proof.
  exists {| time_to_first_token := PyFloat.of_int 1;
            total_tokens := 2;
            tokens_per_second := PyFloat.of_int 1;
            total_time := PyFloat.of_int 2 |}.
  destruct (streamed_metrics
              (init (Some "key") (Examples.answering (PyFloat.of_int 11) "abcdefgh") None)
              {| start_time := PyFloat.of_int 10; end_time := PyFloat.of_int 12 |}
              "Say this is a test" (ResponseStructure (Ok (Dict [])))
              (Examples.tenths 7) (Some PrimFloat.one) (Some 1000) None
              "accounts/fireworks/models/deepseek-v3"
              [delivered (PyFloat.of_int 11) {| chunk_choices := [Some "abcdefgh"] |}]
              "abcdefgh"
              {| time_to_first_token := PyFloat.of_int 1;
                 total_tokens := 2;
                 tokens_per_second := PyFloat.of_int 1;
                 total_time := PyFloat.of_int 2 |})
    as (Hrun & _ & _ & _ & Hint & _).
  - intros rq. reflexivity.
  - vm_compute. reflexivity.
  - split; [exact Hrun | split; [reflexivity | exact Hint]].
Defined.

End ClientFacts.

(** ** The Dataset Materializer *)
Module MaterializerFacts.

Import Py Processor.

(** *** One line per sample *)

(** The loop over the samples goes on after a sample that raises: the file
    is the concatenation of what each sample writes. *)
Lemma dataset_file_cons `{Json.Lib} (s : SampleResponse.t) (rest : list SampleResponse.t) :
  dataset_file (s :: rest) = write_sample s +:+ dataset_file rest.
Proof. reflexivity. Qed.

Lemma write_sample_fallback `{Json.Lib} (s : SampleResponse.t) :
  emit_parsed s = Ok None -> write_sample s = emit_fallback s.
Proof. intros E. unfold write_sample, emit_sample. now rewrite E. Qed.

(** A response text that does not look like an object goes to the
    fallback. *)
Lemma write_sample_not_object `{Json.Lib} (s : SampleResponse.t) :
  looks_like_object (SampleResponse.response_text s) = false ->
  write_sample s = emit_fallback s.
Proof.
  intros E. apply write_sample_fallback. unfold emit_parsed. now rewrite E.
Qed.

(** A response text that [json.loads] rejects goes to the fallback. *)
Lemma write_sample_not_json `{Json.Lib} (s : SampleResponse.t) (message : string) :
  Json.loads (SampleResponse.response_text s) = Raise (Exn JSONDecodeError message) ->
  write_sample s = emit_fallback s.
Proof.
  intros E. apply write_sample_fallback. unfold emit_parsed.
  destruct (looks_like_object _); [| reflexivity]. now rewrite E.
Qed.

(** The object with a two-element [messages] array is written as
    [json.dumps] renders it; when [json.loads] inverts [json.dumps] on it,
    the line parses back to the same object. *)
Lemma write_sample_two_messages `{Json.Lib} (s : SampleResponse.t)
    (items : list (string * value)) (first second : value) :
  looks_like_object (SampleResponse.response_text s) = true ->
  Json.loads (SampleResponse.response_text s) = Ok (Dict items) ->
  lookup_item "messages" items = Some (List [first; second]) ->
  write_sample s = Json.dumps (Dict items) +:+ PyStr.nl
  /\ (Json.loads (Json.dumps (Dict items)) = Ok (Dict items) ->
      exists line, write_sample s = line +:+ PyStr.nl
                   /\ Json.loads line = Ok (Dict items)).
Proof.
  intros Hobj Hloads Hm.
  assert (Hw : write_sample s = Json.dumps (Dict items) +:+ PyStr.nl).
  { unfold write_sample, emit_sample, emit_parsed.
    rewrite Hobj, Hloads. simpl. rewrite Hm. reflexivity. }
  split; [exact Hw |]. intros Hrt. eauto.
Qed.

(** C7, the defect: the first test of the loop body asks for a [messages]
    member of length 2 and not for a list.  An object whose [messages]
    member is any value of length 2 (a two-character string, a dictionary
    with two keys) is written as it is, where the claim wants the fallback;
    an object whose [messages] member has no length (a number, a boolean,
    [null]) raises [TypeError], and the sample writes no line at all. *)
Theorem unchecked_messages_member `{Json.Lib} (s : SampleResponse.t)
    (items : list (string * value)) (member : value) :
  looks_like_object (SampleResponse.response_text s) = true ->
  Json.loads (SampleResponse.response_text s) = Ok (Dict items) ->
  lookup_item "messages" items = Some member ->
  (len member = Ok 2 -> write_sample s = Json.dumps (Dict items) +:+ PyStr.nl)
  /\ ((exists e, len member = Raise e) -> write_sample s = "").
Proof.
  intros Hobj Hloads Hm.
  unfold write_sample, emit_sample, emit_parsed.
  rewrite Hobj, Hloads. simpl. rewrite Hm.
  cbn [mbind result_bind bind].
  split.
  - intros ->. reflexivity.
  - intros [e He].
    destruct member; try discriminate He; reflexivity.
Qed.

(** The sample whose [messages] member is the string [ab] is written as
    it is, not as the fallback entry. *)
Lemma unchecked_messages_member_witness :
  write_sample (H := MiniJson.lib)
    (Examples.sample (Some "tea") Examples.messages_string)
  = Examples.messages_string +:+ PyStr.nl
  /\ write_sample (H := MiniJson.lib)
       (Examples.sample (Some "tea") Examples.messages_string)
     <> emit_fallback (H := MiniJson.lib)
          (Examples.sample (Some "tea") Examples.messages_string).
Proof.
  destruct (unchecked_messages_member (H := MiniJson.lib)
              (Examples.sample (Some "tea") Examples.messages_string)
              [("messages", Str "ab")] (Str "ab"))
    as [Hverbatim _].
  - vm_compute. reflexivity.
  - vm_compute. reflexivity.
  - reflexivity.
  - split.
    + rewrite Hverbatim by reflexivity. vm_compute. reflexivity.
    + rewrite Hverbatim by reflexivity. vm_compute. discriminate.
Defined.

(** The sample whose [messages] member is a number is skipped, and the
    samples after it are still written. *)
Example number_member_skipped :
  dataset_file (H := MiniJson.lib)
    [Examples.sample (Some "tea") Examples.messages_number;
     Examples.sample None "plain text"]
  = "plain text" +:+ PyStr.nl.
Proof. vm_compute. reflexivity. Qed.

(** The round trip of the specification's example. *)
Example two_messages_round_trip :
  dataset_file (H := MiniJson.lib) [Examples.sample (Some "tea") Examples.two_messages]
  = Examples.two_messages +:+ PyStr.nl
  /\ MiniJson.loads Examples.two_messages
     = Ok (Dict [("messages",
                  List [Dict [("role", Str "user"); ("content", Str "hi")];
                        Dict [("role", Str "assistant"); ("content", Str "hello")]])]).
Proof. split; vm_compute; reflexivity. Qed.

(** *** Publishing *)

Lemma save_config_lookup (f : YAMLConfig.t -> YAMLConfig.t) (yaml_config_id : string)
    (store : db) (c : YAMLConfig.t) :
  yaml_configs store !! yaml_config_id = Some c ->
  yaml_configs (save_config f yaml_config_id store) !! yaml_config_id = Some (f c).
Proof. intros Hc. simpl. now rewrite lookup_alter_eq, Hc. Qed.

(** Without credentials nothing is sent: the result says so, and the
    configuration records it with the flag down. *)
Lemma publish_not_configured (env : upload_env) (yaml_config : YAMLConfig.t)
    (yaml_config_id : string) (store : db) :
  configured (FIREWORKS_API_KEY env) && configured (FIREWORKS_ACCOUNT_ID env) = false ->
  publish env yaml_config yaml_config_id store
  = (save_config
       (YAMLConfig.set_upload (Some false)
          (Dict [("error", Str "API credentials not configured")]))
       yaml_config_id store,
     Ok (Dict [("status", Str "file_created_only");
               ("error", Str "API credentials not configured");
               ("file_path", Str (abspath env (dataset_path yaml_config_id)))])).
Proof.
  intros H. unfold publish.
  destruct (configured (FIREWORKS_API_KEY env)),
    (configured (FIREWORKS_ACCOUNT_ID env)); try discriminate H; reflexivity.
Qed.

Lemma with_dataset_id_lookup (env : upload_env) (yaml_config : YAMLConfig.t)
    (yaml_config_id : string) (store : db) (c : YAMLConfig.t) :
  yaml_configs store !! yaml_config_id = Some c ->
  exists c1,
    yaml_configs (snd (with_dataset_id env yaml_config yaml_config_id store))
    !! yaml_config_id = Some c1
    /\ YAMLConfig.dataset_uploaded c1 = YAMLConfig.dataset_uploaded c
    /\ YAMLConfig.dataset_upload_response c1 = YAMLConfig.dataset_upload_response c.
Proof.
  intros Hc. unfold with_dataset_id.
  destruct (YAMLConfig.dataset_id yaml_config) as [d|]; [destruct (PyStr.truthy d) |];
    simpl; try (rewrite lookup_alter_eq, Hc; simpl); eauto.
Qed.

(** When the create call fails the upload call is not made: the remote
    store's answer to an upload plays no part, the failure response is
    recorded, and the flag keeps its value. *)
Lemma publish_create_failed (env : upload_env) (yaml_config : YAMLConfig.t)
    (yaml_config_id : string) (store : db) (c : YAMLConfig.t) (message : string) :
  configured (FIREWORKS_API_KEY env) && configured (FIREWORKS_ACCOUNT_ID env) = true ->
  yaml_configs store !! yaml_config_id = Some c ->
  (forall d, post_create env d = Raise (Exn RequestException message)) ->
  snd (publish env yaml_config yaml_config_id store) = Ok (Dict [("error", Str message)])
  /\ exists c',
       yaml_configs (fst (publish env yaml_config yaml_config_id store))
       !! yaml_config_id = Some c'
       /\ YAMLConfig.dataset_upload_response c' = Dict [("error", Str message)]
       /\ YAMLConfig.dataset_uploaded c' = YAMLConfig.dataset_uploaded c.
Proof.
  intros Hcfg Hc Hcreate. unfold publish.
  apply andb_true_iff in Hcfg as [-> ->]. simpl negb. cbn [orb].
  destruct (with_dataset_id_lookup env yaml_config yaml_config_id store c Hc)
    as (c1 & Hc1 & Hup & _).
  destruct (with_dataset_id env yaml_config yaml_config_id store) as [dataset_id store1].
  simpl in Hc1. rewrite Hcreate. simpl.
  split; [reflexivity |].
  eexists. split; [rewrite lookup_alter_eq, Hc1; reflexivity |].
  simpl. split; [reflexivity | exact Hup].
Qed.

(** C8, the defect: the answer of the create call is checked for an
    [error] entry, the answer of the upload call is not.  When the create
    call succeeds and the upload call fails, the client turns the failure
    into [{"error": ...}], and the task still sets [dataset_uploaded] and
    stores the combined payload, which holds that error. *)
Theorem failed_upload_marked_uploaded (env : upload_env) (yaml_config : YAMLConfig.t)
    (yaml_config_id : string) (store : db) (c : YAMLConfig.t)
    (create_response : value) (message : string) :
  configured (FIREWORKS_API_KEY env) && configured (FIREWORKS_ACCOUNT_ID env) = true ->
  yaml_configs store !! yaml_config_id = Some c ->
  (forall d, post_create env d = Ok create_response) ->
  contains_key "error" create_response = Ok false ->
  (forall d, post_upload env d = Raise (Exn RequestException message)) ->
  exists c' payload,
    yaml_configs (fst (publish env yaml_config yaml_config_id store))
    !! yaml_config_id = Some c'
    /\ YAMLConfig.dataset_uploaded c' = true
    /\ YAMLConfig.dataset_upload_response c' = Dict payload
    /\ snd (publish env yaml_config yaml_config_id store) = Ok (Dict payload)
    /\ lookup_item "creation" payload = Some create_response
    /\ lookup_item "upload" payload = Some (Dict [("error", Str message)]).
Proof.
  intros Hcfg Hc Hcreate Hnoerr Hupload. unfold publish.
  apply andb_true_iff in Hcfg as [-> ->]. simpl negb. cbn [orb].
  destruct (with_dataset_id_lookup env yaml_config yaml_config_id store c Hc)
    as (c1 & Hc1 & _).
  destruct (with_dataset_id env yaml_config yaml_config_id store) as [dataset_id store1].
  simpl in Hc1. rewrite Hcreate. simpl. rewrite Hnoerr, Hupload. simpl.
  eexists _, _. split; [rewrite lookup_alter_eq, Hc1; reflexivity |].
  simpl. repeat split.
Qed.

(** The remote store that creates the dataset and fails the upload. *)
Lemma failed_upload_marked_uploaded_witness :
  exists c',
    yaml_configs
      (fst (publish Examples.upload_env
              (Examples.config 3 (Examples.tenths 1) (Examples.tenths 3)) "cfg1"
              (Examples.store_of
                 (Examples.config 3 (Examples.tenths 1) (Examples.tenths 3)) [])))
    !! "cfg1" = Some c'
    /\ YAMLConfig.dataset_uploaded c' = true.
Proof.
  destruct (failed_upload_marked_uploaded Examples.upload_env
              (Examples.config 3 (Examples.tenths 1) (Examples.tenths 3)) "cfg1"
              (Examples.store_of
                 (Examples.config 3 (Examples.tenths 1) (Examples.tenths 3)) [])
              (Examples.config 3 (Examples.tenths 1) (Examples.tenths 3))
              (Dict [("state", Str "READY")])
              "500 Server Error")
    as (c' & payload & Hc' & Hflag & _).
  - reflexivity.
  - vm_compute. reflexivity.
  - intros d. reflexivity.
  - reflexivity.
  - intros d. reflexivity.
  - exists c'. split; [exact Hc' | exact Hflag].
Defined.

End MaterializerFacts.

(** ** More on Python strings *)
Module TextFacts.

Import PyStr.

(** [split] always returns at least one piece. *)
Lemma split_from_length (sep : string) (skip : nat) (cur s : string) :
  (1 <= length (split_from sep skip cur s))%nat.
Proof.
  revert skip cur. induction s as [|c s IH]; intros skip cur; simpl; [lia |].
  destruct skip; [| apply IH].
  destruct (startswith sep (String c s)); [simpl; lia | apply IH].
Qed.

(** A separator that occurs gives at least two pieces. *)
Lemma split_from_present (sep cur s : string) :
  sep <> "" -> contains sep s = true ->
  (2 <= length (split_from sep 0 cur s))%nat.
Proof.
  intros Hsep. revert cur. induction s as [|c s IH]; intros cur H.
  - destruct sep; [congruence | discriminate].
  - simpl in H. simpl split_from.
    destruct (startswith sep (String c s)) eqn:E.
    + simpl. pose proof (split_from_length sep (String.length sep - 1) "" s). lia.
    + simpl in H. now apply IH.
Qed.

(** A separator that does not occur leaves the text in one piece. *)
Lemma split_from_absent (sep cur s : string) :
  contains sep s = false -> split_from sep 0 cur s = [cur +:+ s].
Proof.
  revert cur. induction s as [|c s IH]; intros cur H.
  - simpl. now rewrite StrFacts.app_nil_r.
  - simpl in H. apply orb_false_iff in H as [H1 H2].
    simpl split_from. rewrite H1, (IH _ H2), StrFacts.app_assoc. reflexivity.
Qed.

(** A prefix of [t +:+ String c u] that does not contain [c] lies in [t]. *)
Lemma startswith_app_inv (m t : string) (c : ascii) (u : string) :
  contains (String c "") m = false ->
  startswith m (t +:+ String c u) = true -> startswith m t = true.
Proof.
  revert t. induction m as [|x m IH]; intros t Hc H; [reflexivity |].
  simpl in Hc. rewrite andb_true_r in Hc. apply orb_false_iff in Hc as [Hx Hm].
  destruct t as [|a t].
  - rewrite StrFacts.app_nil_l in H. simpl in H.
    apply andb_true_iff in H as [H _].
    rewrite Ascii.eqb_sym in H. congruence.
  - rewrite StrFacts.app_cons in H. simpl in H. simpl.
    apply andb_true_iff in H as [H1 H2]. rewrite H1. simpl.
    now apply IH.
Qed.

(** An occurrence in [t +:+ u] lies in [t] or in [u] when the pattern does
    not contain the first character of [u]. *)
Lemma contains_app_inv (m t : string) (c : ascii) (u : string) :
  contains (String c "") m = false ->
  contains m (t +:+ String c u) = true ->
  contains m t = true \/ contains m (String c u) = true.
Proof.
  intros Hc. induction t as [|a t IH]; intros H.
  - right. exact H.
  - rewrite StrFacts.app_cons in H. simpl in H.
    apply orb_true_iff in H as [H|H].
    + left. simpl. apply orb_true_iff. left.
      rewrite <- StrFacts.app_cons in H.
      now apply startswith_app_inv with c u.
    + destruct (IH H) as [Ht|Hu]; [left | now right].
      simpl. rewrite Ht. apply orb_true_r.
Qed.

Lemma length_app (s t : string) :
  String.length (s +:+ t) = (String.length s + String.length t)%nat.
Proof.
  induction s as [|c s IH]; [reflexivity |].
  rewrite StrFacts.app_cons. simpl. now rewrite IH.
Qed.


(** *** The first occurrence of a separator *)

Lemma split_from_skip (sep cur a rest : string) :
  split_from sep (String.length a) cur (a +:+ rest) = split_from sep 0 cur rest.
Proof.
  induction a as [|c a IH]; [now destruct rest |].
  rewrite StrFacts.app_cons. simpl. exact IH.
Qed.

Lemma drop_last_last (s : string) :
  s <> "" -> exists c, s = drop_last s +:+ String c "".
Proof.
  induction s as [|a s IH]; [congruence |]. intros _.
  destruct s as [|b s]; [now exists a |].
  destruct IH as [c Hc]; [discriminate |].
  exists c. change (drop_last (String a (String b s)))
    with (String a (drop_last (String b s))).
  rewrite StrFacts.app_cons, <- Hc. reflexivity.
Qed.

Lemma length_drop_last (s : string) :
  String.length (drop_last s) = (String.length s - 1)%nat.
Proof.
  induction s as [|a s IH]; [reflexivity |].
  destruct s as [|b s]; [reflexivity |].
  change (drop_last (String a (String b s)))
    with (String a (drop_last (String b s))).
  change (String.length (String a (drop_last (String b s))))
    with (S (String.length (drop_last (String b s)))).
  rewrite IH. simpl. lia.
Qed.

(** A text at least as long as the pattern decides [startswith]. *)
Lemma startswith_app_false (m u v : string) :
  (String.length m <= String.length u)%nat ->
  startswith m u = false -> startswith m (u +:+ v) = false.
Proof.
  revert u. induction m as [|x m IH]; intros u Hlen H; [discriminate |].
  destruct u as [|a u]; [simpl in Hlen; lia |].
  rewrite StrFacts.app_cons. simpl in *.
  destruct (Ascii.eqb x a); [| reflexivity]. simpl in *.
  apply IH; [lia | exact H].
Qed.

(** When [sep] does not begin inside [pre], the first piece of
    [pre +:+ sep +:+ rest] is [pre]. *)
Lemma split_from_first (sep cur pre rest : string) :
  sep <> "" ->
  contains sep (pre +:+ drop_last sep) = false ->
  split_from sep 0 cur (pre +:+ sep +:+ rest)
  = (cur +:+ pre) :: split_from sep 0 "" rest.
Proof.
  intros Hsep. revert cur. induction pre as [|a pre IH]; intros cur H.
  - rewrite StrFacts.app_nil_l, StrFacts.app_nil_r.
    destruct sep as [|x sep]; [congruence |].
    rewrite StrFacts.app_cons. simpl split_from.
    rewrite Ascii.eqb_refl, StrFacts.startswith_self_app. simpl andb. cbv iota.
    rewrite Nat.sub_0_r, split_from_skip. reflexivity.
  - rewrite StrFacts.app_cons in H. simpl in H.
    apply orb_false_iff in H as [H1 H2].
    rewrite StrFacts.app_cons. simpl split_from.
    destruct (drop_last_last sep Hsep) as [c Hc].
    assert (Hs : startswith sep (String a (pre +:+ sep +:+ rest)) = false).
    { rewrite Hc at 2. rewrite StrFacts.app_assoc, <- StrFacts.app_assoc.
      rewrite <- StrFacts.app_cons.
      apply startswith_app_false; [| exact H1].
      simpl. rewrite length_app, length_drop_last. lia. }
    rewrite Hs, (IH _ H2), StrFacts.app_assoc. reflexivity.
Qed.

Lemma lstrip_idem (s : string) : lstrip (lstrip s) = lstrip s.
Proof.
  induction s as [|c s IH]; [reflexivity |].
  simpl. destruct (isspace c) eqn:Ec; [exact IH |].
  simpl. now rewrite Ec.
Qed.

Lemma lstrip_app (a : string) (c : ascii) (b : string) :
  isspace c = false -> lstrip (a +:+ String c b) = lstrip a +:+ String c b.
Proof.
  intros Hc. induction a as [|x a IH].
  - rewrite !StrFacts.app_nil_l. simpl. now rewrite Hc.
  - rewrite StrFacts.app_cons. simpl.
    destruct (isspace x); [exact IH | reflexivity].
Qed.

(** [rstrip] reads the text from its end. *)
Lemma rstrip_app (a b : string) :
  rstrip (a +:+ b) = match rstrip b with
                     | EmptyString => rstrip a
                     | String _ _ => a +:+ rstrip b
                     end.
Proof.
  induction a as [|x a IH].
  - rewrite !StrFacts.app_nil_l. now destruct (rstrip b).
  - rewrite StrFacts.app_cons. simpl rstrip. rewrite IH.
    destruct (rstrip b) as [|d r]; [reflexivity |].
    rewrite StrFacts.app_cons. destruct a; reflexivity.
Qed.

(** *** [strip] *)

Lemma rstrip_idem (s : string) : rstrip (rstrip s) = rstrip s.
Proof.
  induction s as [|c s IH]; [reflexivity |].
  simpl. destruct (rstrip s) as [|d r] eqn:E.
  - destruct (isspace c) eqn:Ec; [reflexivity |].
    simpl. now rewrite Ec.
  - simpl. simpl in IH. rewrite IH. reflexivity.
Qed.

Lemma lstrip_head (s : string) :
  lstrip s = "" \/ exists c t, lstrip s = String c t /\ isspace c = false.
Proof.
  induction s as [|c s IH]; [now left |].
  simpl. destruct (isspace c) eqn:Ec; [exact IH |].
  right. now exists c, s.
Qed.

Lemma rstrip_cons (c : ascii) (s : string) :
  isspace c = false -> exists r, rstrip (String c s) = String c r.
Proof.
  intros Hc. simpl. rewrite Hc. destruct (rstrip s); eauto.
Qed.

Lemma lstrip_fixed (c : ascii) (s : string) :
  isspace c = false -> lstrip (String c s) = String c s.
Proof. intros Hc. simpl. now rewrite Hc. Qed.

Lemma strip_idem (s : string) : strip (strip s) = strip s.
Proof.
  unfold strip.
  destruct (lstrip_head s) as [-> | (c & t & -> & Hc)]; [reflexivity |].
  destruct (rstrip_cons c t Hc) as [r Hr].
  rewrite Hr, (lstrip_fixed c r Hc), <- Hr.
  apply rstrip_idem.
Qed.

End TextFacts.

(** ** The Job Expander: outcomes and edge cases *)
Module ExpanderEdgeFacts.

Import Py Processor.

Lemma unpack_range_cases (r : option (list float)) :
  (exists lo hi, r = Some [lo; hi]) \/ (exists e, unpack_range r = Raise e).
Proof.
  destruct r as [[|lo [|hi [|x l]]]|]; simpl; eauto.
Qed.

Lemma range_nonpositive (n : Z) : n <= 0 -> range n = [].
Proof. intros H. unfold range. now replace (Z.to_nat n) with 0%nat by lia. Qed.

Lemma range_positive (n : Z) : 1 <= n -> exists rest, range n = 0 :: rest.
Proof.
  intros H. unfold range.
  destruct (Z.to_nat n) as [|k] eqn:E; [lia |].
  simpl. eauto.
Qed.

(** The submissions of a configuration whose temperature range does not
    unpack: none. *)
Lemma process_yaml_config_raises (store : db) (draws : Z -> nat) (mongo_id : string)
    (c : YAMLConfig.t) (e : exn) :
  yaml_configs store !! mongo_id = Some c ->
  unpack_range (YAMLConfig.temperature_range c) = Raise e ->
  process_yaml_config store draws mongo_id
  = ([], negb (1 <=? YAMLConfig.number_of_samples c)).
Proof.
  intros Hget He. unfold process_yaml_config. rewrite Hget.
  destruct (Z.leb_spec 1 (YAMLConfig.number_of_samples c)) as [Hn|Hn].
  - destruct (range_positive _ Hn) as [rest ->].
    simpl. unfold make_item. rewrite He. reflexivity.
  - rewrite range_nonpositive by lia. reflexivity.
Qed.


Lemma random_choice_singleton (draw : nat) (x : string) : random_choice draw [x] = x.
Proof. unfold random_choice. simpl length. now rewrite Nat.mod_1_r. Qed.

(** X2: a configuration without example inputs.  Every work item then
    carries the same prompt, whatever the random generator draws: the
    repaired template with the placeholder replaced by the fixed sentence
    of the code. *)
Theorem empty_examples_prompt (store : db) (draws : Z -> nat) (mongo_id : string)
    (c : YAMLConfig.t) (k : nat) (item : work_item) :
  yaml_configs store !! mongo_id = Some c ->
  YAMLConfig.example_inputs c = [] ->
  fst (process_yaml_config store draws mongo_id) !! k = Some item ->
  wi_prompt item
  = PyStr.replace "{input_request}"
      "Create a sample dataset entry relevant to this topic"
      (repair_prompt (YAMLConfig.user_prompt c)).
Proof.
  intros Hget Hex Hk.
  destruct (unpack_range_cases (YAMLConfig.temperature_range c))
    as [(lo & hi & Hr) | (e & He)].
  - rewrite (ExpanderFacts.process_yaml_config_queue _ _ _ _ _ _ Hget Hr) in Hk.
    simpl fst in Hk. rewrite list_lookup_fmap in Hk.
    destruct (range (YAMLConfig.number_of_samples c) !! k) as [i|]; [| discriminate Hk].
    injection Hk as <-. simpl wi_prompt.
    unfold example_pool. rewrite Hex, random_choice_singleton. reflexivity.
  - rewrite (process_yaml_config_raises _ _ _ _ _ Hget He) in Hk. discriminate Hk.
Qed.

Lemma empty_examples_prompt_witness :
  exists item,
    fst (process_yaml_config (Examples.store_of (Scenarios.bare_config 2) [])
           (fun i => Z.to_nat (7 * i + 3)) "cfg1") !! 1%nat = Some item
    /\ wi_prompt item
       = PyStr.replace "{input_request}"
           "Create a sample dataset entry relevant to this topic"
           (repair_prompt "Write a dialogue.").
Proof.
  eexists. split; [vm_compute; reflexivity |].
  apply (empty_examples_prompt (Examples.store_of (Scenarios.bare_config 2) [])
           (fun i => Z.to_nat (7 * i + 3)) "cfg1" (Scenarios.bare_config 2) 1).
  - vm_compute. reflexivity.
  - reflexivity.
  - vm_compute. reflexivity.
Defined.

Lemma marker_not_in_trailer :
  PyStr.contains instruction_marker (String (ascii_of_nat 10)
    (PyStr.nl +:+ "Context for this dataset: {input_request}")) = false.
Proof. vm_compute. reflexivity. Qed.

(** X3: the repair step only appends.  The repaired template is the
    template followed by the context trailer when the template has no
    placeholder, followed by the instruction block when the template has no
    instruction marker; each test reads the template itself, since the
    marker cannot begin in the template and end in the trailer.  A template
    is left unchanged exactly when it has both. *)
Theorem repair_prompt_appends (prompt_template : string) :
  repair_prompt prompt_template
  = prompt_template
    +:+ (if PyStr.contains "{input_request}" prompt_template then ""
         else placeholder_trailer)
    +:+ (if PyStr.contains "IMPORTANT: Return ONLY the JSON object" prompt_template
         then "" else json_instructions)
  /\ (repair_prompt prompt_template = prompt_template <->
      PyStr.contains "{input_request}" prompt_template = true
      /\ PyStr.contains "IMPORTANT: Return ONLY the JSON object" prompt_template = true).
Proof.
  assert (Heq : repair_prompt prompt_template
    = prompt_template
      +:+ (if PyStr.contains placeholder prompt_template then ""
           else placeholder_trailer)
      +:+ (if PyStr.contains instruction_marker prompt_template
           then "" else json_instructions)).
  { unfold repair_prompt, add_placeholder.
    destruct (PyStr.contains placeholder prompt_template) eqn:Ep; simpl negb; cbv iota.
    - unfold add_instructions.
      destruct (PyStr.contains instruction_marker prompt_template);
        simpl negb; cbv iota; rewrite ?StrFacts.app_nil_r; reflexivity.
    - unfold add_instructions.
      destruct (PyStr.contains instruction_marker prompt_template) eqn:Em.
      + rewrite (StrFacts.contains_app_l _ _ _ Em). simpl negb. cbv iota.
        now rewrite StrFacts.app_nil_r.
      + destruct (PyStr.contains instruction_marker
                    (prompt_template +:+ placeholder_trailer)) eqn:Et.
        * apply (TextFacts.contains_app_inv instruction_marker prompt_template
                   (ascii_of_nat 10)
                   (PyStr.nl +:+ "Context for this dataset: {input_request}"))
            in Et as [Et|Et]; [congruence | | reflexivity].
          rewrite marker_not_in_trailer in Et. discriminate Et.
        * simpl negb. cbv iota. now rewrite StrFacts.app_assoc. }
  split; [exact Heq |].
  change "{input_request}" with placeholder.
  change "IMPORTANT: Return ONLY the JSON object" with instruction_marker.
  split.
  - intros Hfix. rewrite Heq in Hfix.
    apply (f_equal String.length) in Hfix.
    rewrite !TextFacts.length_app in Hfix.
    destruct (PyStr.contains placeholder prompt_template);
      destruct (PyStr.contains instruction_marker prompt_template);
      try (split; reflexivity); exfalso; revert Hfix;
      vm_compute String.length at 2 3; simpl; lia.
  - intros [Hp Hm]. rewrite Heq, Hp, Hm. now rewrite !StrFacts.app_nil_r.
Qed.

End ExpanderEdgeFacts.

(** ** The Sample Worker: the input request it records *)
Module ExtractionFacts.

Import Py Processor.

Lemma context_marker_nonempty : context_marker <> "".
Proof. discriminate. Qed.

Lemma follow_on_nonempty : follow_on <> "".
Proof. discriminate. Qed.

(** X4: the worker records an input request exactly when the prompt
    contains the context marker; the inner test on the number of pieces
    never fails, since a separator that occurs gives at least two pieces.
    What is recorded has no white space at either end. *)
Theorem extract_input_request_present (prompt : string) :
  (extract_input_request prompt = None <->
   PyStr.contains "Context for this dataset:" prompt = false)
  /\ (forall r, extract_input_request prompt = Some r -> PyStr.strip r = r).
Proof.
  change "Context for this dataset:" with context_marker.
  unfold extract_input_request.
  destruct (PyStr.contains context_marker prompt) eqn:E.
  - pose proof (TextFacts.split_from_present context_marker "" prompt
                  context_marker_nonempty E) as Hlen.
    fold (PyStr.split context_marker prompt) in Hlen.
    destruct (Nat.ltb_spec 1 (length (PyStr.split context_marker prompt))); [| lia].
    destruct (PyStr.contains follow_on _);
      (split; [split; discriminate | intros r [= <-]; apply TextFacts.strip_idem]).
  - split; [split; reflexivity | discriminate].
Qed.

Lemma rstrip_follow_on (post : string) :
  PyStr.rstrip (follow_on +:+ post) = follow_on +:+ PyStr.rstrip post.
Proof.
  rewrite TextFacts.rstrip_app.
  destruct (PyStr.rstrip post); [| reflexivity].
  rewrite StrFacts.app_nil_r. vm_compute. reflexivity.
Qed.

Lemma strip_before_follow_on (mid post : string) :
  PyStr.strip (mid +:+ follow_on +:+ post)
  = PyStr.lstrip mid +:+ follow_on +:+ PyStr.rstrip post.
Proof.
  unfold PyStr.strip.
  change (follow_on +:+ post) with (String "G" ("enerate a realistic" +:+ post)).
  rewrite TextFacts.lstrip_app by reflexivity.
  change (String "G" ("enerate a realistic" +:+ post)) with (follow_on +:+ post).
  rewrite TextFacts.rstrip_app, rstrip_follow_on. reflexivity.
Qed.

(** The pieces of a prompt in which the marker occurs once. *)
Lemma split_at_marker (pre rest : string) :
  PyStr.contains context_marker (pre +:+ PyStr.drop_last context_marker) = false ->
  PyStr.contains context_marker rest = false ->
  PyStr.split context_marker (pre +:+ context_marker +:+ rest) = [pre; rest].
Proof.
  intros Hpre Hrest. unfold PyStr.split.
  rewrite (TextFacts.split_from_first _ _ _ _ context_marker_nonempty Hpre).
  rewrite (TextFacts.split_from_absent _ _ _ Hrest). reflexivity.
Qed.

(** The text between the marker and the follow-on phrase. *)
Lemma extract_between (pre mid post : string) :
  PyStr.contains context_marker (pre +:+ PyStr.drop_last context_marker) = false ->
  PyStr.contains context_marker (mid +:+ follow_on +:+ post) = false ->
  PyStr.contains follow_on (PyStr.lstrip mid +:+ PyStr.drop_last follow_on) = false ->
  extract_input_request (pre +:+ context_marker +:+ mid +:+ follow_on +:+ post)
  = Some (PyStr.strip mid).
Proof.
  intros Hpre Hrest Hmid. unfold extract_input_request.
  rewrite StrFacts.contains_infix, (split_at_marker _ _ Hpre Hrest).
  change (1 <? length [pre; mid +:+ follow_on +:+ post])%nat with true. cbv iota.
  change (nth 1 [pre; mid +:+ follow_on +:+ post] "") with (mid +:+ follow_on +:+ post).
  rewrite strip_before_follow_on, StrFacts.contains_infix.
  unfold PyStr.split.
  rewrite (TextFacts.split_from_first _ _ _ _ follow_on_nonempty Hmid).
  simpl nth. rewrite StrFacts.app_nil_l.
  unfold PyStr.strip. now rewrite TextFacts.lstrip_idem.
Qed.

(** X5: what the worker records.  When the context marker occurs once in
    the prompt, the input request is the text after the marker, stripped,
    up to the first occurrence of the follow-on phrase if that phrase
    occurs: for a prompt [pre marker mid follow-on post] it is [mid]
    stripped, and without the phrase it is everything after the marker. *)
Theorem extract_input_request_value (pre rest : string) :
  PyStr.contains context_marker (pre +:+ PyStr.drop_last context_marker) = false ->
  PyStr.contains context_marker rest = false ->
  (PyStr.contains follow_on (PyStr.strip rest) = false ->
   extract_input_request (pre +:+ context_marker +:+ rest) = Some (PyStr.strip rest))
  /\ (forall mid post,
      rest = mid +:+ follow_on +:+ post ->
      PyStr.contains follow_on (PyStr.lstrip mid +:+ PyStr.drop_last follow_on) = false ->
      extract_input_request (pre +:+ context_marker +:+ rest) = Some (PyStr.strip mid)).
Proof.
  intros Hpre Hrest. split.
  - intros Hno. unfold extract_input_request.
    rewrite StrFacts.contains_infix, (split_at_marker _ _ Hpre Hrest).
    change (1 <? length [pre; rest])%nat with true. cbv iota.
    change (nth 1 [pre; rest] "") with rest.
    now rewrite Hno.
  - intros mid post -> Hmid. now apply extract_between.
Qed.

(** The prompt the Job Expander makes for a configuration without
    placeholder, instruction marker and example inputs: the recorded input
    request is the fixed sentence followed by the instruction block. *)
Lemma extract_input_request_value_witness :
  let prompt :=
    PyStr.replace placeholder "Create a sample dataset entry relevant to this topic"
      (repair_prompt "Write a dialogue.") in
  prompt = ("Write a dialogue." +:+ PyStr.nl +:+ PyStr.nl) +:+ context_marker
           +:+ (" Create a sample dataset entry relevant to this topic"
                +:+ json_instructions)
  /\ extract_input_request prompt
     = Some (PyStr.strip (" Create a sample dataset entry relevant to this topic"
                          +:+ json_instructions)).
Proof.
  split; [vm_compute; reflexivity |].
  apply (extract_input_request_value
           ("Write a dialogue." +:+ PyStr.nl +:+ PyStr.nl)
           (" Create a sample dataset entry relevant to this topic"
            +:+ json_instructions)).
  - vm_compute. reflexivity.
  - vm_compute. reflexivity.
  - vm_compute. reflexivity.
Defined.

End ExtractionFacts.

(** ** The Sample Worker: failures and invariants *)
Module WorkerEdgeFacts.

Import Py Processor.

Lemma validate_response_empty `{Json.Lib} : validate_response "" = Ok tt.
Proof. reflexivity. Qed.

(** X6: a generation that fails is stored as a sample.  The client turns
    every exception of the streamed call into an empty text with zero
    metrics, so the worker does not see the failure: when the store accepts
    the two writes the run returns [True], a record with an empty response
    text is added, and the configuration's counter grows by 1 while its
    token sum stays as it is. *)
Theorem failed_generation_is_stored `{Json.Lib} (env : worker_env) (w : work_item)
    (store : db) (llm_client : LLMClient.t) (e : exn) :
  new_client env = Ok llm_client ->
  LLMClient.generate_structured_response_with_metrics_try
    llm_client (client_clock env) (wi_prompt w)
    (ResponseStructure (schema_json env))
    (wi_temperature w) (wi_top_p w) (wi_max_tokens w) None (wi_model w) = Raise e ->
  save_raises env = None ->
  update_raises env = None ->
  let run := generate_sample_response env w store in
  snd run = true
  /\ (exists sample,
        sample_responses (fst run) = sample_responses store ++ [sample]
        /\ SampleResponse.yaml_config_id sample = wi_yaml_config_id w
        /\ SampleResponse.response_text sample = ""
        /\ SampleResponse.total_tokens sample = 0
        /\ SampleResponse.tokens_per_second sample = PrimFloat.zero)
  /\ (forall c, yaml_configs store !! wi_yaml_config_id w = Some c ->
      exists c',
        yaml_configs (fst run) !! wi_yaml_config_id w = Some c'
        /\ YAMLConfig.total_responses_generated c'
           = YAMLConfig.total_responses_generated c + 1
        /\ YAMLConfig.total_tokens_sum c' = YAMLConfig.total_tokens_sum c).
Proof.
  intros Hclient Hfail Hsave Hupdate run. subst run.
  unfold generate_sample_response, prepare.
  rewrite Hclient. cbn [mbind result_bind bind].
  unfold LLMClient.generate_structured_response_with_metrics.
  rewrite Hfail. cbn [try_except mbind result_bind bind fst snd].
  rewrite validate_response_empty. cbn [mbind result_bind bind].
  unfold save, update_one. rewrite Hsave, Hupdate. cbn [fst snd].
  split; [reflexivity |]. split.
  - eexists. split; [reflexivity |]. repeat split.
  - intros c Hc. eexists. split.
    + cbn [yaml_configs]. rewrite lookup_alter_eq, Hc. reflexivity.
    + simpl. split; [reflexivity | lia].
Qed.

Lemma failed_generation_is_stored_witness :
  let run := generate_sample_response (H := MiniJson.lib) Scenarios.refused_env
               Examples.work_item
               (Examples.store_of
                  (Examples.config 3 (Examples.tenths 1) (Examples.tenths 3)) []) in
  snd run = true
  /\ exists sample, sample_responses (fst run) = [sample]
                    /\ SampleResponse.response_text sample = "".
Proof.
  destruct (failed_generation_is_stored (H := MiniJson.lib) Scenarios.refused_env
              Examples.work_item
              (Examples.store_of
                 (Examples.config 3 (Examples.tenths 1) (Examples.tenths 3)) [])
              (LLMClient.init (Some "key")
                 (Examples.refusing "503 Service Unavailable") None)
              (Exn OtherError "503 Service Unavailable"))
    as (Htrue & (sample & Hs & _ & Htext & _) & _).
  - reflexivity.
  - reflexivity.
  - reflexivity.
  - reflexivity.
  - split; [exact Htrue |]. exists sample. split; [exact Hs | exact Htext].
Defined.

Lemma alter_missing (f : YAMLConfig.t -> YAMLConfig.t) (k : string)
    (m : gmap string YAMLConfig.t) :
  m !! k = None -> alter f k m = m.
Proof.
  intros Hk. apply map_eq. intros i.
  destruct (decide (i = k)) as [-> | Hne].
  - now rewrite lookup_alter_eq, Hk.
  - now rewrite lookup_alter_ne.
Qed.

(** X7: a work item whose configuration is gone.  The update of the
    aggregates addresses the document by its id and creates none, so the
    run leaves the configurations as they are; it still stores the record
    and returns [True] when no step raises. *)
Theorem worker_without_configuration `{Json.Lib} (env : worker_env) (w : work_item)
    (store : db) :
  yaml_configs store !! wi_yaml_config_id w = None ->
  let run := generate_sample_response env w store in
  yaml_configs (fst run) = yaml_configs store
  /\ (snd run = true ->
      exists sample,
        sample_responses (fst run) = sample_responses store ++ [sample]
        /\ SampleResponse.yaml_config_id sample = wi_yaml_config_id w)
  /\ (snd run = true <->
      (exists prepared, prepare env w = Ok prepared)
      /\ save_raises env = None /\ update_raises env = None).
Proof.
  intros Hnone run. subst run.
  unfold generate_sample_response, save, update_one.
  destruct (prepare env w) as [[[sample m] lat]|e] eqn:Hp; cbn [fst snd].
  - apply WorkerFacts.prepare_ok in Hp as (cl & text & _ & _ & -> & ->).
    destruct (save_raises env); cbn [fst snd].
    + split; [reflexivity |]. split; [discriminate |].
      split; [discriminate | intros (_ & Hs & _); discriminate Hs].
    + destruct (update_raises env); cbn [fst snd yaml_configs sample_responses].
      * split; [reflexivity |]. split; [discriminate |].
        split; [discriminate | intros (_ & _ & Hu); discriminate Hu].
      * split; [now apply alter_missing |]. split.
        -- intros _. eexists. split; reflexivity.
        -- split; [intros _; eauto | reflexivity].
  - split; [reflexivity |]. split; [discriminate |].
    split; [discriminate | intros ([p Hp'] & _); discriminate Hp'].
Qed.

Lemma worker_without_configuration_witness :
  let run := generate_sample_response (H := MiniJson.lib) Examples.worker_env
               Examples.work_item {| sample_responses := []; yaml_configs := ∅ |} in
  yaml_configs (fst run) = ∅ /\ snd run = true /\ length (sample_responses (fst run)) = 1%nat.
Proof.
  destruct (worker_without_configuration (H := MiniJson.lib) Examples.worker_env
              Examples.work_item {| sample_responses := []; yaml_configs := ∅ |})
    as (Hsame & Hrec & Hiff).
  - reflexivity.
  - split; [exact Hsame |].
    assert (Htrue : snd (generate_sample_response (H := MiniJson.lib) Examples.worker_env
                           Examples.work_item
                           {| sample_responses := []; yaml_configs := ∅ |}) = true).
    { apply Hiff. split; [eexists; vm_compute; reflexivity |]. split; reflexivity. }
    split; [exact Htrue |].
    destruct (Hrec Htrue) as (sample & -> & _). reflexivity.
Defined.

Lemma samples_of_snoc (store : db) (s : SampleResponse.t) (k : string) :
  samples_of {| sample_responses := sample_responses store ++ [s];
                yaml_configs := yaml_configs store |} k
  = samples_of store k
    ++ (if decide (SampleResponse.yaml_config_id s = k) then [s] else []).
Proof.
  unfold samples_of. cbn [sample_responses].
  rewrite filter_app. reflexivity.
Qed.

(** X8: the counter never runs ahead of the records.  The worker saves the
    record before it updates the aggregates, so a store in which no
    configuration counts more responses than it has records stays such a
    store after any run of the worker, whatever the run meets. *)
Theorem counter_bounded_by_records `{Json.Lib} (env : worker_env) (w : work_item)
    (store : db) :
  (forall k c, yaml_configs store !! k = Some c ->
     YAMLConfig.total_responses_generated c
     <= Z.of_nat (length (samples_of store k))) ->
  forall k c,
    yaml_configs (fst (generate_sample_response env w store)) !! k = Some c ->
    YAMLConfig.total_responses_generated c
    <= Z.of_nat (length (samples_of (fst (generate_sample_response env w store)) k)).
Proof.
  intros Hinv k c.
  unfold generate_sample_response, save, update_one.
  destruct (prepare env w) as [[[sample m] lat]|e] eqn:Hp; cbn [fst snd]; [| apply Hinv].
  apply WorkerFacts.prepare_ok in Hp as (cl & text & _ & _ & -> & ->).
  destruct (save_raises env); cbn [fst snd]; [apply Hinv |].
  destruct (update_raises env); cbn [fst snd].
  - cbn [yaml_configs]. intros Hc. rewrite samples_of_snoc, length_app.
    specialize (Hinv k c Hc). lia.
  - cbn [yaml_configs sample_responses].
    match goal with
    | |- _ -> _ <= Z.of_nat (length (samples_of ?st _)) =>
        change st with {| sample_responses :=
                            sample_responses store
                            ++ [sample_of w (extract_input_request (wi_prompt w)) text m
                                  (to_ms (PrimFloat.sub (finished env) (started env)))];
                          yaml_configs := yaml_configs st |}
    end.
    cbn [yaml_configs].
    intros Hc.
    pose proof (samples_of_snoc store
                  (sample_of w (extract_input_request (wi_prompt w)) text m
                     (to_ms (PrimFloat.sub (finished env) (started env)))) k) as Hs.
    unfold samples_of in Hs |- *. cbn [sample_responses] in Hs |- *.
    rewrite Hs, length_app. clear Hs.
    destruct (decide (k = wi_yaml_config_id w)) as [-> | Hne].
    + rewrite lookup_alter_eq in Hc.
      destruct (yaml_configs store !! wi_yaml_config_id w) as [c0|] eqn:Hc0;
        [| discriminate Hc].
      injection Hc as <-. specialize (Hinv _ _ Hc0).
      cbn [sample_of SampleResponse.yaml_config_id].
      rewrite decide_True by reflexivity.
      unfold samples_of in Hinv. simpl. lia.
    + rewrite lookup_alter_ne in Hc by congruence.
      specialize (Hinv k c Hc). unfold samples_of in Hinv. lia.
Qed.

Lemma counter_bounded_by_records_witness :
  let run := generate_sample_response (H := MiniJson.lib) Examples.worker_env
               Examples.work_item
               (Examples.store_of
                  (Examples.config 3 (Examples.tenths 1) (Examples.tenths 3)) []) in
  exists c, yaml_configs (fst run) !! "cfg1" = Some c
            /\ YAMLConfig.total_responses_generated c
               <= Z.of_nat (length (samples_of (fst run) "cfg1")).
Proof.
  eexists. split; [vm_compute; reflexivity |].
  apply (counter_bounded_by_records (H := MiniJson.lib) Examples.worker_env
           Examples.work_item
           (Examples.store_of
              (Examples.config 3 (Examples.tenths 1) (Examples.tenths 3)) [])).
  - intros k c0 Hc0. unfold Examples.store_of in Hc0. cbn [yaml_configs] in Hc0.
    apply lookup_singleton_Some in Hc0 as [_ <-]. simpl. lia.
  - vm_compute. reflexivity.
Defined.

End WorkerEdgeFacts.

(** ** The Dataset Materializer: lines and growth *)
Module MaterializerLineFacts.

Import Py Processor.

(** Replacing a character by another leaves no occurrence of it, and
    brings in no occurrence of a third character. *)
Lemma replace_char_free (c n d : ascii) (s : string) :
  d <> n ->
  d = c \/ PyStr.contains (String d "") s = false ->
  PyStr.contains (String d "") (PyStr.replace (String c "") (String n "") s) = false.
Proof.
  intros Hd. unfold PyStr.replace.
  induction s as [|x s IH]; intros Hs; [reflexivity |].
  assert (Hs' : d = c \/ PyStr.contains (String d "") s = false).
  { destruct Hs as [Hs|Hs]; [now left | right].
    simpl in Hs. now apply orb_false_iff in Hs as [_ Hs]. }
  specialize (IH Hs').
  simpl PyStr.replace_from. rewrite andb_true_r.
  destruct (Ascii.eqb_spec c x) as [<- | Hcx].
  - change (String n "" +:+ PyStr.replace_from (String c "") (String n "") 0 s)
      with (String n (PyStr.replace_from (String c "") (String n "") 0 s)).
    simpl. rewrite IH, andb_true_r, orb_false_r.
    now apply Ascii.eqb_neq.
  - simpl. rewrite IH, andb_true_r, orb_false_r.
    apply Ascii.eqb_neq. destruct Hs as [-> | Hs]; [exact Hcx |].
    simpl in Hs. apply orb_false_iff in Hs as [Hs _].
    rewrite andb_true_r in Hs. now apply Ascii.eqb_neq.
Qed.

Lemma replace_char_length (c n : ascii) (s : string) :
  String.length (PyStr.replace (String c "") (String n "") s) = String.length s.
Proof.
  unfold PyStr.replace. induction s as [|x s IH]; [reflexivity |].
  simpl PyStr.replace_from. destruct (Ascii.eqb c x && true).
  - change (String n "" +:+ PyStr.replace_from (String c "") (String n "") 0 s)
      with (String n (PyStr.replace_from (String c "") (String n "") 0 s)).
    simpl. now rewrite IH.
  - simpl. now rewrite IH.
Qed.

Lemma sanitize_one_line (text : string) :
  PyStr.contains PyStr.nl (sanitize text) = false
  /\ PyStr.contains PyStr.cr (sanitize text) = false
  /\ String.length (sanitize text) = String.length text.
Proof.
  unfold sanitize, PyStr.nl, PyStr.cr, PyStr.chr.
  change " " with (String " "%char "").
  split; [| split].
  - apply replace_char_free; [discriminate |]. right.
    apply replace_char_free; [discriminate | now left].
  - apply replace_char_free; [discriminate | now left].
  - now rewrite !replace_char_length.
Qed.

(** X9: the line of a sample that is written as bare text.  A response
    text that is not taken as a JSON object, in a sample without an input
    request (or with an empty one, or with an empty response text), is
    written with every newline and carriage return replaced by a space: the
    sample takes exactly one line of the file, as long as its text. *)
Theorem bare_line_is_one_line `{Json.Lib} (s : SampleResponse.t) :
  (looks_like_object (SampleResponse.response_text s) = false
   \/ exists message,
        Json.loads (SampleResponse.response_text s)
        = Raise (Exn JSONDecodeError message)) ->
  (forall r, SampleResponse.input_request s = Some r ->
             PyStr.truthy r && PyStr.truthy (SampleResponse.response_text s) = false) ->
  exists line,
    write_sample s = line +:+ PyStr.nl
    /\ PyStr.contains PyStr.nl line = false
    /\ PyStr.contains PyStr.cr line = false
    /\ String.length line = String.length (SampleResponse.response_text s).
Proof.
  intros Hfall Hbare.
  assert (Hw : write_sample s = emit_fallback s).
  { destruct Hfall as [Hno | [message Hm]].
    - now apply MaterializerFacts.write_sample_not_object.
    - now apply MaterializerFacts.write_sample_not_json with message. }
  exists (sanitize (SampleResponse.response_text s)).
  split; [| apply sanitize_one_line].
  rewrite Hw. unfold emit_fallback.
  destruct (SampleResponse.input_request s) as [r|]; [| reflexivity].
  now rewrite (Hbare r eq_refl).
Qed.

Lemma bare_line_is_one_line_witness :
  write_sample (H := MiniJson.lib)
    (Examples.sample None ("first" +:+ PyStr.nl +:+ "second" +:+ PyStr.cr))
  = "first second " +:+ PyStr.nl.
Proof.
  destruct (bare_line_is_one_line (H := MiniJson.lib)
              (Examples.sample None ("first" +:+ PyStr.nl +:+ "second" +:+ PyStr.cr)))
    as (line & _ & _).
  - left. vm_compute. reflexivity.
  - intros r Hr. discriminate Hr.
  - vm_compute. reflexivity.
Defined.

Lemma dataset_file_app `{Json.Lib} (a b : list SampleResponse.t) :
  dataset_file (a ++ b) = dataset_file a +:+ dataset_file b.
Proof.
  induction a as [|s a IH]; [reflexivity |].
  rewrite <- app_comm_cons, !MaterializerFacts.dataset_file_cons, IH.
  now rewrite StrFacts.app_assoc.
Qed.

(** X10: how a run of the worker changes the dataset files.  Whatever the
    run meets, the file of every configuration is the file before the run
    followed by what the run added; nothing is added to the file of another
    configuration, and nothing at all when the run stored no record. *)
Theorem worker_extends_dataset `{Json.Lib} (env : worker_env) (w : work_item)
    (store : db) (k : string) :
  let run := generate_sample_response env w store in
  exists added,
    dataset_file (samples_of (fst run) k)
    = dataset_file (samples_of store k) +:+ added
    /\ (k <> wi_yaml_config_id w -> added = "")
    /\ (sample_responses (fst run) = sample_responses store -> added = "")
    /\ (forall sample,
          sample_responses (fst run) = sample_responses store ++ [sample] ->
          k = wi_yaml_config_id w ->
          added = write_sample sample).
Proof.
  intros run. subst run.
  assert (Hsame : exists added,
             dataset_file (samples_of store k)
             = dataset_file (samples_of store k) +:+ added
             /\ (k <> wi_yaml_config_id w -> added = "")
             /\ (sample_responses store = sample_responses store -> added = "")
             /\ (forall sample,
                   sample_responses store = sample_responses store ++ [sample] ->
                   k = wi_yaml_config_id w -> added = write_sample sample)).
  { exists "". rewrite StrFacts.app_nil_r. repeat split.
    intros sample Hl. apply (f_equal (@length _)) in Hl.
    rewrite length_app in Hl. simpl in Hl. lia. }
  assert (Hmore : forall text m lat cfgs,
             let sample := sample_of w (extract_input_request (wi_prompt w)) text m lat in
             let store' := {| sample_responses := sample_responses store ++ [sample];
                              yaml_configs := cfgs |} in
             exists added,
               dataset_file (samples_of store' k)
               = dataset_file (samples_of store k) +:+ added
               /\ (k <> wi_yaml_config_id w -> added = "")
               /\ (sample_responses store' = sample_responses store -> added = "")
               /\ (forall sample0,
                     sample_responses store' = sample_responses store ++ [sample0] ->
                     k = wi_yaml_config_id w -> added = write_sample sample0)).
  { intros text m lat cfgs sample store'.
    exists (if decide (wi_yaml_config_id w = k) then write_sample sample else "").
    split; [| split; [| split]].
    - unfold samples_of, store'. cbn [sample_responses].
      rewrite filter_app, dataset_file_app. f_equal.
      rewrite filter_cons, filter_nil. cbn [sample sample_of SampleResponse.yaml_config_id].
      destruct (decide (wi_yaml_config_id w = k)); [| reflexivity].
      rewrite MaterializerFacts.dataset_file_cons. apply StrFacts.app_nil_r.
    - intros Hne. rewrite decide_False by congruence. reflexivity.
    - unfold store'. cbn [sample_responses]. intros Hl.
      apply (f_equal (@length _)) in Hl. rewrite length_app in Hl. simpl in Hl. lia.
    - unfold store'. cbn [sample_responses]. intros sample0 Hl ->.
      apply app_inv_head in Hl. injection Hl as <-.
      now rewrite decide_True. }
  unfold generate_sample_response, save, update_one.
  destruct (prepare env w) as [[[sample m] lat]|e] eqn:Hp; cbn [fst snd]; [| exact Hsame].
  apply WorkerFacts.prepare_ok in Hp as (cl & text & _ & _ & -> & ->).
  destruct (save_raises env); cbn [fst snd]; [exact Hsame |].
  destruct (update_raises env); cbn [fst snd]; apply Hmore.
Qed.

(** X11: a failed generation in the dataset.  The record that the worker
    stores for a generation that failed has an empty response text; the
    materializer writes it as a line of its own with nothing on it. *)
Theorem failed_generation_blank_line `{Json.Lib} (env : worker_env) (w : work_item)
    (store : db) (llm_client : LLMClient.t) (e : exn) :
  new_client env = Ok llm_client ->
  LLMClient.generate_structured_response_with_metrics_try
    llm_client (client_clock env) (wi_prompt w)
    (ResponseStructure (schema_json env))
    (wi_temperature w) (wi_top_p w) (wi_max_tokens w) None (wi_model w) = Raise e ->
  save_raises env = None ->
  dataset_file (samples_of (fst (generate_sample_response env w store))
                           (wi_yaml_config_id w))
  = dataset_file (samples_of store (wi_yaml_config_id w)) +:+ PyStr.nl.
Proof.
  intros Hclient Hfail Hsave.
  unfold generate_sample_response, prepare.
  rewrite Hclient. cbn [mbind result_bind bind].
  unfold LLMClient.generate_structured_response_with_metrics.
  rewrite Hfail. cbn [try_except mbind result_bind bind fst snd].
  rewrite WorkerEdgeFacts.validate_response_empty. cbn [mbind result_bind bind].
  unfold save, update_one. rewrite Hsave.
  assert (Hline : forall cfgs,
             dataset_file
               (samples_of
                  {| sample_responses :=
                       sample_responses store
                       ++ [sample_of w (extract_input_request (wi_prompt w)) ""
                             LLMClient.zero_metrics
                             (to_ms (PrimFloat.sub (finished env) (started env)))];
                     yaml_configs := cfgs |} (wi_yaml_config_id w))
             = dataset_file (samples_of store (wi_yaml_config_id w)) +:+ PyStr.nl).
  { intros cfgs. unfold samples_of. cbn [sample_responses].
    rewrite filter_app, dataset_file_app. f_equal.
    rewrite filter_cons, filter_nil.
    cbn [sample_of SampleResponse.yaml_config_id].
    rewrite decide_True by reflexivity.
    rewrite MaterializerFacts.dataset_file_cons.
    rewrite MaterializerFacts.write_sample_not_object by reflexivity.
    unfold emit_fallback. cbn [sample_of SampleResponse.input_request
                                 SampleResponse.response_text].
    destruct (extract_input_request (wi_prompt w)) as [r|].
    - rewrite andb_false_r. reflexivity.
    - reflexivity. }
  destruct (update_raises env); cbn [fst snd]; apply Hline.
Qed.

Lemma failed_generation_blank_line_witness :
  dataset_file (H := MiniJson.lib)
    (samples_of
       (fst (generate_sample_response (H := MiniJson.lib) Scenarios.refused_env
               Examples.work_item
               (Examples.store_of
                  (Examples.config 3 (Examples.tenths 1) (Examples.tenths 3))
                  [Examples.sample None "plain text"])))
       "cfg1")
  = "plain text" +:+ PyStr.nl +:+ PyStr.nl.
Proof.
  eapply eq_trans.
  - apply (failed_generation_blank_line (H := MiniJson.lib) Scenarios.refused_env
             Examples.work_item
             (Examples.store_of
                (Examples.config 3 (Examples.tenths 1) (Examples.tenths 3))
                [Examples.sample None "plain text"])
             (LLMClient.init (Some "key")
                (Examples.refusing "503 Service Unavailable") None)
             (Exn OtherError "503 Service Unavailable")
             eq_refl eq_refl eq_refl).
  - vm_compute. reflexivity.
Defined.

End MaterializerLineFacts.

(** ** The Dataset Materializer: publishing *)
Module PublishFacts.

Import Py Processor.

(** Every path through [publish], with the store it leaves. *)
Ltac publish_paths env yaml_config :=
  unfold publish, with_dataset_id;
  destruct (configured (FIREWORKS_API_KEY env));
  destruct (configured (FIREWORKS_ACCOUNT_ID env));
  cbn [negb orb];
  try (destruct (YAMLConfig.dataset_id yaml_config) as [d|] eqn:Hid;
       [destruct (PyStr.truthy d) eqn:Htruthy |];
       (destruct (LLMClient.create_dataset _) as [create_response|e];
        [destruct (contains_key "error" create_response) as [[|]|e'];
         [| destruct (LLMClient.upload_dataset _ _ _) as [upload_response|e''] |] |]));
  cbn [fst snd save_config yaml_configs sample_responses].

(** X12: what publishing leaves alone.  It adds, changes and removes no
    sample record and touches no other configuration; in the
    configuration itself it writes the three upload fields and nothing
    else, so the settings and the aggregates that the workers keep are as
    they were, on every path and whatever the remote store answers. *)
Theorem publish_frame (env : upload_env) (yaml_config : YAMLConfig.t)
    (yaml_config_id : string) (store : db) :
  let store' := fst (publish env yaml_config yaml_config_id store) in
  sample_responses store' = sample_responses store
  /\ (forall other, other <> yaml_config_id ->
      yaml_configs store' !! other = yaml_configs store !! other)
  /\ (yaml_configs store !! yaml_config_id = None ->
      yaml_configs store' !! yaml_config_id = None)
  /\ (forall c, yaml_configs store !! yaml_config_id = Some c ->
      exists c',
        yaml_configs store' !! yaml_config_id = Some c'
        /\ YAMLConfig.id c' = YAMLConfig.id c
        /\ YAMLConfig.name c' = YAMLConfig.name c
        /\ YAMLConfig.number_of_samples c' = YAMLConfig.number_of_samples c
        /\ YAMLConfig.model c' = YAMLConfig.model c
        /\ YAMLConfig.user_prompt c' = YAMLConfig.user_prompt c
        /\ YAMLConfig.sampling_parameters c' = YAMLConfig.sampling_parameters c
        /\ YAMLConfig.dataset_parameters c' = YAMLConfig.dataset_parameters c
        /\ YAMLConfig.example_inputs c' = YAMLConfig.example_inputs c
        /\ YAMLConfig.total_responses_generated c' = YAMLConfig.total_responses_generated c
        /\ YAMLConfig.tokens_per_second_sum c' = YAMLConfig.tokens_per_second_sum c
        /\ YAMLConfig.time_to_first_token_sum c' = YAMLConfig.time_to_first_token_sum c
        /\ YAMLConfig.queries_per_second_sum c' = YAMLConfig.queries_per_second_sum c
        /\ YAMLConfig.average_latency_sum c' = YAMLConfig.average_latency_sum c
        /\ YAMLConfig.total_tokens_sum c' = YAMLConfig.total_tokens_sum c).
Proof.
  intros store'. subst store'.
  split; [| split; [| split]].
  - publish_paths env yaml_config; reflexivity.
  - intros other Hne.
    publish_paths env yaml_config;
      rewrite ?lookup_alter_ne by congruence; reflexivity.
  - intros Hnone.
    publish_paths env yaml_config;
      rewrite ?lookup_alter_eq, ?Hnone; try reflexivity; exact Hnone.
  - intros c Hc.
    publish_paths env yaml_config;
      rewrite ?lookup_alter_eq, ?Hc; cbn [fmap option_fmap option_map];
      eexists; (split; [first [reflexivity | exact Hc] |]); repeat split.
Qed.

(** X13: when the upload flag is raised.  A run of the publishing part
    that finds the flag down and leaves it up had both credentials, got an
    answer without an [error] entry from the create call and an answer from
    the upload call, and returns the combined payload of the two. *)
Theorem flag_raised_only_after_both_calls (env : upload_env) (yaml_config : YAMLConfig.t)
    (yaml_config_id : string) (store : db) (c c' : YAMLConfig.t) :
  yaml_configs store !! yaml_config_id = Some c ->
  YAMLConfig.dataset_uploaded c = false ->
  yaml_configs (fst (publish env yaml_config yaml_config_id store)) !! yaml_config_id
  = Some c' ->
  YAMLConfig.dataset_uploaded c' = true ->
  configured (FIREWORKS_API_KEY env) && configured (FIREWORKS_ACCOUNT_ID env) = true
  /\ exists dataset_id create_response upload_response,
       LLMClient.create_dataset
         (post_create env ("generatedsyntheticdataset" +:+ dataset_id))
       = Ok create_response
       /\ contains_key "error" create_response = Ok false
       /\ LLMClient.upload_dataset true (abspath env (dataset_path yaml_config_id))
            (post_upload env ("generatedsyntheticdataset" +:+ dataset_id))
          = Ok upload_response
       /\ snd (publish env yaml_config yaml_config_id store)
          = Ok (Dict [("creation", create_response);
                      ("upload", upload_response);
                      ("file_path", Str (abspath env (dataset_path yaml_config_id)));
                      ("dataset_id", Str ("generatedsyntheticdataset" +:+ dataset_id))])
       /\ YAMLConfig.dataset_upload_response c'
          = Dict [("creation", create_response);
                  ("upload", upload_response);
                  ("file_path", Str (abspath env (dataset_path yaml_config_id)));
                  ("dataset_id", Str ("generatedsyntheticdataset" +:+ dataset_id))].
Proof.
  intros Hc Hdown.
  unfold publish, with_dataset_id.
  destruct (configured (FIREWORKS_API_KEY env));
    destruct (configured (FIREWORKS_ACCOUNT_ID env));
    cbn [negb orb andb];
    try (cbn [fst snd save_config yaml_configs];
         rewrite lookup_alter_eq, Hc; cbn [fmap option_fmap option_map];
         intros [= <-] Hup; discriminate Hup).
  assert (Hpaths : forall dataset_id store1 c1,
             yaml_configs store1 !! yaml_config_id = Some c1 ->
             YAMLConfig.dataset_uploaded c1 = false ->
             yaml_configs
               (fst (match LLMClient.create_dataset
                             (post_create env ("generatedsyntheticdataset" +:+ dataset_id)) with
                     | Raise e => (store1, Raise e)
                     | Ok create_response =>
                         match contains_key "error" create_response with
                         | Raise e => (store1, Raise e)
                         | Ok true =>
                             (save_config (YAMLConfig.set_upload None create_response)
                                yaml_config_id store1, Ok create_response)
                         | Ok false =>
                             match LLMClient.upload_dataset true
                                     (abspath env (dataset_path yaml_config_id))
                                     (post_upload env
                                        ("generatedsyntheticdataset" +:+ dataset_id)) with
                             | Raise e => (store1, Raise e)
                             | Ok upload_response =>
                                 (save_config
                                    (YAMLConfig.set_upload (Some true)
                                       (Dict [("creation", create_response);
                                              ("upload", upload_response);
                                              ("file_path",
                                               Str (abspath env (dataset_path yaml_config_id)));
                                              ("dataset_id",
                                               Str ("generatedsyntheticdataset"
                                                    +:+ dataset_id))]))
                                    yaml_config_id store1,
                                  Ok (Dict [("creation", create_response);
                                            ("upload", upload_response);
                                            ("file_path",
                                             Str (abspath env (dataset_path yaml_config_id)));
                                            ("dataset_id",
                                             Str ("generatedsyntheticdataset"
                                                  +:+ dataset_id))]))
                             end
                         end
                     end)) !! yaml_config_id = Some c' ->
             YAMLConfig.dataset_uploaded c' = true ->
             exists create_response upload_response,
               LLMClient.create_dataset
                 (post_create env ("generatedsyntheticdataset" +:+ dataset_id))
               = Ok create_response
               /\ contains_key "error" create_response = Ok false
               /\ LLMClient.upload_dataset true (abspath env (dataset_path yaml_config_id))
                    (post_upload env ("generatedsyntheticdataset" +:+ dataset_id))
                  = Ok upload_response
               /\ YAMLConfig.dataset_upload_response c'
                  = Dict [("creation", create_response);
                          ("upload", upload_response);
                          ("file_path", Str (abspath env (dataset_path yaml_config_id)));
                          ("dataset_id", Str ("generatedsyntheticdataset" +:+ dataset_id))]).
  { intros dataset_id store1 c1 Hc1 Hdown1.
    destruct (LLMClient.create_dataset _) as [create_response|e];
      [destruct (contains_key "error" create_response) as [[|]|e'] eqn:Hk;
       [| destruct (LLMClient.upload_dataset _ _ _) as [upload_response|e''] |] |];
      cbn [fst snd save_config yaml_configs];
      rewrite ?lookup_alter_eq, ?Hc1; cbn [fmap option_fmap option_map];
      intros [= <-] Hup; cbn in Hup; try congruence.
    exists create_response, upload_response. repeat split. exact Hk. }
  intros Hc' Hup. split; [reflexivity |].
  destruct (YAMLConfig.dataset_id yaml_config) as [d|]; [destruct (PyStr.truthy d) |].
  - destruct (Hpaths d store c Hc Hdown Hc' Hup) as (cr & ur & H1 & H2 & H3 & H4).
    exists d, cr, ur. rewrite H1, H2, H3. repeat split; assumption.
  - destruct (Hpaths (uuid4 env)
                (save_config (YAMLConfig.set_dataset_id (uuid4 env)) yaml_config_id store)
                (YAMLConfig.set_dataset_id (uuid4 env) c))
      as (cr & ur & H1 & H2 & H3 & H4);
      [now apply MaterializerFacts.save_config_lookup | exact Hdown | exact Hc' | exact Hup |].
    exists (uuid4 env), cr, ur. rewrite H1, H2, H3. repeat split; assumption.
  - destruct (Hpaths (uuid4 env)
                (save_config (YAMLConfig.set_dataset_id (uuid4 env)) yaml_config_id store)
                (YAMLConfig.set_dataset_id (uuid4 env) c))
      as (cr & ur & H1 & H2 & H3 & H4);
      [now apply MaterializerFacts.save_config_lookup | exact Hdown | exact Hc' | exact Hup |].
    exists (uuid4 env), cr, ur. rewrite H1, H2, H3. repeat split; assumption.
Qed.

Lemma flag_raised_only_after_both_calls_witness :
  let store := Examples.store_of
                 (Examples.config 3 (Examples.tenths 1) (Examples.tenths 3)) [] in
  exists dataset_id create_response upload_response,
    snd (publish Scenarios.accepting_env
           (Examples.config 3 (Examples.tenths 1) (Examples.tenths 3)) "cfg1" store)
    = Ok (Dict [("creation", create_response);
                ("upload", upload_response);
                ("file_path", Str "/app/datasets/cfg1.jsonl");
                ("dataset_id", Str ("generatedsyntheticdataset" +:+ dataset_id))]).
Proof.
  edestruct (flag_raised_only_after_both_calls Scenarios.accepting_env
               (Examples.config 3 (Examples.tenths 1) (Examples.tenths 3)) "cfg1"
               (Examples.store_of
                  (Examples.config 3 (Examples.tenths 1) (Examples.tenths 3)) [])
               (Examples.config 3 (Examples.tenths 1) (Examples.tenths 3)))
    as (_ & d & cr & ur & _ & _ & _ & Hret & _).
  - vm_compute. reflexivity.
  - reflexivity.
  - vm_compute. reflexivity.
  - reflexivity.
  - exists d, cr, ur. exact Hret.
Defined.

(** The dataset id of the configuration after the publishing part. *)
Lemma publish_dataset_id (env : upload_env) (yaml_config_id : string) (store : db)
    (c : YAMLConfig.t) :
  yaml_configs store !! yaml_config_id = Some c ->
  exists c',
    yaml_configs (fst (publish env c yaml_config_id store)) !! yaml_config_id = Some c'
    /\ YAMLConfig.dataset_id c'
       = if configured (FIREWORKS_API_KEY env) && configured (FIREWORKS_ACCOUNT_ID env)
         then match YAMLConfig.dataset_id c with
              | Some d => if PyStr.truthy d then Some d else Some (uuid4 env)
              | None => Some (uuid4 env)
              end
         else YAMLConfig.dataset_id c.
Proof.
  intros Hc.
  publish_paths env c;
    rewrite ?lookup_alter_eq, ?Hc; cbn [fmap option_fmap option_map andb];
    eexists; (split; [first [reflexivity | exact Hc] |]); cbn;
    try reflexivity; try assumption.
Qed.

(** X14: the dataset id is assigned once.  A run of the upload task with
    both credentials leaves the configuration with a dataset id: the one it
    had, or a fresh one when it had none.  Every later run, with or without
    credentials and whatever the remote store answers, keeps that id. *)
Theorem dataset_id_assigned_once `{Json.Lib} (env later : upload_env)
    (yaml_config_id : string) (store : db) (c : YAMLConfig.t) :
  yaml_configs store !! yaml_config_id = Some c ->
  configured (FIREWORKS_API_KEY env) && configured (FIREWORKS_ACCOUNT_ID env) = true ->
  PyStr.truthy (uuid4 env) = true ->
  let store1 := fst (fst (upload_dataset env yaml_config_id store)) in
  let store2 := fst (fst (upload_dataset later yaml_config_id store1)) in
  exists d c1 c2,
    yaml_configs store1 !! yaml_config_id = Some c1
    /\ YAMLConfig.dataset_id c1 = Some d
    /\ PyStr.truthy d = true
    /\ (forall d0, YAMLConfig.dataset_id c = Some d0 -> PyStr.truthy d0 = true -> d = d0)
    /\ (YAMLConfig.dataset_id c = None -> d = uuid4 env)
    /\ yaml_configs store2 !! yaml_config_id = Some c2
    /\ YAMLConfig.dataset_id c2 = Some d.
Proof.
  intros Hc Hcfg Huuid store1 store2.
  assert (Hrun : forall env0 store0 c0,
             yaml_configs store0 !! yaml_config_id = Some c0 ->
             fst (fst (upload_dataset env0 yaml_config_id store0))
             = fst (publish env0 c0 yaml_config_id store0)).
  { intros env0 store0 c0 Hc0. unfold upload_dataset. rewrite Hc0.
    destruct (publish env0 c0 yaml_config_id store0) as [st [v|e]]; reflexivity. }
  destruct (publish_dataset_id env yaml_config_id store c Hc) as (c1 & Hc1 & Hd1).
  rewrite Hcfg in Hd1. rewrite <- (Hrun _ _ _ Hc) in Hc1. fold store1 in Hc1.
  destruct (publish_dataset_id later yaml_config_id store1 c1 Hc1) as (c2 & Hc2 & Hd2).
  rewrite <- (Hrun _ _ _ Hc1) in Hc2. fold store2 in Hc2.
  assert (Hd : exists d, YAMLConfig.dataset_id c1 = Some d /\ PyStr.truthy d = true
                         /\ (forall d0, YAMLConfig.dataset_id c = Some d0 ->
                                        PyStr.truthy d0 = true -> d = d0)
                         /\ (YAMLConfig.dataset_id c = None -> d = uuid4 env)).
  { rewrite Hd1. destruct (YAMLConfig.dataset_id c) as [d0|]; [destruct (PyStr.truthy d0) eqn:Ht |].
    - exists d0. repeat split; try assumption; [now intros d1 [= ->] | discriminate].
    - exists (uuid4 env). repeat split; try assumption.
      intros d1 [= ->]. congruence.
    - exists (uuid4 env). repeat split; try assumption. discriminate. }
  destruct Hd as (d & Hd & Ht & Hold & Hnew).
  exists d, c1, c2. repeat split; try assumption.
  rewrite Hd2, Hd. cbv iota beta. rewrite Ht.
  destruct (configured (FIREWORKS_API_KEY later) && _); reflexivity.
Qed.

Lemma dataset_id_assigned_once_witness :
  let store := Examples.store_of
                 (Examples.config 3 (Examples.tenths 1) (Examples.tenths 3)) [] in
  let store1 := fst (fst (upload_dataset (H := MiniJson.lib) Scenarios.accepting_env
                            "cfg1" store)) in
  let store2 := fst (fst (upload_dataset (H := MiniJson.lib) Scenarios.later_env
                            "cfg1" store1)) in
  exists c2, yaml_configs store2 !! "cfg1" = Some c2
             /\ YAMLConfig.dataset_id c2 = Some "0b0e7f5c".
Proof.
  destruct (dataset_id_assigned_once (H := MiniJson.lib) Scenarios.accepting_env
              Scenarios.later_env "cfg1"
              (Examples.store_of
                 (Examples.config 3 (Examples.tenths 1) (Examples.tenths 3)) [])
              (Examples.config 3 (Examples.tenths 1) (Examples.tenths 3)))
    as (d & c1 & c2 & _ & _ & _ & _ & Hnew & Hc2 & Hd2).
  - vm_compute. reflexivity.
  - reflexivity.
  - reflexivity.
  - exists c2. split; [exact Hc2 |]. rewrite Hd2, (Hnew eq_refl). reflexivity.
Defined.

End PublishFacts.

(** ** The Generation Client: messages and structured answers *)
Module ClientShapeFacts.

Import Py LLMClient.

Lemma document_part_cases (fs : files) (doc_path : string) :
  (exists b,
     path_exists fs doc_path = true
     /\ PyStr.endswith ".pdf" (PyStr.lower doc_path) = true
     /\ read_base64 fs doc_path = Ok b
     /\ document_part fs doc_path
        = [image_url_part ("data:application/pdf;base64," +:+ b +:+ "#transform=inline")])
  \/ ((path_exists fs doc_path = false
       \/ PyStr.endswith ".pdf" (PyStr.lower doc_path) = false
       \/ exists e, read_base64 fs doc_path = Raise e)
      /\ document_part fs doc_path = []).
Proof.
  unfold document_part.
  destruct (path_exists fs doc_path); [| right; split; [now left | reflexivity]].
  destruct (PyStr.endswith ".pdf" (PyStr.lower doc_path));
    [| right; split; [right; now left | reflexivity]].
  destruct (read_base64 fs doc_path) as [b|e].
  - left. exists b. repeat split.
  - right. split; [right; right; now exists e | reflexivity].
Qed.

(** X15: the message the client builds.  It is always one message of the
    user.  Without documents its content is the prompt; with documents it
    is a list that starts with the prompt as a text part and goes on with
    one inlined PDF per document that exists, is named [.pdf] in any
    letter case, and can be read, in the order of the documents.  Every
    other document is left out without an error, so a list of documents none
    of which can be used still gives a list content, of the text part
    alone. *)
Theorem message_with_documents_shape (fs : files) (prompt : string)
    (documents : list (string * string)) :
  exists content,
    _create_message_with_documents fs prompt documents
    = [ {| role := "user"; message_content := content |} ]
    /\ (documents = [] -> content = plain prompt)
    /\ (documents <> [] ->
        exists images,
          content = parts (text_part prompt :: images)
          /\ (length images <= length documents)%nat
          /\ (forall p, In p images <->
              exists d b,
                In d documents
                /\ path_exists fs (snd d) = true
                /\ PyStr.endswith ".pdf" (PyStr.lower (snd d)) = true
                /\ read_base64 fs (snd d) = Ok b
                /\ p = image_url_part
                         ("data:application/pdf;base64," +:+ b +:+ "#transform=inline"))).
Proof.
  destruct documents as [|d0 rest].
  - exists (plain prompt). split; [reflexivity |]. split; [reflexivity | congruence].
  - set (documents := d0 :: rest).
    exists (parts (text_part prompt
                   :: flat_map (fun d => document_part fs (snd d)) documents)).
    split; [reflexivity |]. split; [discriminate |]. intros _.
    exists (flat_map (fun d => document_part fs (snd d)) documents).
    split; [reflexivity |]. clearbody documents. split.
    + induction documents as [|d l IH]; [simpl; lia |].
      simpl. rewrite length_app.
      destruct (document_part_cases fs (snd d)) as [(b & _ & _ & _ & ->) | [_ ->]];
        simpl; lia.
    + intros p. rewrite in_flat_map. split.
      * intros (d & Hd & Hp).
        destruct (document_part_cases fs (snd d))
          as [(b & He & Hpdf & Hr & Heq) | [_ Heq]];
          rewrite Heq in Hp; [| contradiction].
        destruct Hp as [<- | []]. exists d, b. repeat split; assumption.
      * intros (d & b & Hd & He & Hpdf & Hr & ->).
        exists d. split; [exact Hd |].
        unfold document_part. rewrite He, Hpdf, Hr. now left.
Qed.

(** Three documents, of which one is a readable PDF: the text part and one
    inlined document. *)
Example message_with_three_documents :
  _create_message_with_documents Scenarios.two_files "Summarise."
    [("a", "/docs/A.PDF"); ("b", "/docs/b.txt"); ("c", "/docs/missing.pdf")]
  = [ {| role := "user";
         message_content :=
           parts [text_part "Summarise.";
                  image_url_part
                    "data:application/pdf;base64,JVBERi0=#transform=inline"] |} ].
Proof. vm_compute. reflexivity. Qed.

(** X16: a structured answer that parses.  When the schema can be
    rendered, the backend answers with a message and its content parses to
    an object, the client returns that object; the only thing it adds is
    the member [explanation], with a fixed sentence, when the schema
    declares that field and the object lacks it.  No other field of the
    schema is looked at: the members of the object are returned as they
    came. *)
Theorem structured_answer_explanation `{Json.Lib} (self : t) (fs : files)
    (prompt : string) (schema : schema_model) (documents : list (string * string))
    (json_schema : value) (text : string) (others : list (option string))
    (items : list (string * value)) :
  model_json_schema schema = Ok json_schema ->
  client self
    {| rq_model := model self;
       rq_messages := _create_message_with_documents fs prompt documents;
       rq_response_format :=
         Some (Dict [("type", Str "json_object"); ("schema", json_schema)]);
       rq_max_tokens := Some (max_tokens self);
       rq_temperature := temperature self;
       rq_top_p := None;
       rq_stream := false |}
  = Ok (completion (Some text :: others)) ->
  Json.loads text = Ok (Dict items) ->
  exists result,
    generate_structured_json self fs prompt schema documents = Ok (Dict result)
    /\ (forall k, k <> "explanation" -> lookup_item k result = lookup_item k items)
    /\ lookup_item "explanation" result
       = match lookup_item "explanation" items with
         | Some v => Some v
         | None =>
             if has_field "explanation" schema
             then Some (Str "No explanation provided by the model.")
             else None
         end
    /\ (has_field "explanation" schema = false -> result = items).
Proof.
  intros Hschema Hanswer Hloads.
  unfold generate_structured_json, generate_structured_json_try.
  rewrite Hschema. cbn [mbind result_bind bind].
  rewrite Hanswer. cbn [mbind result_bind bind first_message_content loads_content].
  rewrite Hloads. cbn [mbind result_bind bind].
  destruct (has_field "explanation" schema) eqn:Hfield.
  - cbn [contains_key mbind result_bind bind].
    destruct (lookup_item "explanation" items) as [v|] eqn:Hv;
      cbn [negb setitem try_except].
    + exists items. split; [reflexivity |]. split; [reflexivity |].
      split; [exact Hv | discriminate].
    + exists (set_item "explanation" (Str "No explanation provided by the model.") items).
      split; [reflexivity |]. split; [| split; [| discriminate]].
      * intros k Hk. apply ClientFacts.lookup_set_item_ne. congruence.
      * apply ClientFacts.lookup_set_item_eq.
  - cbn [try_except]. exists items. split; [reflexivity |]. split; [reflexivity |].
    split; [now destruct (lookup_item "explanation" items) | reflexivity].
Qed.

Lemma structured_answer_explanation_witness :
  generate_structured_json (H := MiniJson.lib)
    (init (Some "key") (Scenarios.replying Scenarios.answer_only) None)
    Examples.no_files "What is six times seven?" Scenarios.explained_schema []
  = Ok (Dict [("answer", Str "42");
              ("explanation", Str "No explanation provided by the model.")]).
Proof.
  destruct (structured_answer_explanation (H := MiniJson.lib)
              (init (Some "key") (Scenarios.replying Scenarios.answer_only) None)
              Examples.no_files "What is six times seven?" Scenarios.explained_schema []
              (Dict []) Scenarios.answer_only [] [("answer", Str "42")])
    as (result & Hresult & _).
  - reflexivity.
  - reflexivity.
  - vm_compute. reflexivity.
  - vm_compute. reflexivity.
Defined.

End ClientShapeFacts.

(** ** Floats: signs *)
Module FloatSignFacts.

(** Halving keeps a mantissa that is not negative. *)
Lemma shr_fexp_nonnegative (m e : Z) (l : location) :
  0 <= m -> 0 <= shr_m (fst (shr_fexp prec emax m e l)).
Proof.
  intros Hm. unfold shr_fexp, shr.
  destruct (fexp prec emax (Zdigits2 m + e) - e) as [|n|n]; simpl fst.
  - now rewrite FloatFacts.shr_record_of_loc_m.
  - rewrite FloatFacts.iter_shr_1_spec by (now rewrite FloatFacts.shr_record_of_loc_m).
    rewrite FloatFacts.shr_record_of_loc_m. apply Z.div_pos; lia.
  - now rewrite FloatFacts.shr_record_of_loc_m.
Qed.

Lemma round_nearest_even_nonnegative (m : Z) (l : location) :
  0 <= m -> 0 <= round_nearest_even m l.
Proof.
  intros H. destruct l as [|[| |]]; simpl; try lia.
  destruct (Z.even m); lia.
Qed.

(** Rounding a mantissa that is not negative, with the sign of a positive
    number, gives a number that is not below zero. *)
Lemma binary_round_aux_nonnegative (m e : Z) (l : location) :
  0 <= m -> SFleb (S754_zero false) (binary_round_aux prec emax false m e l) = true.
Proof.
  intros Hm. unfold binary_round_aux.
  pose proof (shr_fexp_nonnegative m e l Hm) as H1.
  destruct (shr_fexp prec emax m e l) as [mrs1 e1]. simpl in H1.
  pose proof (round_nearest_even_nonnegative _ (loc_of_shr_record mrs1) H1) as Hr.
  pose proof (shr_fexp_nonnegative _ e1 loc_Exact Hr) as H2.
  destruct (shr_fexp prec emax (round_nearest_even (shr_m mrs1) (loc_of_shr_record mrs1))
              e1 loc_Exact) as [mrs2 e2]. simpl in H2.
  destruct (shr_m mrs2) as [|p|p]; [reflexivity | | lia].
  destruct (e2 <=? emax - prec); reflexivity.
Qed.

Lemma binary_normalize_nonnegative (m e : Z) :
  0 <= m -> SFleb (S754_zero false) (binary_normalize prec emax m e false) = true.
Proof.
  intros Hm. unfold binary_normalize.
  destruct m as [|p|p]; [reflexivity | | lia].
  unfold binary_round.
  destruct (shl_align p e (fexp prec emax (Z.pos (digits2_pos p) + e))) as [mz ez].
  now apply binary_round_aux_nonnegative.
Qed.

(** The float of an integer that is not negative is not below zero. *)
Lemma of_int_nonnegative (z : Z) :
  0 <= z -> PrimFloat.leb PrimFloat.zero (PyFloat.of_int z) = true.
Proof.
  intros Hz. unfold PyFloat.of_int.
  destruct (Z.ltb_spec z 0) as [|_]; [lia |].
  rewrite FloatAxioms.leb_spec, FloatAxioms.of_uint63_spec.
  apply binary_normalize_nonnegative.
  pose proof (Uint63.to_Z_bounded (Uint63.of_Z z)). lia.
Qed.

(** A quotient of a number that is not below zero by a number above zero
    is not below zero, unless both are infinite. *)
Lemma div_nonnegative (x y : float) :
  PrimFloat.leb PrimFloat.zero x = true ->
  PyFloat.gt y PrimFloat.zero = true ->
  PyFloat.is_finite x || PyFloat.is_finite y = true ->
  PrimFloat.leb PrimFloat.zero (PrimFloat.div x y) = true.
Proof.
  unfold PyFloat.is_finite, PyFloat.gt.
  rewrite !FloatAxioms.leb_spec, FloatAxioms.ltb_spec, FloatAxioms.div_spec.
  change (Prim2SF PrimFloat.zero) with (S754_zero false).
  destruct (Prim2SF x) as [sx|sx| |sx mx ex], (Prim2SF y) as [sy|sy| |sy my ey];
    try discriminate; try (destruct sx; discriminate); try (destruct sy; discriminate);
    intros Hx Hy Hfin; try reflexivity;
    try (destruct sx; [discriminate Hx |]); try (destruct sy; [discriminate Hy |]);
    try reflexivity.
  unfold SF64div, SFdiv, SFdiv_core_binary. cbn [xorb].
  set (s := ex - ey - _).
  set (m' := match s with Z0 => Z.pos mx | Z.pos _ => Z.shiftl (Z.pos mx) s | Z.neg _ => 0 end).
  assert (Hm' : 0 <= m').
  { subst m'. destruct s; [lia | | lia]. apply Z.shiftl_nonneg. lia. }
  pose proof (Z.div_pos m' (Z.pos my) Hm' ltac:(lia)) as Hq.
  unfold Z.div in Hq.
  destruct (Z.div_eucl m' (Z.pos my)) as [q r].
  now apply binary_round_aux_nonnegative.
Qed.

(** A sum of two numbers that are not below zero is not below zero. *)
Lemma add_nonnegative (x y : float) :
  PrimFloat.leb PrimFloat.zero x = true ->
  PrimFloat.leb PrimFloat.zero y = true ->
  PrimFloat.leb PrimFloat.zero (PrimFloat.add x y) = true.
Proof.
  rewrite !FloatAxioms.leb_spec, FloatAxioms.add_spec.
  change (Prim2SF PrimFloat.zero) with (S754_zero false).
  destruct (Prim2SF x) as [sx|sx| |sx mx ex], (Prim2SF y) as [sy|sy| |sy my ey];
    try discriminate; intros Hx Hy;
    try (destruct sx; [discriminate Hx |]); try (destruct sy; [discriminate Hy |]);
    try reflexivity; try (now destruct sx, sy); try (now destruct sx); try (now destruct sy).
  unfold SF64add, SFadd. cbn [cond_Zopp].
  apply binary_normalize_nonnegative. lia.
Qed.

(** [int(x)] of a number that is not below zero is not negative. *)
Lemma to_int_nonnegative (x : float) (n : Z) :
  PrimFloat.leb PrimFloat.zero x = true -> PyFloat.to_int x = Some n -> 0 <= n.
Proof.
  unfold PyFloat.to_int. rewrite FloatAxioms.leb_spec.
  change (Prim2SF PrimFloat.zero) with (S754_zero false).
  destruct (Prim2SF x) as [s|s| |s m e]; try discriminate.
  - intros _ [= <-]. lia.
  - destruct s; [discriminate |]. intros _ [= <-].
    destruct (Z.leb_spec 0 e);
      [apply Z.mul_nonneg_nonneg; [lia | apply Z.pow_nonneg; lia] |].
    apply Z.div_pos; [lia |]. apply Z.pow_pos_nonneg; lia.
Qed.

Lemma to_int_finite (x : float) (n : Z) :
  PyFloat.to_int x = Some n -> PyFloat.is_finite x = true.
Proof.
  unfold PyFloat.to_int, PyFloat.is_finite.
  destruct (Prim2SF x); intros H; try discriminate H; reflexivity.
Qed.

End FloatSignFacts.

(** ** The Generation Client: the metrics of a streamed call *)
Module MetricFacts.

Import Py LLMClient.

Lemma quarter_nonnegative (s : string) :
  PrimFloat.leb PrimFloat.zero (PyFloat.int_truediv (PyStr.len s) 4) = true.
Proof.
  unfold PyFloat.int_truediv. apply FloatSignFacts.div_nonnegative.
  - apply FloatSignFacts.of_int_nonnegative. unfold PyStr.len. lia.
  - vm_compute. reflexivity.
  - apply orb_true_iff. right. vm_compute. reflexivity.
Qed.

Lemma on_chunk_tokens (start arrival : float) (c : chunk) (p p' : progress) :
  PrimFloat.leb PrimFloat.zero (tokens p) = true ->
  on_chunk start arrival c p = Ok p' ->
  PrimFloat.leb PrimFloat.zero (tokens p') = true.
Proof.
  intros Hp. unfold on_chunk.
  destruct (chunk_choices c) as [|[s|] rest]; [discriminate | |].
  - destruct (PyStr.truthy s); intros [= <-]; cbn [tokens]; [| exact Hp].
    apply FloatSignFacts.add_nonnegative; [exact Hp | apply quarter_nonnegative].
  - intros [= <-]. exact Hp.
Qed.

Lemma consume_tokens (start : float) (events : list stream_event) (p p' : progress) :
  PrimFloat.leb PrimFloat.zero (tokens p) = true ->
  consume start events p = Ok p' ->
  PrimFloat.leb PrimFloat.zero (tokens p') = true.
Proof.
  revert p. induction events as [|[arrival c|e] rest IH]; intros p Hp; simpl.
  - now intros [= <-].
  - destruct (on_chunk start arrival c p) as [p1|e] eqn:E; [| discriminate].
    cbn [mbind result_bind bind]. apply IH. now apply on_chunk_tokens in E.
  - discriminate.
Qed.

(** The measures of a stream that was read to its end. *)
Lemma measure_nonnegative (clk : clock) (r : response) (text : string) (m : metrics) :
  measure clk r = Ok (text, m) ->
  0 <= total_tokens m
  /\ PrimFloat.leb PrimFloat.zero (tokens_per_second m) = true.
Proof.
  unfold measure. destruct r as [choices|events]; [discriminate |].
  destruct (consume (start_time clk) events initial) as [p|e] eqn:Hc; [| discriminate].
  cbn [mbind result_bind bind]. unfold int_tokens.
  destruct (PyFloat.to_int (tokens p)) as [n|] eqn:Hn; [| discriminate].
  cbn [mbind result_bind bind]. intros [= _ <-]. cbn [total_tokens tokens_per_second].
  apply consume_tokens in Hc; [| reflexivity].
  split; [now apply FloatSignFacts.to_int_nonnegative with (tokens p) |].
  destruct (PyFloat.gt _ PrimFloat.zero) eqn:Hgt; [| reflexivity].
  apply FloatSignFacts.div_nonnegative; [exact Hc | exact Hgt |].
  apply orb_true_iff. left. now apply FloatSignFacts.to_int_finite with n.
Qed.

Lemma structured_metrics_nonnegative (self : t) (clk : clock) (prompt : string)
    (schema : schema_model) (temperature : float) (top_p : option float)
    (max_tokens : option Z) (seed : option Z) (model : string)
    (text : string) (m : metrics) :
  generate_structured_response_with_metrics self clk prompt schema temperature
    top_p max_tokens seed model = Ok (text, m) ->
  0 <= total_tokens m
  /\ PrimFloat.leb PrimFloat.zero (tokens_per_second m) = true.
Proof.
  unfold generate_structured_response_with_metrics,
    generate_structured_response_with_metrics_try.
  destruct (model_json_schema schema) as [js|e]; cbn [mbind result_bind bind try_except];
    [| intros [= _ <-]; split; [simpl; lia | reflexivity]].
  destruct (client self _) as [r|e]; cbn [mbind result_bind bind try_except];
    [| intros [= _ <-]; split; [simpl; lia | reflexivity]].
  destruct (measure clk r) as [[text' m']|e] eqn:Hm; cbn [try_except].
  - intros [= _ <-]. now apply measure_nonnegative with clk r text'.
  - intros [= _ <-]. split; [simpl; lia | reflexivity].
Qed.

(** X17: the metrics of a streamed call are never negative.  Whatever the
    backend streams and whatever the clock reads, both streaming operations
    return a text with metrics in which the token count is not negative and
    the tokens per second are a number that is not below zero: the count
    is a sum of quarters of lengths, and the rate is only computed over a
    duration above zero. *)
Theorem metrics_never_negative (self : t) (clk : clock) (prompt : string)
    (schema : schema_model) (temperature : float) (top_p : option float)
    (max_tokens : option Z) (seed : option Z) (model : string) :
  (exists text m,
     generate_response_with_metrics self clk prompt temperature top_p
       max_tokens seed model = Ok (text, m)
     /\ 0 <= total_tokens m
     /\ PrimFloat.leb PrimFloat.zero (tokens_per_second m) = true)
  /\ (exists text m,
        generate_structured_response_with_metrics self clk prompt schema temperature
          top_p max_tokens seed model = Ok (text, m)
        /\ 0 <= total_tokens m
        /\ PrimFloat.leb PrimFloat.zero (tokens_per_second m) = true).
Proof.
  split.
  - unfold generate_response_with_metrics, generate_response_with_metrics_try.
    destruct (client self _) as [r|e]; cbn [mbind result_bind bind try_except].
    + destruct (measure clk r) as [[text m]|e] eqn:Hm; cbn [try_except].
      * exists text, m. split; [reflexivity |]. now apply measure_nonnegative with clk r text.
      * exists "", zero_metrics. split; [reflexivity |]. split; [simpl; lia | reflexivity].
    + exists "", zero_metrics. split; [reflexivity |]. split; [simpl; lia | reflexivity].
  - destruct (generate_structured_response_with_metrics self clk prompt schema temperature
                top_p max_tokens seed model) as [[text m]|e] eqn:Hg.
    + exists text, m. split; [reflexivity |].
      now apply structured_metrics_nonnegative in Hg.
    + exfalso. revert Hg.
      unfold generate_structured_response_with_metrics.
      destruct (generate_structured_response_with_metrics_try _ _ _ _ _ _ _ _ _);
        discriminate.
Qed.

End MetricFacts.

(** ** The Sample Worker: the aggregates only grow *)
Module AggregateFacts.

Import Py Processor.

(** X18: the counters of a configuration never go down.  After any run of
    the worker every configuration is still there; its count of responses
    is the same or one more, and its sum of tokens is not smaller than
    before. *)
Theorem aggregates_never_decrease `{Json.Lib} (env : worker_env) (w : work_item)
    (store : db) (k : string) (c : YAMLConfig.t) :
  yaml_configs store !! k = Some c ->
  exists c',
    yaml_configs (fst (generate_sample_response env w store)) !! k = Some c'
    /\ YAMLConfig.total_responses_generated c
       <= YAMLConfig.total_responses_generated c'
       <= YAMLConfig.total_responses_generated c + 1
    /\ YAMLConfig.total_tokens_sum c <= YAMLConfig.total_tokens_sum c'
    /\ YAMLConfig.dataset_id c' = YAMLConfig.dataset_id c
    /\ YAMLConfig.dataset_uploaded c' = YAMLConfig.dataset_uploaded c.
Proof.
  intros Hc.
  assert (Hsame : exists c',
             yaml_configs store !! k = Some c'
             /\ YAMLConfig.total_responses_generated c
                <= YAMLConfig.total_responses_generated c'
                <= YAMLConfig.total_responses_generated c + 1
             /\ YAMLConfig.total_tokens_sum c <= YAMLConfig.total_tokens_sum c'
             /\ YAMLConfig.dataset_id c' = YAMLConfig.dataset_id c
             /\ YAMLConfig.dataset_uploaded c' = YAMLConfig.dataset_uploaded c).
  { exists c. repeat split; try assumption; lia. }
  unfold generate_sample_response, save, update_one.
  destruct (prepare env w) as [[[sample m] lat]|e] eqn:Hp; cbn [fst snd]; [| exact Hsame].
  apply WorkerFacts.prepare_ok in Hp as (cl & text & _ & Hg & -> & ->).
  apply MetricFacts.structured_metrics_nonnegative in Hg as [Htok _].
  destruct (save_raises env); cbn [fst snd]; [exact Hsame |].
  destruct (update_raises env); cbn [fst snd yaml_configs]; [exact Hsame |].
  destruct (decide (k = wi_yaml_config_id w)) as [-> | Hne].
  - rewrite lookup_alter_eq, Hc. cbn [fmap option_fmap option_map].
    eexists. split; [reflexivity |]. simpl. repeat split; lia.
  - rewrite lookup_alter_ne by congruence. exact Hsame.
Qed.

Lemma aggregates_never_decrease_witness :
  exists c',
    yaml_configs
      (fst (generate_sample_response (H := MiniJson.lib) Examples.worker_env
              Examples.work_item
              (Examples.store_of
                 (Examples.config 3 (Examples.tenths 1) (Examples.tenths 3)) [])))
    !! "cfg1" = Some c'
    /\ 0 <= YAMLConfig.total_tokens_sum c'.
Proof.
  destruct (aggregates_never_decrease (H := MiniJson.lib) Examples.worker_env
              Examples.work_item
              (Examples.store_of
                 (Examples.config 3 (Examples.tenths 1) (Examples.tenths 3)) [])
              "cfg1" (Examples.config 3 (Examples.tenths 1) (Examples.tenths 3)))
    as (c' & Hc' & _ & Htok & _).
  - vm_compute. reflexivity.
  - exists c'. split; [exact Hc' | exact Htok].
Defined.

End AggregateFacts.

(** ** The dataset endpoints *)
Module RouteFacts.

Import Py Routes.

Lemma endswith_app (suf s : string) : PyStr.endswith suf (s +:+ suf) = true.
Proof.
  induction s as [|c s IH].
  - rewrite StrFacts.app_nil_l. destruct suf; simpl; [reflexivity |].
    now rewrite Ascii.eqb_refl, String.eqb_refl.
  - rewrite StrFacts.app_cons. simpl. rewrite IH. apply orb_true_r.
Qed.

(** X19: what a download does to the files.  It changes and removes no
    file that exists; the only file it may create is the dataset file of
    the configuration, and only with the lines of the configuration's
    samples.  A response always names a file that exists afterwards, and
    when the dataset file was already there the response serves it as it
    was: the file is not written again, whatever samples the store holds
    by then. *)
Theorem download_keeps_existing_file `{Json.Lib} (env : download_env)
    (config_id : string) (store : db) (fs : gmap string string) :
  let r := download_dataset env config_id store fs in
  (forall p content, fs !! p = Some content -> fst r !! p = Some content)
  /\ (forall p, fs !! p = None -> fst r !! p <> None ->
      p = Processor.dataset_path config_id
      /\ fst r !! p
         = Some (Processor.dataset_file (Processor.samples_of store config_id)))
  /\ (forall response, snd r = Respond response ->
      path response = Processor.dataset_path config_id
      /\ fst r !! path response <> None)
  /\ (fs !! Processor.dataset_path config_id <> None -> fst r = fs).
Proof.
  intros r. subst r. unfold download_dataset.
  destruct (lookup_raises env);
    [cbn [fst snd guarded]; repeat split; try congruence; discriminate |].
  destruct (yaml_configs store !! config_id) as [c|];
    [| cbn [fst snd]; repeat split; try congruence; discriminate].
  destruct (sample_count store config_id =? 0);
    [cbn [fst snd]; repeat split; try congruence; discriminate |].
  destruct (makedirs_raises env);
    [cbn [fst snd guarded]; repeat split; try congruence; discriminate |].
  destruct (fs !! Processor.dataset_path config_id) as [old|] eqn:Hold.
  - cbn [fst snd]. split; [| split; [| split]]; try congruence.
    intros response [= <-]. cbn [path]. split; congruence.
  - destruct (open_raises env);
      [cbn [fst snd guarded]; repeat split; try congruence; discriminate |].
    cbn [fst snd]. split; [| split; [| split]].
    + intros p content Hp.
      rewrite lookup_insert_ne; [exact Hp | congruence].
    + intros p Hp Hnew.
      destruct (decide (Processor.dataset_path config_id = p)) as [<- | Hne].
      * split; [reflexivity |]. now rewrite lookup_insert_eq.
      * rewrite lookup_insert_ne in Hnew by exact Hne. congruence.
    + intros response [= <-]. cbn [path]. split; [reflexivity |].
      now rewrite lookup_insert_eq.
    + congruence.
Qed.



(** X21: the name under which a dataset is downloaded.  It is the name of
    the configuration with every space replaced by an underscore, followed
    by [_dataset.jsonl]: it holds no space and is as long as the name and
    the suffix together. *)
Theorem download_filename `{Json.Lib} (env : download_env) (config_id : string)
    (store : db) (fs : gmap string string) (response : FileResponse) :
  snd (download_dataset env config_id store fs) = Respond response ->
  exists c,
    yaml_configs store !! config_id = Some c
    /\ PyStr.contains " " (filename response) = false
    /\ PyStr.endswith "_dataset.jsonl" (filename response) = true
    /\ String.length (filename response)
       = (String.length (YAMLConfig.name c) + 14)%nat
    /\ media_type response = "application/jsonl".
Proof.
  unfold download_dataset.
  destruct (lookup_raises env); [discriminate |].
  destruct (yaml_configs store !! config_id) as [c|]; [| discriminate].
  destruct (sample_count store config_id =? 0); [discriminate |].
  destruct (makedirs_raises env); [discriminate |].
  assert (Hname : forall fs' : gmap string string,
             (fs', Respond
                     {| path := Processor.dataset_path config_id;
                        filename := PyStr.replace " " "_" (YAMLConfig.name c)
                                    +:+ "_dataset.jsonl";
                        media_type := "application/jsonl" |}).2 = Respond response ->
             exists c0,
               Some c = Some c0
               /\ PyStr.contains " " (filename response) = false
               /\ PyStr.endswith "_dataset.jsonl" (filename response) = true
               /\ String.length (filename response)
                  = (String.length (YAMLConfig.name c0) + 14)%nat
               /\ media_type response = "application/jsonl").
  { intros fs' [= <-]. cbn [filename media_type]. exists c.
    split; [reflexivity |]. split; [| split; [| split]].
    - destruct (PyStr.contains " " _) eqn:E; [| reflexivity].
      change "_dataset.jsonl" with (String "_" "dataset.jsonl") in E.
      apply TextFacts.contains_app_inv in E as [E|E]; [| | reflexivity].
      + pose proof (MaterializerLineFacts.replace_char_free " "%char "_"%char " "%char
                      (YAMLConfig.name c) ltac:(discriminate) (or_introl eq_refl))
          as Hfree.
        unfold PyStr.replace in Hfree. congruence.
      + discriminate E.
    - apply endswith_app.
    - rewrite TextFacts.length_app.
      pose proof (MaterializerLineFacts.replace_char_length " "%char "_"%char
                    (YAMLConfig.name c)) as Hlen.
      unfold PyStr.replace in Hlen. now rewrite Hlen.
    - reflexivity. }
  destruct (fs !! Processor.dataset_path config_id); [apply Hname |].
  destruct (open_raises env); [discriminate | apply Hname].
Qed.

Lemma download_filename_witness :
  exists response,
    snd (download_dataset (H := MiniJson.lib) Scenarios.plain_disk "cfg1"
           (Examples.store_of (Scenarios.bare_config 2) [Examples.sample None "one"])
           Scenarios.no_dataset) = Respond response
    /\ filename response = "demo_set_dataset.jsonl"
    /\ PyStr.contains " " (filename response) = false.
Proof.
  eexists. split; [vm_compute; reflexivity |]. split; [reflexivity |].
  destruct (download_filename (H := MiniJson.lib) Scenarios.plain_disk "cfg1"
              (Examples.store_of (Scenarios.bare_config 2) [Examples.sample None "one"])
              Scenarios.no_dataset
              {| path := "datasets/cfg1.jsonl";
                 filename := "demo_set_dataset.jsonl";
                 media_type := "application/jsonl" |})
    as (c & _ & Hno & _).
  - vm_compute. reflexivity.
  - exact Hno.
Defined.


(** X22: the dataset id that the upload endpoint reports.  A request that
    is answered found the configuration with at least one sample and
    handed the task to the dispatcher; the [dataset_id] of the answer is
    the one the configuration holds afterwards: the one it had, the store
    being left as it was, or a fresh one when it had none.  The upload task
    that runs next keeps this id, whatever its own generator of identifiers
    gives. *)
Theorem upload_route_reports_stored_id `{Json.Lib} (env : upload_route_env)
    (config_id : string) (store : db) (v : value) :
  snd (upload_dataset env config_id store) = Respond v ->
  exists c c' d task_id,
    yaml_configs store !! config_id = Some c
    /\ sample_count store config_id <> 0
    /\ send_task env = Ok task_id
    /\ v = Dict [("message", Str "Dataset upload started");
                 ("config_id", Str config_id);
                 ("task_id", Str task_id);
                 ("dataset_id", Str d)]
    /\ yaml_configs (fst (upload_dataset env config_id store)) !! config_id = Some c'
    /\ YAMLConfig.dataset_id c' = Some d
    /\ (has_dataset_id c = true ->
        YAMLConfig.dataset_id c = Some d /\ fst (upload_dataset env config_id store) = store)
    /\ (has_dataset_id c = false -> d = uuid4 env)
    /\ (PyStr.truthy d = true ->
        forall task_env : Processor.upload_env,
        exists c2,
          yaml_configs
            (fst (fst (Processor.upload_dataset task_env config_id
                         (fst (upload_dataset env config_id store)))))
          !! config_id = Some c2
          /\ YAMLConfig.dataset_id c2 = Some d).
Proof.
  assert (Htask : forall (st : db) (c' : YAMLConfig.t) (d : string),
             yaml_configs st !! config_id = Some c' ->
             YAMLConfig.dataset_id c' = Some d ->
             PyStr.truthy d = true ->
             forall task_env : Processor.upload_env,
             exists c2,
               yaml_configs (fst (fst (Processor.upload_dataset task_env config_id st)))
               !! config_id = Some c2
               /\ YAMLConfig.dataset_id c2 = Some d).
  { intros st c' d Hc' Hd Ht task_env.
    destruct (PublishFacts.publish_dataset_id task_env config_id st c' Hc')
      as (c2 & Hc2 & Hd2).
    exists c2. split.
    - unfold Processor.upload_dataset. rewrite Hc'.
      destruct (Processor.publish task_env c' config_id st) as [st' [r|e]]; exact Hc2.
    - rewrite Hd2, Hd. cbv iota beta. rewrite Ht.
      destruct (Processor.configured (Processor.FIREWORKS_API_KEY task_env) && _);
        reflexivity. }
  unfold upload_dataset.
  destruct (get_raises env); [discriminate |].
  destruct (yaml_configs store !! config_id) as [c|] eqn:Hc; [| discriminate].
  destruct (Z.eqb_spec (sample_count store config_id) 0) as [|Hcount]; [discriminate |].
  destruct (has_dataset_id c) eqn:Hid; cbn [negb].
  - destruct (send_task env) as [task_id|e]; [| discriminate].
    cbn [fst snd]. intros [= <-].
    pose proof Hid as Hhas. unfold has_dataset_id in Hid.
    destruct (YAMLConfig.dataset_id c) as [d|] eqn:Hd; [| discriminate Hid].
    exists c, c, d, task_id. repeat split; try assumption; try congruence.
    intros Ht task_env. now apply Htask with c.
  - destruct (save_raises env); [discriminate |].
    destruct (send_task env) as [task_id|e]; [| discriminate].
    cbn [fst snd]. intros [= <-].
    exists c, (YAMLConfig.set_dataset_id (uuid4 env) c), (uuid4 env), task_id.
    repeat split; try assumption; try congruence.
    + now apply MaterializerFacts.save_config_lookup.
    + intros Ht task_env.
      apply Htask with (YAMLConfig.set_dataset_id (uuid4 env) c);
        [now apply MaterializerFacts.save_config_lookup | reflexivity | exact Ht].
Qed.

Lemma upload_route_reports_stored_id_witness :
  let store := Examples.store_of
                 (Examples.config 3 (Examples.tenths 1) (Examples.tenths 3))
                 [Examples.sample None "one"] in
  exists c',
    yaml_configs (fst (upload_dataset Scenarios.dispatching "cfg1" store)) !! "cfg1"
    = Some c'
    /\ YAMLConfig.dataset_id c' = Some "0b0e7f5c".
Proof.
  destruct (upload_route_reports_stored_id (H := MiniJson.lib) Scenarios.dispatching
              "cfg1"
              (Examples.store_of
                 (Examples.config 3 (Examples.tenths 1) (Examples.tenths 3))
                 [Examples.sample None "one"])
              (Dict [("message", Str "Dataset upload started");
                     ("config_id", Str "cfg1");
                     ("task_id", Str "task-1");
                     ("dataset_id", Str "0b0e7f5c")]))
    as (c & c' & d & task_id & _ & _ & _ & Hv & Hc' & Hd & _).
  - vm_compute. reflexivity.
  - exists c'. split; [exact Hc' |]. rewrite Hd. now injection Hv as _ <-.
Defined.

(** X23: the failures of the upload endpoint.  The status is 404 exactly
    when the lookup returns and finds no such configuration, and 400
    exactly when it finds the configuration without a sample; both leave
    the store as it was.  Every other failure has status 500.  A request
    is not atomic: when the dispatcher refuses the task after a fresh
    dataset id was saved, the request fails and the id stays. *)
Theorem upload_route_failures (env : upload_route_env) (config_id : string)
    (store : db) :
  let r := upload_dataset env config_id store in
  (forall status_code detail, snd r = HTTPException status_code detail ->
     (status_code = 404 \/ status_code = 400 \/ status_code = 500)
     /\ (status_code = 404 <->
         get_raises env = None /\ yaml_configs store !! config_id = None)
     /\ (status_code = 400 <->
         get_raises env = None /\ yaml_configs store !! config_id <> None
         /\ sample_count store config_id = 0)
     /\ (status_code <> 500 -> fst r = store))
  /\ (forall c e,
        get_raises env = None ->
        yaml_configs store !! config_id = Some c ->
        sample_count store config_id <> 0 ->
        has_dataset_id c = false ->
        save_raises env = None ->
        send_task env = Raise e ->
        snd r = HTTPException 500 ("Failed to create upload task: " +:+ exn_str e)
        /\ yaml_configs (fst r) !! config_id
           = Some (YAMLConfig.set_dataset_id (uuid4 env) c)).
Proof.
  intros r. subst r. unfold upload_dataset. split.
  - intros status_code detail.
    destruct (get_raises env) as [e0|] eqn:Hget.
    { cbn [fst snd guarded]. intros [= <- <-].
      intuition (try lia; try congruence). }
    destruct (yaml_configs store !! config_id) as [c|] eqn:Hc.
    + destruct (Z.eqb_spec (sample_count store config_id) 0) as [Hzero|Hcount].
      * cbn [fst snd]. intros [= <- <-].
        intuition (try lia; try congruence).
      * assert (Hfive : forall st : db,
                   status_code = 500 ->
                   (status_code = 404 \/ status_code = 400 \/ status_code = 500)
                   /\ (status_code = 404 <-> None = None (A := exn) /\ Some c = None)
                   /\ (status_code = 400 <->
                       None = None (A := exn) /\ Some c <> None
                       /\ sample_count store config_id = 0)
                   /\ (status_code <> 500 -> st = store)).
        { intros st ->. intuition (try lia; try congruence). }
        destruct (has_dataset_id c); cbn [negb].
        -- destruct (send_task env); cbn [fst snd]; [discriminate |].
           intros [= <- <-]. now apply Hfive.
        -- destruct (save_raises env); cbn [fst snd guarded].
           ++ intros [= <- <-]. now apply Hfive.
           ++ destruct (send_task env); cbn [fst snd]; [discriminate |].
              intros [= <- <-]. now apply Hfive.
    + cbn [fst snd]. intros [= <- <-].
      intuition (try lia; try congruence).
  - intros c e Hget Hc Hcount Hid Hsave Htask.
    rewrite Hget, Hc. destruct (Z.eqb_spec (sample_count store config_id) 0); [lia |].
    rewrite Hid, Hsave, Htask. cbn [negb fst snd]. split; [reflexivity |].
    now apply MaterializerFacts.save_config_lookup.
Qed.

End RouteFacts.

(** ** The generation of configurations *)
Module GeneratorFacts.

Import Py Generator.

(** *** Lines *)

Lemma join_cons (sep x : string) (l : list string) :
  l <> [] -> PyText.join sep (x :: l) = x +:+ sep +:+ PyText.join sep l.
Proof. destruct l; [congruence | reflexivity]. Qed.

Lemma split_from_not_nil (sep : string) (skip : nat) (cur s : string) :
  PyStr.split_from sep skip cur s <> [].
Proof.
  pose proof (TextFacts.split_from_length sep skip cur s) as H.
  destruct (PyStr.split_from sep skip cur s); [simpl in H; lia | discriminate].
Qed.

(** Joining the pieces of a text with the separator gives the text. *)
Lemma join_split_char (a : ascii) (cur s : string) :
  PyText.join (String a "") (PyStr.split_from (String a "") 0 cur s) = cur +:+ s.
Proof.
  revert cur. induction s as [|c s IH]; intros cur.
  - simpl. now rewrite StrFacts.app_nil_r.
  - simpl PyStr.split_from. rewrite andb_true_r.
    destruct (Ascii.eqb_spec a c) as [<- | Hne].
    + rewrite join_cons by apply split_from_not_nil.
      rewrite IH. reflexivity.
    + rewrite IH, StrFacts.app_assoc. reflexivity.
Qed.

(** A piece of a text holds only what the text holds. *)
Lemma split_piece_contains (a : ascii) (m : string) (s cur piece : string) :
  In piece (PyStr.split_from (String a "") 0 cur s) ->
  PyStr.contains m piece = true -> PyStr.contains m (cur +:+ s) = true.
Proof.
  revert cur. induction s as [|c s IH]; intros cur.
  - simpl. intros [<- | []]. now rewrite StrFacts.app_nil_r.
  - simpl PyStr.split_from. rewrite andb_true_r.
    destruct (Ascii.eqb a c).
    + intros [<- | Hin] Hm.
      * now apply StrFacts.contains_app_l.
      * apply StrFacts.contains_app_r.
        change (String c s) with (String c "" +:+ s).
        apply StrFacts.contains_app_r. exact (IH "" Hin Hm).
    + intros Hin Hm. specialize (IH _ Hin Hm).
      now rewrite StrFacts.app_assoc in IH.
Qed.

Lemma contains_drop (m : string) (n : nat) (s : string) :
  PyStr.contains m (PyText.drop n s) = true -> PyStr.contains m s = true.
Proof.
  revert s. induction n as [|n IH]; intros s; [easy |].
  destruct s as [|c s]; [easy |]. simpl PyText.drop.
  intros H. simpl. rewrite (IH _ H). apply orb_true_r.
Qed.

(** What follows the first separator is part of the text. *)
Lemma split1_after_contains (sep m : string) (cur s : string) :
  PyStr.contains m (nth 1 (PyText.split1_from sep cur s) "") = true ->
  PyStr.contains m s = true.
Proof.
  revert cur. induction s as [|c s IH]; intros cur.
  - simpl. intros H. destruct m; [reflexivity | discriminate H].
  - simpl PyText.split1_from.
    destruct (PyStr.startswith sep (String c s)).
    + cbn [nth]. apply contains_drop.
    + intros H. simpl. rewrite (IH _ H). apply orb_true_r.
Qed.

(** A line without a comma followed by a space is kept as it is. *)
Lemma clean_line_kept (line : string) :
  PyStr.contains ", " line = false -> clean_line line = [line].
Proof.
  intros Hno. unfold clean_line.
  destruct (PyStr.contains ": " line); [| reflexivity].
  destruct (PyStr.contains ", " (nth 1 (PyText.split1 ": " line) "")) eqn:E;
    [| reflexivity].
  apply split1_after_contains in E. congruence.
Qed.

Lemma join_split_lines (text : string) :
  PyText.join PyStr.nl (PyStr.split PyStr.nl text) = text.
Proof. unfold PyStr.split, PyStr.nl, PyStr.chr. now rewrite join_split_char. Qed.

Lemma clean_yaml_fixed (text : string) :
  PyStr.contains ", " text = false -> clean_yaml text = text.
Proof.
  intros Hno. unfold clean_yaml. rewrite <- (join_split_lines text) at 2. f_equal.
  assert (Hlines : forall line, In line (PyStr.split PyStr.nl text) ->
                                clean_line line = [line]).
  { intros line Hin. apply clean_line_kept.
    destruct (PyStr.contains ", " line) eqn:E; [| reflexivity].
    apply (split_piece_contains (ascii_of_nat 10) ", " text "" line Hin) in E.
    rewrite StrFacts.app_nil_l in E. congruence. }
  induction (PyStr.split PyStr.nl text) as [|line lines IH]; [reflexivity |].
  simpl. rewrite (Hlines line) by now left.
  simpl. f_equal. apply IH; intros l Hl; apply Hlines; now right.
Qed.

Lemma clean_line_not_nil (line : string) : clean_line line <> [].
Proof.
  unfold clean_line.
  destruct (_ && _); [| discriminate].
  destruct (_ && _); discriminate.
Qed.

(** X24: the cleaning of a rejected text.  Splitting a text into its lines
    and joining them gives the text again, and the cleaning replaces every
    line by one line or more, so it never has fewer lines than the text; a
    text in which no comma is followed by a space is not changed at all. *)
Theorem clean_yaml_keeps_text_without_commas (generated_yaml : string) :
  PyText.join PyStr.nl (PyStr.split PyStr.nl generated_yaml) = generated_yaml
  /\ (length (PyStr.split PyStr.nl generated_yaml)
      <= length (flat_map clean_line (PyStr.split PyStr.nl generated_yaml)))%nat
  /\ (PyStr.contains ", " generated_yaml = false ->
      clean_yaml generated_yaml = generated_yaml).
Proof.
  split; [apply join_split_lines |]. split; [| apply clean_yaml_fixed].
  induction (PyStr.split PyStr.nl generated_yaml) as [|line lines IH]; [reflexivity |].
  simpl. rewrite length_app.
  pose proof (clean_line_not_nil line) as Hne.
  destruct (clean_line line); [congruence | simpl; lia].
Qed.

(** A line that the cleaning rewrites. *)
Example clean_line_splits_pairs :
  clean_line "  size: width: 3, height: 4, deep"
  = ["  size: width: 3"; "  height: 4"].
Proof. vm_compute. reflexivity. Qed.

(** *** The endpoint *)

Lemma missing_fields_of_mapping (fields : list string) (items : list (string * value))
    (missing : list string) :
  exists l, missing_fields fields (Dict items) missing = Ok l.
Proof.
  revert missing. induction fields as [|field rest IH]; intros missing; simpl; eauto.
Qed.

Lemma generate_text_returns (self : LLMClient.t) (fs : LLMClient.files)
    (prompt : string) (documents : list (string * string)) :
  exists answer, LLMClient.generate_text self fs prompt documents = Ok answer.
Proof.
  unfold LLMClient.generate_text.
  destruct (LLMClient.generate_text_try self fs prompt documents); simpl; eauto.
Qed.

(** X25: every outcome of the generation of a configuration.  Once the
    client exists the function does not raise.  It answers with the text of
    the model, stripped, or with the cleaned text, stripped, and with the
    text itself when no comma in it is followed by a space; the text is
    not checked against the required fields, which are only reported.
    Every failure is an [HTTPException] with status 500. *)
Theorem generate_yaml_config_outcome `{Yaml.Lib} (env : generator_env)
    (description : string) (llm_client : LLMClient.t) :
  new_client env = Ok llm_client ->
  exists answer,
    LLMClient.generate_text llm_client (server_files env)
      (prompt_for description (current_datetime env)) [] = Ok answer
    /\ ((exists text y,
           answer = Some text
           /\ generate_yaml_config env description
              = Ok (Routes.Respond (Dict [("yaml", Str y)]))
           /\ PyStr.strip y = y
           /\ (y = PyStr.strip text \/ y = PyStr.strip (clean_yaml text))
           /\ (PyStr.contains ", " text = false -> y = PyStr.strip text))
        \/ (exists detail,
              generate_yaml_config env description
              = Ok (Routes.HTTPException 500
                      ("Failed to generate YAML using LLM: " +:+ detail)))).
Proof.
  intros Hclient.
  destruct (generate_text_returns llm_client (server_files env)
              (prompt_for description (current_datetime env)) []) as [answer Hanswer].
  exists answer. split; [exact Hanswer |].
  unfold generate_yaml_config, generate_yaml_try.
  rewrite Hclient. cbn [mbind result_bind bind].
  rewrite Hanswer. cbn [mbind result_bind bind].
  destruct answer as [text|]; [| right; eexists; reflexivity].
  destruct (Yaml.safe_load text) as [parsed|message|e].
  - destruct (missing_fields required_fields parsed []) as [l|e];
      cbn [mbind result_bind bind]; [| right; eexists; reflexivity].
    left. exists text, (PyStr.strip text).
    repeat split; auto using TextFacts.strip_idem.
  - destruct (Yaml.safe_load (clean_yaml text)) as [parsed|message'|e].
    + left. exists text, (PyStr.strip (clean_yaml text)).
      repeat split; auto using TextFacts.strip_idem.
      intros Hno. now rewrite clean_yaml_fixed.
    + left. exists text, (PyStr.strip text).
      repeat split; auto using TextFacts.strip_idem.
    + right. eexists. reflexivity.
  - right. eexists. reflexivity.
Qed.

Lemma generate_yaml_config_outcome_witness :
  let env := Scenarios.generator_env (Scenarios.replying " name: demo ") in
  exists answer,
    LLMClient.generate_text
      (LLMClient.init (Some "key") (Scenarios.replying " name: demo ") None)
      (server_files env)
      (prompt_for "Customer support dialogues" (current_datetime env)) [] = Ok answer
    /\ ((exists text y,
           answer = Some text
           /\ generate_yaml_config (H := Scenarios.one_pair_yaml) env
                "Customer support dialogues"
              = Ok (Routes.Respond (Dict [("yaml", Str y)]))
           /\ PyStr.strip y = y
           /\ (y = PyStr.strip text \/ y = PyStr.strip (clean_yaml text))
           /\ (PyStr.contains ", " text = false -> y = PyStr.strip text))
        \/ (exists detail,
              generate_yaml_config (H := Scenarios.one_pair_yaml) env
                "Customer support dialogues"
              = Ok (Routes.HTTPException 500
                      ("Failed to generate YAML using LLM: " +:+ detail)))).
Proof.
  apply (generate_yaml_config_outcome (H := Scenarios.one_pair_yaml)
           (Scenarios.generator_env (Scenarios.replying " name: demo "))
           "Customer support dialogues"
           (LLMClient.init (Some "key") (Scenarios.replying " name: demo ") None)).
  reflexivity.
Defined.

(** The text [ name: demo ] is answered stripped. *)
Example generated_text_is_stripped :
  generate_yaml_config (H := Scenarios.one_pair_yaml)
    (Scenarios.generator_env (Scenarios.replying " name: demo "))
    "Customer support dialogues"
  = Ok (Routes.Respond (Dict [("yaml", Str "name: demo")])).
Proof. vm_compute. reflexivity. Qed.

(** X26: a failed call of the model is answered as a configuration.  The
    client returns the message of the failure as if it were the text of the
    model; when the parser reads that message as a mapping, or rejects it
    before and after the cleaning, the function answers with the message
    as the YAML text, and no failure is reported. *)
Theorem failed_call_is_answered_as_yaml `{Yaml.Lib} (env : generator_env)
    (description : string) (llm_client : LLMClient.t) (e : exn) :
  new_client env = Ok llm_client ->
  LLMClient.generate_text_try llm_client (server_files env)
    (prompt_for description (current_datetime env)) [] = Raise e ->
  let text := "Error generating response: " +:+ exn_str e in
  ((exists items, Yaml.safe_load text = Yaml.Loaded (Dict items))
   \/ (exists message message',
         Yaml.safe_load text = Yaml.YAMLError message
         /\ Yaml.safe_load (clean_yaml text) = Yaml.YAMLError message')) ->
  generate_yaml_config env description
  = Ok (Routes.Respond (Dict [("yaml", Str (PyStr.strip text))])).
Proof.
  intros Hclient Hfail text Hparse.
  unfold generate_yaml_config, generate_yaml_try.
  rewrite Hclient. cbn [mbind result_bind bind].
  unfold LLMClient.generate_text. rewrite Hfail.
  cbn [try_except mbind result_bind bind]. fold text.
  destruct Hparse as [[items Hitems] | (message & message' & Hm & Hm')].
  - rewrite Hitems.
    destruct (missing_fields_of_mapping required_fields items []) as [l ->].
    reflexivity.
  - rewrite Hm, Hm'. reflexivity.
Qed.

Lemma failed_call_is_answered_as_yaml_witness :
  generate_yaml_config (H := Scenarios.one_pair_yaml)
    (Scenarios.generator_env (Examples.refusing "503 Service Unavailable"))
    "Customer support dialogues"
  = Ok (Routes.Respond
          (Dict [("yaml", Str "Error generating response: 503 Service Unavailable")])).
Proof.
  apply (failed_call_is_answered_as_yaml (H := Scenarios.one_pair_yaml)
           (Scenarios.generator_env (Examples.refusing "503 Service Unavailable"))
           "Customer support dialogues"
           (LLMClient.init (Some "key") (Examples.refusing "503 Service Unavailable") None)
           (Exn OtherError "503 Service Unavailable")).
  - reflexivity.
  - reflexivity.
  - left. eexists. vm_compute. reflexivity.
Defined.

(** *** The suggested name *)

Lemma list_ascii_app (a b : string) :
  list_ascii_of_string (a +:+ b) = list_ascii_of_string a ++ list_ascii_of_string b.
Proof.
  induction a as [|c a IH]; [reflexivity |].
  rewrite StrFacts.app_cons. simpl. now rewrite IH.
Qed.

Lemma lower_app (a b : string) :
  PyStr.lower (a +:+ b) = PyStr.lower a +:+ PyStr.lower b.
Proof.
  induction a as [|c a IH]; [reflexivity |].
  rewrite StrFacts.app_cons. simpl. now rewrite IH.
Qed.

Lemma lower_char_idem (c : ascii) :
  PyStr.lower_char (PyStr.lower_char c) = PyStr.lower_char c.
Proof. destruct c as [[] [] [] [] [] [] [] []]; reflexivity. Qed.

Lemma lower_idem (s : string) : PyStr.lower (PyStr.lower s) = PyStr.lower s.
Proof.
  induction s as [|c s IH]; [reflexivity |].
  simpl. now rewrite lower_char_idem, IH.
Qed.

(** The words of a text: none is empty, none holds white space, and each
    is in lower case when the text is. *)
Lemma split_ws_from_words (cur s : string) :
  Forall (fun c => PyStr.isspace c = false) (list_ascii_of_string cur) ->
  PyStr.lower cur = cur -> PyStr.lower s = s ->
  Forall (fun w => w <> ""
                   /\ Forall (fun c => PyStr.isspace c = false) (list_ascii_of_string w)
                   /\ PyStr.lower w = w)
         (PyText.split_ws_from cur s).
Proof.
  revert cur. induction s as [|c s IH]; intros cur Hcur Hlow Hs.
  - simpl. destruct cur; simpl; constructor; [| constructor].
    repeat split; [discriminate | exact Hcur | exact Hlow].
  - simpl in Hs. injection Hs as Hc Hs. simpl PyText.split_ws_from.
    destruct (PyStr.isspace c) eqn:Ec.
    + destruct cur as [|x cur]; cbn [PyStr.truthy].
      * apply IH; [constructor | reflexivity | exact Hs].
      * constructor; [repeat split; [discriminate | exact Hcur | exact Hlow] |].
        apply IH; [constructor | reflexivity | exact Hs].
    + apply IH; [| | exact Hs].
      * rewrite list_ascii_app. apply Forall_app. split; [exact Hcur |].
        simpl. constructor; [exact Ec | constructor].
      * rewrite lower_app, Hlow. simpl. now rewrite Hc.
Qed.

(** A text without white space is its own single word. *)
Lemma split_ws_from_one_word (cur s : string) :
  Forall (fun c => PyStr.isspace c = false) (list_ascii_of_string s) ->
  PyText.split_ws_from cur s
  = if PyStr.truthy (cur +:+ s) then [cur +:+ s] else [].
Proof.
  revert cur. induction s as [|c s IH]; intros cur Hs.
  - simpl. now rewrite StrFacts.app_nil_r.
  - simpl in Hs. apply Forall_cons in Hs as [Hc Hs].
    simpl PyText.split_ws_from. rewrite Hc, (IH _ Hs), StrFacts.app_assoc.
    reflexivity.
Qed.

Lemma join_words (l : list string) :
  Forall (fun w => w <> ""
                   /\ Forall (fun c => PyStr.isspace c = false) (list_ascii_of_string w)
                   /\ PyStr.lower w = w) l ->
  Forall (fun c => PyStr.isspace c = false) (list_ascii_of_string (PyText.join "_" l))
  /\ PyStr.lower (PyText.join "_" l) = PyText.join "_" l.
Proof.
  induction l as [|w l IH]; intros Hl; [split; [constructor | reflexivity] |].
  apply Forall_cons in Hl as [(_ & Hw & Hlw) Hl]. specialize (IH Hl).
  destruct l as [|w' l]; [split; assumption |].
  rewrite join_cons by discriminate.
  destruct IH as [IH1 IH2]. split.
  - rewrite !list_ascii_app. apply Forall_app. split; [exact Hw |].
    apply Forall_app. split; [| exact IH1].
    constructor; [reflexivity | constructor].
  - rewrite !lower_app, Hlw, IH2. reflexivity.
Qed.

(** X27: the name suggested for the dataset.  It is made of the first
    three words of the description at most, in lower case and joined by
    underscores: it holds no white space, so it is a single word, it is in
    lower case, and taking the name of the name gives the name again. *)
Theorem dataset_name_is_one_word (description : string) :
  PyText.split_ws (dataset_name description)
  = (if PyStr.truthy (dataset_name description) then [dataset_name description] else [])
  /\ PyStr.lower (dataset_name description) = dataset_name description
  /\ dataset_name (dataset_name description) = dataset_name description
  /\ (length (firstn 3 (PyText.split_ws (PyStr.lower description))) <= 3)%nat.
Proof.
  assert (Hwords : Forall (fun w => w <> ""
                      /\ Forall (fun c => PyStr.isspace c = false) (list_ascii_of_string w)
                      /\ PyStr.lower w = w)
                     (firstn 3 (PyText.split_ws (PyStr.lower description)))).
  { apply Forall_take. unfold PyText.split_ws.
    apply split_ws_from_words; [constructor | reflexivity | apply lower_idem]. }
  destruct (join_words _ Hwords) as [Hspace Hlower].
  fold (dataset_name description) in Hspace, Hlower.
  assert (Hone : PyText.split_ws (dataset_name description)
                 = (if PyStr.truthy (dataset_name description)
                    then [dataset_name description] else [])).
  { unfold PyText.split_ws. now rewrite split_ws_from_one_word. }
  split; [exact Hone |]. split; [exact Hlower |]. split.
  - unfold dataset_name at 1. rewrite Hlower, Hone.
    destruct (dataset_name description); reflexivity.
  - rewrite length_firstn. lia.
Qed.

Example dataset_name_of_description :
  dataset_name ("  Customer   SUPPORT dialogues" +:+ PyStr.nl +:+ "in French ")
  = "customer_support_dialogues".
Proof. vm_compute. reflexivity. Qed.

End GeneratorFacts.

(** ** The registries of open connections *)
Module RegistryFacts.

Import Py.

Lemma remove_present (x : nat) (l : list nat) :
  ConnectionManager.contains x l = true ->
  exists l', ConnectionManager.remove x l = Ok l' /\ length l = S (length l').
Proof.
  unfold ConnectionManager.contains.
  induction l as [|y l IH]; simpl; [discriminate |].
  destruct (Nat.eqb x y); simpl; [eauto |].
  intros H. destruct (IH H) as (l' & -> & Hlen).
  exists (y :: l'). split; [reflexivity | simpl; lia].
Qed.

Lemma remove_absent (x : nat) (l : list nat) :
  ConnectionManager.contains x l = false ->
  ConnectionManager.remove x l = Raise (Exn ValueError "list.remove(x): x not in list").
Proof.
  unfold ConnectionManager.contains.
  induction l as [|y l IH]; simpl; [reflexivity |].
  destruct (Nat.eqb x y); simpl; [discriminate |].
  intros H. now rewrite (IH H).
Qed.

Lemma remove_appended (x : nat) (l : list nat) :
  ConnectionManager.contains x l = false ->
  ConnectionManager.remove x (l ++ [x]) = Ok l.
Proof.
  unfold ConnectionManager.contains.
  induction l as [|y l IH]; simpl.
  - now rewrite Nat.eqb_refl.
  - destruct (Nat.eqb x y); simpl; [discriminate |].
    intros H. now rewrite (IH H).
Qed.

Lemma contains_appended (x : nat) (l : list nat) :
  ConnectionManager.contains x (l ++ [x]) = true.
Proof.
  unfold ConnectionManager.contains. rewrite existsb_app. simpl.
  rewrite Nat.eqb_refl. apply orb_true_r.
Qed.

(** X28: the registry of the connections per configuration.  A
    disconnection never raises.  A registry in which no configuration has
    an empty list stays such a registry under connections and
    disconnections, and in such a registry the disconnection of a socket
    undoes its connection when the socket was not yet registered for the
    configuration.  A socket that cannot be accepted is not registered. *)
Theorem sample_registry_round_trip (config_id : string) (websocket : nat)
    (active_connections : gmap string (list nat)) :
  let connected :=
    fst (SampleResponseConnectionManager.connect (Ok tt) config_id websocket
           active_connections) in
  let disconnected :=
    fst (SampleResponseConnectionManager.disconnect config_id websocket
           active_connections) in
  snd (SampleResponseConnectionManager.disconnect config_id websocket
         active_connections) = Ok tt
  /\ (forall e,
        SampleResponseConnectionManager.connect (Raise e) config_id websocket
          active_connections = (active_connections, Raise e))
  /\ (exists l, connected !! config_id = Some (l ++ [websocket])
                /\ (active_connections !! config_id = Some l
                    \/ active_connections !! config_id = None /\ l = []))
  /\ ((forall k l, active_connections !! k = Some l -> l <> []) ->
      (forall k l, connected !! k = Some l -> l <> [])
      /\ (forall k l, disconnected !! k = Some l -> l <> [])
      /\ ((forall l, active_connections !! config_id = Some l ->
                     ConnectionManager.contains websocket l = false) ->
          fst (SampleResponseConnectionManager.disconnect config_id websocket connected)
          = active_connections)).
Proof.
  intros connected disconnected. subst connected disconnected.
  unfold SampleResponseConnectionManager.connect,
    SampleResponseConnectionManager.disconnect.
  split; [| split; [reflexivity |]].
  - destruct (active_connections !! config_id) as [l|]; [| reflexivity].
    destruct (ConnectionManager.contains websocket l) eqn:Hin.
    + destruct (remove_present _ _ Hin) as (l' & -> & _). now destruct l'.
    + now destruct l.
  - cbn [fst]. split.
    + destruct (active_connections !! config_id) as [l|] eqn:Hl.
      * exists l. rewrite lookup_alter_eq, Hl. split; [reflexivity | now left].
      * exists []. rewrite lookup_alter_eq, lookup_insert_eq.
        split; [reflexivity | now right].
    + intros Hinv. split; [| split].
      * intros k l.
        destruct (decide (k = config_id)) as [-> | Hne].
        -- rewrite lookup_alter_eq.
           destruct (active_connections !! config_id) as [l0|] eqn:Hl.
           ++ rewrite Hl. intros [= <-]. now destruct l0.
           ++ rewrite lookup_insert_eq. intros [= <-]. discriminate.
        -- rewrite lookup_alter_ne by congruence.
           destruct (active_connections !! config_id);
             [| rewrite lookup_insert_ne by congruence]; apply Hinv.
      * intros k l.
        destruct (active_connections !! config_id) as [l0|] eqn:Hl; [| apply Hinv].
        destruct (ConnectionManager.contains websocket l0) eqn:Hin.
        -- destruct (remove_present _ _ Hin) as (l' & -> & _).
           destruct l' as [|x l']; cbn [fst].
           ++ destruct (decide (k = config_id)) as [-> | Hne].
              ** now rewrite lookup_delete_eq.
              ** rewrite lookup_delete_ne by congruence. apply Hinv.
           ++ destruct (decide (k = config_id)) as [-> | Hne].
              ** rewrite lookup_insert_eq. now intros [= <-].
              ** rewrite lookup_insert_ne by congruence. apply Hinv.
        -- destruct l0 as [|x l0]; [now specialize (Hinv _ _ Hl) |].
           cbn [fst].
           destruct (decide (k = config_id)) as [-> | Hne].
           ++ rewrite lookup_insert_eq. now intros [= <-].
           ++ rewrite lookup_insert_ne by congruence. apply Hinv.
      * intros Hfresh.
        destruct (active_connections !! config_id) as [l0|] eqn:Hl.
        -- rewrite lookup_alter_eq, Hl. cbn [fmap option_fmap option_map].
           rewrite contains_appended, (remove_appended _ _ (Hfresh l0 eq_refl)).
           destruct l0 as [|x l0]; [now specialize (Hinv _ _ Hl) |].
           cbn [fst]. apply map_eq. intros k.
           destruct (decide (k = config_id)) as [-> | Hne].
           ++ now rewrite lookup_insert_eq.
           ++ now rewrite lookup_insert_ne, lookup_alter_ne by congruence.
        -- rewrite lookup_alter_eq, lookup_insert_eq.
           cbn [fmap option_fmap option_map app].
           unfold ConnectionManager.contains. simpl. rewrite Nat.eqb_refl. simpl.
           apply map_eq. intros k.
           destruct (decide (k = config_id)) as [-> | Hne].
           ++ now rewrite lookup_delete_eq.
           ++ now rewrite lookup_delete_ne, lookup_alter_ne, lookup_insert_ne
                by congruence.
Qed.

(** X29: the registry of the configuration list.  The disconnection of a
    socket that is registered removes its first entry; the disconnection
    of a socket that is not registered raises [ValueError] and leaves the
    registry as it is.  So a disconnection undoes the connection of a
    fresh socket, and a second disconnection of that socket raises. *)
Theorem registry_disconnect (websocket : nat) (active_connections : list nat) :
  (ConnectionManager.contains websocket active_connections = true ->
   exists l, ConnectionManager.disconnect websocket active_connections = (l, Ok tt)
             /\ length active_connections = S (length l))
  /\ (ConnectionManager.contains websocket active_connections = false ->
      ConnectionManager.disconnect websocket active_connections
      = (active_connections, Raise (Exn ValueError "list.remove(x): x not in list"))
      /\ ConnectionManager.disconnect websocket
           (fst (ConnectionManager.connect (Ok tt) websocket active_connections))
         = (active_connections, Ok tt)
      /\ snd (ConnectionManager.disconnect websocket
                (fst (ConnectionManager.disconnect websocket
                        (fst (ConnectionManager.connect (Ok tt) websocket
                                active_connections)))))
         = Raise (Exn ValueError "list.remove(x): x not in list")).
Proof.
  unfold ConnectionManager.disconnect, ConnectionManager.connect. cbn [fst].
  split.
  - intros Hin. destruct (remove_present _ _ Hin) as (l & -> & Hlen). eauto.
  - intros Hout. rewrite (remove_appended _ _ Hout). cbn [fst].
    rewrite (remove_absent _ _ Hout). repeat split.
Qed.

End RegistryFacts.

(** ** From the example input to the record *)
Module FlowFacts.

Import Py Processor.

Lemma replace_from_skip (old new a rest : string) :
  PyStr.replace_from old new (String.length a) (a +:+ rest)
  = PyStr.replace_from old new 0 rest.
Proof.
  induction a as [|c a IH]; [now destruct rest |].
  rewrite StrFacts.app_cons. simpl. exact IH.
Qed.

Lemma replace_from_absent (old new s : string) :
  PyStr.contains old s = false -> PyStr.replace_from old new 0 s = s.
Proof.
  induction s as [|c s IH]; [reflexivity |].
  simpl. intros H. apply orb_false_iff in H as [H1 H2].
  now rewrite H1, (IH H2).
Qed.

(** The first occurrence of [old] is replaced, and the text before it is
    kept. *)
Lemma replace_from_first (old new pre rest : string) :
  old <> "" ->
  PyStr.contains old (pre +:+ PyStr.drop_last old) = false ->
  PyStr.replace_from old new 0 (pre +:+ old +:+ rest)
  = pre +:+ new +:+ PyStr.replace_from old new 0 rest.
Proof.
  intros Hold. induction pre as [|a pre IH]; intros H.
  - rewrite !StrFacts.app_nil_l.
    destruct old as [|x old]; [congruence |].
    rewrite StrFacts.app_cons. simpl PyStr.replace_from.
    rewrite Ascii.eqb_refl, StrFacts.startswith_self_app. simpl andb. cbv iota.
    rewrite Nat.sub_0_r, replace_from_skip. reflexivity.
  - rewrite StrFacts.app_cons in H. simpl in H.
    apply orb_false_iff in H as [H1 H2].
    rewrite !StrFacts.app_cons. simpl PyStr.replace_from.
    destruct (TextFacts.drop_last_last old Hold) as [c Hc].
    assert (Hs : PyStr.startswith old (String a (pre +:+ old +:+ rest)) = false).
    { rewrite Hc at 2. rewrite StrFacts.app_assoc, <- StrFacts.app_assoc.
      rewrite <- StrFacts.app_cons.
      apply TextFacts.startswith_app_false; [| exact H1].
      simpl. rewrite TextFacts.length_app, TextFacts.length_drop_last. lia. }
    rewrite Hs, (IH H2). reflexivity.
Qed.

Lemma range_lookup_nat (n : Z) (i : nat) (z : Z) :
  range n !! i = Some z -> z = Z.of_nat i.
Proof.
  unfold range. rewrite list_lookup_fmap.
  destruct (seq 0 (Z.to_nat n) !! i) as [k|] eqn:E; [| discriminate].
  apply lookup_seq in E as [-> _]. now intros [= <-].
Qed.

(** X30: from the example input to the record.  For a template that names
    the context as the structure guide does (the marker, the placeholder,
    then the follow-on phrase, each once), the prompt of a work item is the
    template with the cleaned example in the place of the placeholder, and
    the input request that the worker records for it is what stands between
    the marker and the follow-on phrase, stripped: the example itself when
    only white space surrounds the placeholder. *)
Theorem example_reaches_the_record `{Json.Lib} (store : db) (draws : Z -> nat)
    (mongo_id : string) (c : YAMLConfig.t) (lo hi : float) (i : nat)
    (item : work_item) (a m1 m2 post : string) :
  yaml_configs store !! mongo_id = Some c ->
  YAMLConfig.temperature_range c = Some [lo; hi] ->
  fst (process_yaml_config store draws mongo_id) !! i = Some item ->
  repair_prompt (YAMLConfig.user_prompt c)
  = a +:+ context_marker +:+ m1 +:+ placeholder +:+ m2 +:+ follow_on +:+ post ->
  let example := clean_input (random_choice (draws (Z.of_nat i)) (example_pool c)) in
  PyStr.contains placeholder
    ((a +:+ context_marker +:+ m1) +:+ PyStr.drop_last placeholder) = false ->
  PyStr.contains placeholder (m2 +:+ follow_on +:+ post) = false ->
  PyStr.contains context_marker (a +:+ PyStr.drop_last context_marker) = false ->
  PyStr.contains context_marker (m1 +:+ example +:+ m2 +:+ follow_on +:+ post) = false ->
  PyStr.contains follow_on
    (PyStr.lstrip (m1 +:+ example +:+ m2) +:+ PyStr.drop_last follow_on) = false ->
  wi_prompt item
  = a +:+ context_marker +:+ m1 +:+ example +:+ m2 +:+ follow_on +:+ post
  /\ extract_input_request (wi_prompt item)
     = Some (PyStr.strip (m1 +:+ example +:+ m2))
  /\ (forall (env : worker_env) sample metrics latency_ms,
        prepare env item = Ok (sample, metrics, latency_ms) ->
        SampleResponse.input_request sample
        = Some (PyStr.strip (m1 +:+ example +:+ m2))).
Proof.
  intros Hget Hrange Hitem Htemplate example Hp1 Hp2 Hm1 Hm2 Hf.
  rewrite (ExpanderFacts.process_yaml_config_queue _ _ _ _ _ _ Hget Hrange) in Hitem.
  simpl fst in Hitem. rewrite list_lookup_fmap in Hitem.
  destruct (range (YAMLConfig.number_of_samples c) !! i) as [z|] eqn:Hz;
    [| discriminate Hitem].
  apply range_lookup_nat in Hz. subst z. injection Hitem as <-.
  cbn [wi_prompt]. fold example.
  assert (Hprompt : PyStr.replace_from placeholder example 0
                      (repair_prompt (YAMLConfig.user_prompt c))
                    = a +:+ context_marker +:+ m1 +:+ example +:+ m2
                      +:+ follow_on +:+ post).
  { rewrite Htemplate.
    replace (a +:+ context_marker +:+ m1 +:+ placeholder +:+ m2 +:+ follow_on +:+ post)
      with ((a +:+ context_marker +:+ m1) +:+ placeholder +:+ m2 +:+ follow_on +:+ post)
      by (now rewrite !StrFacts.app_assoc).
    rewrite replace_from_first; [| discriminate | exact Hp1].
    rewrite (replace_from_absent _ _ _ Hp2).
    now rewrite !StrFacts.app_assoc. }
  rewrite Hprompt.
  assert (Hextract : extract_input_request
                       (a +:+ context_marker +:+ m1 +:+ example +:+ m2
                        +:+ follow_on +:+ post)
                     = Some (PyStr.strip (m1 +:+ example +:+ m2))).
  { replace (a +:+ context_marker +:+ m1 +:+ example +:+ m2 +:+ follow_on +:+ post)
      with (a +:+ context_marker +:+ (m1 +:+ example +:+ m2) +:+ follow_on +:+ post)
      by (now rewrite !StrFacts.app_assoc).
    apply ExtractionFacts.extract_between; [exact Hm1 | | exact Hf].
    now rewrite !StrFacts.app_assoc. }
  split; [reflexivity |]. split; [exact Hextract |].
  intros env sample metrics latency_ms Hprepare.
  apply WorkerFacts.prepare_ok in Hprepare as (cl & text & _ & _ & _ & ->).
  cbn [sample_of SampleResponse.input_request wi_prompt]. exact Hextract.
Qed.

Lemma example_reaches_the_record_witness :
  exists item,
    fst (process_yaml_config (Examples.store_of Scenarios.guide_config [])
           Examples.first_draw "cfg1") !! 1%nat = Some item
    /\ extract_input_request (wi_prompt item) = Some "tea".
Proof.
  eexists. split; [vm_compute; reflexivity |].
  destruct (example_reaches_the_record (H := MiniJson.lib)
              (Examples.store_of Scenarios.guide_config [])
              Examples.first_draw "cfg1" Scenarios.guide_config
              (Examples.tenths 1) (Examples.tenths 3) 1
              {| wi_yaml_config_id := "cfg1";
                 wi_temperature :=
                   temperature_at (Examples.tenths 1) (Examples.tenths 3) 2 1;
                 wi_top_p := Some (Examples.tenths 9);
                 wi_prompt :=
                   PyStr.replace placeholder "tea"
                     (repair_prompt (YAMLConfig.user_prompt Scenarios.guide_config));
                 wi_max_tokens := Some 750;
                 wi_seed_value := Some 42;
                 wi_model := "accounts/fireworks/models/deepseek-v3";
                 wi_output_format := Some "jsonl" |}
              ("You are creating a dataset." +:+ PyStr.nl) " " PyStr.nl
              (" user request and a response." +:+ json_instructions))
    as (_ & Hrecord & _).
  - vm_compute. reflexivity.
  - reflexivity.
  - vm_compute. reflexivity.
  - vm_compute. reflexivity.
  - vm_compute. reflexivity.
  - vm_compute. reflexivity.
  - vm_compute. reflexivity.
  - vm_compute. reflexivity.
  - vm_compute. reflexivity.
  - etransitivity; [| exact Hrecord]. vm_compute. reflexivity.
Defined.

End FlowFacts.
